(** * Task ingestion and temporal resolution: a shallow embedding

    This development embeds the decision logic of
    [src/agents/smart_todo_list_schedular/task_prioritizer.py] and states the
    properties of its specification over that embedding.

    Conventions.
    - A Python [str] is a [string]; its characters are read as code points
      below 256.
    - A Python exception is a value of [exn]; a computation that may raise
      returns a [result].
    - [datetime.timedelta] is a number of microseconds, [datetime.date] a
      proleptic Gregorian ordinal, [datetime.datetime] an ordinal with the
      microsecond of the day; the range checks of the [datetime] module are
      written out.
    - The services reached over the network (Gmail, OCR, the LLM parser, the
      calendar) and the wall clock are operations on an abstract world.
    - The Gmail client of [src/clients/google/google_gmail_client.py] is
      embedded in the module [Gmail], over the calls of the Gmail API. *)

From Stdlib Require Import ZArith Ascii String List Lia Bool.
From stdpp Require Import base option list gmap sets strings.

Local Open Scope Z_scope.
Set Warnings "-clear-no-such-hyp,-register-all".

(** ** Exceptions and results *)

Inductive exn : Type :=
| NameError (name : string)
| AttributeError (attr : string)
| ValueError
| OverflowError
| RemoteError (msg : string).

Inductive result (A : Type) : Type :=
| Ok (a : A)
| Raise (e : exn).
Arguments Ok {A} a.
Arguments Raise {A} e.

Definition rbind {A B} (r : result A) (k : A -> result B) : result B :=
  match r with
  | Ok a => k a
  | Raise e => Raise e
  end.

(** ** Python strings *)

Module PyStr.

(** [str.isspace] on a single code point below 256. *)
Definition isspace (c : ascii) : bool :=
  let n := Z.of_nat (nat_of_ascii c) in
  ((9 <=? n) && (n <=? 13)) || ((28 <=? n) && (n <=? 32))
  || (n =? 133) || (n =? 160).

(** [str.isdigit] as the pattern class [\d] sees it below 256. *)
Definition isdigit (c : ascii) : bool :=
  let n := Z.of_nat (nat_of_ascii c) in (48 <=? n) && (n <=? 57).

Definition lower_char (c : ascii) : ascii :=
  let n := Z.of_nat (nat_of_ascii c) in
  if ((65 <=? n) && (n <=? 90))
     || ((192 <=? n) && (n <=? 222) && negb (n =? 215))
  then ascii_of_nat (Z.to_nat (n + 32))
  else c.

Fixpoint lower (s : string) : string :=
  match s with
  | EmptyString => EmptyString
  | String c s' => String (lower_char c) (lower s')
  end.

Fixpoint lstrip (s : string) : string :=
  match s with
  | EmptyString => EmptyString
  | String c s' => if isspace c then lstrip s' else s
  end.

Fixpoint rstrip (s : string) : string :=
  match s with
  | EmptyString => EmptyString
  | String c s' =>
      match rstrip s' with
      | EmptyString => if isspace c then EmptyString else String c EmptyString
      | r => String c r
      end
  end.

Definition strip (s : string) : string := rstrip (lstrip s).

(** Truth value of a string: non-empty. *)
Definition truthy (s : string) : bool :=
  match s with EmptyString => false | _ => true end.

(** Truth value of an [Optional[str]]. *)
Definition truthy_opt (o : option string) : bool :=
  match o with Some s => truthy s | None => false end.

(** [sub in s]. *)
Fixpoint contains (sub s : string) : bool :=
  String.prefix sub s
  || match s with
     | EmptyString => false
     | String _ s' => contains sub s'
     end.

(** The longest prefix of characters satisfying [p], and the rest. *)
Fixpoint span (p : ascii -> bool) (s : string) : string * string :=
  match s with
  | EmptyString => (EmptyString, EmptyString)
  | String c s' =>
      if p c then let '(a, b) := span p s' in (String c a, b)
      else (EmptyString, s)
  end.

(** If [s] starts with [pre], the remainder. *)
Fixpoint strip_prefix (pre s : string) : option string :=
  match pre, s with
  | EmptyString, _ => Some s
  | String a pre', String b s' =>
      if Ascii.eqb a b then strip_prefix pre' s' else None
  | String _ _, EmptyString => None
  end.

Definition digit_value (c : ascii) : Z := Z.of_nat (nat_of_ascii c) - 48.

Fixpoint decimal_go (acc : Z) (s : string) : Z :=
  match s with
  | EmptyString => acc
  | String c s' => decimal_go (10 * acc + digit_value c) s'
  end.

(** Default of [sys.get_int_max_str_digits()]. *)
Definition int_max_str_digits : nat := 4300.

(** [int(s)] on a non-empty string of decimal digits. *)
Definition int_of_digits (s : string) : result Z :=
  if Nat.ltb int_max_str_digits (String.length s) then Raise ValueError
  else Ok (decimal_go 0 s).

End PyStr.

(** ** The [datetime] module *)

Module PyTime.

Definition us_per_second : Z := 1000000.
Definition us_per_minute : Z := 60 * us_per_second.
Definition us_per_hour : Z := 60 * us_per_minute.
Definition us_per_day : Z := 24 * us_per_hour.

(** [timedelta]: a signed number of microseconds. *)
Record timedelta : Type := { td_us : Z }.

(** [timedelta.max.days]. *)
Definition max_delta_days : Z := 999999999.

Definition td_days (td : timedelta) : Z := td_us td / us_per_day.

(** The constructor normalises its arguments and refuses a span whose day
    count has a magnitude above [max_delta_days]. *)
Definition timedelta_of_us (us : Z) : result timedelta :=
  let days := us / us_per_day in
  if (- max_delta_days <=? days) && (days <=? max_delta_days)
  then Ok {| td_us := us |}
  else Raise OverflowError.

Definition timedelta_days (n : Z) : result timedelta :=
  timedelta_of_us (n * us_per_day).
Definition timedelta_hours (n : Z) : result timedelta :=
  timedelta_of_us (n * us_per_hour).
Definition timedelta_minutes (n : Z) : result timedelta :=
  timedelta_of_us (n * us_per_minute).

(** [timedelta(days=1)] and [timedelta(hours=1)]. *)
Definition one_day : timedelta := {| td_us := us_per_day |}.
Definition one_hour : timedelta := {| td_us := us_per_hour |}.

(** [date]: the proleptic Gregorian ordinal, 1 for 0001-01-01. *)
Record date : Type := { ordinal : Z }.

(** [date.max.toordinal()], the ordinal of 9999-12-31. *)
Definition max_ordinal : Z := 3652059.

Definition date_valid (d : date) : Prop :=
  1 <= ordinal d <= max_ordinal.

(** [time] without tzinfo: the microsecond of the day. *)
Record time : Type := { tod_us : Z }.

(** [time(hour, minute)] for literal arguments in range. *)
Definition time_hm (h m : Z) : time :=
  {| tod_us := h * us_per_hour + m * us_per_minute |}.

(** [datetime]: a date, the microsecond of the day and, for an aware value,
    the UTC offset in minutes. *)
Record datetime : Type := {
  dt_date : date;
  dt_us : Z;
  dt_tz : option Z
}.

Definition datetime_valid (dt : datetime) : Prop :=
  date_valid (dt_date dt) /\ 0 <= dt_us dt < us_per_day.

Definition hour (dt : datetime) : Z := dt_us dt / us_per_hour.

(** [dt.time()] drops the tzinfo. *)
Definition time_of (dt : datetime) : time := {| tod_us := dt_us dt |}.

(** [datetime.combine(d, t)] for a naive [t]. *)
Definition combine (d : date) (t : time) : datetime :=
  {| dt_date := d; dt_us := tod_us t; dt_tz := None |}.

(** [d + td] on a date uses the whole days of [td] only. *)
Definition date_add (d : date) (td : timedelta) : result date :=
  let o := ordinal d + td_days td in
  if (0 <? o) && (o <=? max_ordinal) then Ok {| ordinal := o |}
  else Raise OverflowError.

(** [dt + td] on a datetime keeps the tzinfo. *)
Definition datetime_add (dt : datetime) (td : timedelta) : result datetime :=
  let total := ordinal (dt_date dt) * us_per_day + dt_us dt + td_us td in
  let o := total / us_per_day in
  if (0 <? o) && (o <=? max_ordinal)
  then Ok {| dt_date := {| ordinal := o |};
             dt_us := total mod us_per_day;
             dt_tz := dt_tz dt |}
  else Raise OverflowError.

(** A start or end value handed to the calendar: a [date] (an all-day
    event) or a [datetime]. *)
Inductive temporal : Type :=
| TDate (d : date)
| TDateTime (dt : datetime).

End PyTime.
Export PyTime.

(** ** Name resolution *)

(** The names bound at module level of [task_prioritizer.py] by its imports,
    assignments and [def]s. *)
Definition module_globals : list string :=
  [ "os"; "mimetypes"; "load_dotenv"; "datetime"; "timedelta"; "date"; "time";
    "List"; "Optional"; "GmailClient"; "GoogleCalendarClient"; "OCRService";
    "LLMTaskParserService"; "Task"; "BASE_DIR"; "DOWNLOAD_ATTACHMENTS_DIR";
    "PROCESSED_EMAIL_IDS_LOG"; "REMARKABLE_SENDER_EMAIL";
    "REMARKABLE_SUBJECT_KEYWORD"; "PYTESSERACT_CMD_PATH"; "OPENAI_API_KEY";
    "CALENDAR_TIMEZONE"; "load_processed_email_ids";
    "save_processed_email_id"; "process_content_for_tasks";
    "parse_duration_string"; "create_calendar_events_from_tasks"; "main" ]%string.

(** The builtins the module uses. *)
Definition builtins : list string :=
  [ "print"; "set"; "open"; "isinstance"; "int"; "len"; "Exception";
    "ValueError"; "FileNotFoundError" ]%string.

(** The attributes of class [GmailClient] in [google_gmail_client.py]. *)
Definition gmail_client_attrs : list string :=
  [ "_instance"; "DEFAULT_SCOPES"; "__new__"; "__init__"; "_authenticate";
    "search_messages"; "get_message"; "download_attachments";
    "mark_message_as_read"; "move_message_to_label" ]%string.

(** Looking a global name up: module globals, then builtins. *)
Definition lookup_name (g : list string) (name : string) : result unit :=
  if bool_decide (name ∈ g ++ builtins) then Ok tt
  else Raise (NameError name).

Definition lookup_attr (attrs : list string) (attr : string) : result unit :=
  if bool_decide (attr ∈ attrs) then Ok tt
  else Raise (AttributeError attr).

(** ** [parse_duration_string] *)

(** An optional token of the pattern: taken when present. *)
Definition optional_token (tok s : string) : string * string :=
  match PyStr.strip_prefix tok s with
  | Some r => (tok, r)
  | None => (EmptyString, s)
  end.

(** The second group, [(min(?:ute)?s?|h(?:our)?s?)], matched at the start
    of [s]: the text it captures. *)
Definition match_unit (s : string) : option string :=
  match PyStr.strip_prefix "min" s with
  | Some r =>
      let '(a, r1) := optional_token "ute" r in
      let '(b, _) := optional_token "s" r1 in
      Some ("min" +:+ a +:+ b)
  | None =>
      match PyStr.strip_prefix "h" s with
      | Some r =>
          let '(a, r1) := optional_token "our" r in
          let '(b, _) := optional_token "s" r1 in
          Some ("h" +:+ a +:+ b)
      | None => None
      end
  end.

(** [re.match(r'(\d+)\s*(min(?:ute)?s?|h(?:our)?s?)', s)]: groups 1 and 2.
    The greedy runs of digits and of whitespace are the only ones that can
    succeed: a shorter run leaves a digit or a space where the unit has to
    start. *)
Definition re_match_duration (s : string) : option (string * string) :=
  let '(digits, r) := PyStr.span PyStr.isdigit s in
  match digits with
  | EmptyString => None
  | _ =>
      let '(_, r') := PyStr.span PyStr.isspace r in
      match match_unit r' with
      | Some unit => Some (digits, unit)
      | None => None
      end
  end.

(** The function body, run in a module whose global names are [g]. *)
Definition parse_duration_string_in (g : list string)
    (duration_str : option string) : result timedelta :=
  match duration_str with
  | None => timedelta_hours 1
  | Some s =>
      if negb (PyStr.truthy s) then timedelta_hours 1
      else
        let duration_str := PyStr.lower s in
        rbind (lookup_name g "re") (fun _ =>
        match re_match_duration duration_str with
        | Some (digits, unit) =>
            rbind (PyStr.int_of_digits digits) (fun value =>
            if PyStr.contains "min" unit then timedelta_minutes value
            else if PyStr.contains "h" unit then timedelta_hours value
            else timedelta_hours 1)
        | None =>
            if PyStr.contains "flexible" duration_str then timedelta_hours 1
            else timedelta_hours 1
        end)
  end.

(** The module with [import re] added. *)
Definition repaired_globals : list string := "re"%string :: module_globals.

(** [parse_duration_string] as the module defines it. *)
Definition parse_duration_string : option string -> result timedelta :=
  parse_duration_string_in module_globals.

(** The unit tokens as the specification lists them. *)
Inductive unit_kind : Type := Minutes | Hours.

Definition spec_minute_tokens : list string :=
  [ "min"; "mins"; "minute"; "minutes" ]%string.
Definition spec_hour_tokens : list string :=
  [ "h"; "hr"; "hrs"; "hour"; "hours" ]%string.

(** The unit a token stands for, without regard to case. *)
Definition spec_unit_of_token (token : string) : option unit_kind :=
  if bool_decide (PyStr.lower token ∈ spec_minute_tokens) then Some Minutes
  else if bool_decide (PyStr.lower token ∈ spec_hour_tokens) then Some Hours
  else None.

(** The quantity in the unit. *)
Definition spec_duration (u : unit_kind) (quantity : Z) : result timedelta :=
  match u with
  | Minutes => timedelta_minutes quantity
  | Hours => timedelta_hours quantity
  end.

Fixpoint all_chars (p : ascii -> bool) (s : string) : bool :=
  match s with
  | EmptyString => true
  | String c s' => p c && all_chars p s'
  end.

(** ** Data *)

(** The value of [task.dueDate]: [None], a [date] or a [datetime]. *)
Inductive due : Type :=
| DueNone
| DueDate (d : date)
| DueDateTime (dt : datetime).

(** Modelled from the spec: the [Task] model ([src/models/task_model.py] is
    not part of the sources at hand); the fields are the attributes that
    [create_calendar_events_from_tasks] reads. *)
Record Task : Type := {
  task : string;
  priority : string;
  dueDate : due;
  suggestedTimeOfDay : option string;
  suggestedDuration : option string;
  source_line : string;
  line_number : option Z
}.

(** The pair [(start_datetime_for_event, end_datetime_for_event)]. *)
Record Window : Type := {
  w_start : temporal;
  w_end : temporal
}.

(** The pair stands for an all-day event when it carries [date] values. *)
Definition isAllDay (w : Window) : bool :=
  match w_start w with
  | TDate _ => true
  | TDateTime _ => false
  end.

(** The instant a start or end value denotes: a [date] is its midnight. *)
Definition instant (t : temporal) : datetime :=
  match t with
  | TDate d => combine d (time_hm 0 0)
  | TDateTime dt => dt
  end.

(** The window from nine to ten in the morning of the day [d]. *)
Definition morning_slot (d : date) : Window :=
  {| w_start := TDateTime (combine d (time_hm 9 0));
     w_end := TDateTime (combine d (time_hm 10 0)) |}.

(** The values interpolated into the event description. *)
Record Description : Type := {
  desc_priority : string;
  desc_source_line : string;
  desc_line_number : option Z;
  desc_processed_on : date
}.

(** The keyword arguments of [calendar_client.create_event]. *)
Record EventRequest : Type := {
  ev_summary : string;
  ev_description : Description;
  ev_start : temporal;
  ev_end : temporal;
  ev_timezone : string
}.

(** What a run does that can be observed from outside: the calls to the
    calendar and the progress messages it prints. *)
Inductive Action : Type :=
| Processing (msg_id : string)
| Skipped (msg_id : string)
| WarnNotIso (summary suggested : string)
| CreateEvent (ev : EventRequest)
| MarkedProcessed (msg_id : string)
| NotMarked (msg_id : string)
| NoTasks (msg_id : string).

(** ** The world *)

(** The standard-library functions taken as given, the configuration read
    from the environment, and the remote services. An operation on the world
    [W] returns its answer and the next world; one that may raise returns a
    [result]. [Msg] is the message payload of the Gmail API. *)
Class Services (W Msg : Type) : Type := {
  (** [datetime.fromisoformat]; [None] stands for [ValueError]. *)
  fromisoformat : string -> option datetime;
  (** [os.path.splitext(path)[1]]. *)
  splitext_ext : string -> string;
  (** [mimetypes.guess_type(path)[0]]. *)
  guess_type : string -> option string;
  sender_email : string;
  subject_keyword : string;
  calendar_timezone : string;
  (** [datetime.now()]; [date.today()] is its date. *)
  clock_now : W -> datetime * W;
  (** Creating the download directory, the clients and the services. *)
  initialize : W -> result unit * W;
  gmail_service : W -> bool;
  calendar_service : W -> bool;
  search_messages : string -> W -> result (list string) * W;
  get_message : string -> W -> result (option Msg) * W;
  download_attachments : Msg -> W -> result (list string) * W;
  (** What [GmailClient.get_email_body_text] would return; the class does
      not define it, see [gmail_client_attrs]. *)
  get_email_body_text : Msg -> W -> result (option string) * W;
  mark_message_as_read : string -> W -> result bool * W;
  extract_text_from_pdf : string -> W -> result (option string) * W;
  extract_text_from_image : string -> W -> result (option string) * W;
  parse_text_for_tasks : string -> W -> result (list Task) * W;
  (** Modelled from the spec: [create_event] of the calendar client, whose
      source is not at hand, returns whether the event was created. *)
  create_event : EventRequest -> W -> result bool * W;
  (** [os.path.exists] followed by [os.remove]. *)
  remove_attachment : string -> W -> result unit * W
}.

(** The state a run threads: the world, the content of
    [processed_emails.log] ([None] while the file does not exist) and the
    actions so far, oldest first.

    The ledger file is kept apart from the world, so that only
    [save_processed_email_id] changes it. This is an assumption on the
    world and not a property of the code: the file lives in [BASE_DIR]
    beside the download directory, [download_attachments] writes to
    [os.path.join(download_dir, filename)] for the file name a message
    gives, and [main] removes every path it was given, so that a part
    named [../processed_emails.log] would replace and then remove the
    ledger. What is stated below about the ledger file across the calls of
    the services holds for the worlds in which no downloaded path is the
    ledger file; what a run commits is also stated on the trace, by the
    [MarkedProcessed] actions, where this assumption plays no part. *)
Record State (W : Type) : Type := {
  world : W;
  ledger : option string;
  trace : list Action
}.
Arguments world {W} s.
Arguments ledger {W} s.
Arguments trace {W} s.
Arguments Build_State {W} world ledger trace.

(** ** The ledger file *)

Definition LF : ascii := ascii_of_nat 10.
Definition CR : ascii := ascii_of_nat 13.
Definition newline : string := String LF EmptyString.

(** Reading in text mode translates [CR LF] and a lone [CR] to [LF]. *)
Fixpoint universal_newlines (s : string) : string :=
  match s with
  | EmptyString => EmptyString
  | String c s' =>
      if Ascii.eqb c CR then
        match s' with
        | String c' _ =>
            if Ascii.eqb c' LF then universal_newlines s'
            else String LF (universal_newlines s')
        | EmptyString => String LF EmptyString
        end
      else String c (universal_newlines s')
  end.

(** The lines of a text, each with its terminator; the last one may lack
    it. *)
Fixpoint readlines (s : string) : list string :=
  match s with
  | EmptyString => []
  | String c s' =>
      if Ascii.eqb c LF then String c EmptyString :: readlines s'
      else match readlines s' with
           | [] => [String c EmptyString]
           | l :: ls => String c l :: ls
           end
  end.

(** Iterating over the file opened with [open(path, 'r')]. *)
Definition file_lines (content : string) : list string :=
  readlines (universal_newlines content).

(** [load_processed_email_ids], on the content of the file. *)
Definition load_ids (file : option string) : gset string :=
  match file with
  | None => ∅
  | Some content =>
      list_to_set
        (PyStr.strip <$>
           filter (λ line, Is_true (PyStr.truthy (PyStr.strip line)))
                  (file_lines content))
  end.

(** [save_processed_email_id], on the content of the file: mode ['a']
    creates the file when it is missing. *)
Definition save_id (email_id : string) (file : option string) : option string :=
  Some (default EmptyString file +:+ email_id +:+ newline).

(** ** The monad of a run: state and exceptions *)

Definition M (W A : Type) : Type := State W -> result A * State W.

Definition ret {W A} (a : A) : M W A := fun s => (Ok a, s).

Definition bind {W A B} (m : M W A) (k : A -> M W B) : M W B :=
  fun s =>
    match m s with
    | (Ok a, s') => k a s'
    | (Raise e, s') => (Raise e, s')
    end.

Notation "'let*' x ':=' c 'in' k" := (bind c (fun x => k))
  (at level 10, x name, c at level 100, k at level 200).
Notation "c ';;' k" := (bind c (fun _ => k))
  (at level 100, k at level 200, right associativity).

(** A pure computation that may raise. *)
Definition lift {W A} (r : result A) : M W A := fun s => (r, s).

(** A call to a service: it changes the world and, by the assumption made
    with [State], not the ledger file. *)
Definition call {W A} (op : W -> result A * W) : M W A :=
  fun s =>
    let '(r, w) := op (world s) in
    (r, Build_State w (ledger s) (trace s)).

(** A call that cannot raise. *)
Definition call_total {W A} (op : W -> A * W) : M W A :=
  fun s =>
    let '(a, w) := op (world s) in
    (Ok a, Build_State w (ledger s) (trace s)).

(** Reading an attribute of a client. *)
Definition observe {W A} (f : W -> A) : M W A := fun s => (Ok (f (world s)), s).

Definition emit {W} (a : Action) : M W unit :=
  fun s => (Ok tt, Build_State (world s) (ledger s) (trace s ++ [a])).

(** [try: body except Exception: handler]. *)
Definition try_except {W A} (body : M W A) (handler : exn -> M W A) : M W A :=
  fun s =>
    match body s with
    | (Ok a, s') => (Ok a, s')
    | (Raise e, s') => handler e s'
    end.

(** [try: body except ValueError: handler], for a body without effects. *)
Definition try_except_ValueError {W A} (body : result A) (handler : M W A)
    : M W A :=
  match body with
  | Ok a => ret a
  | Raise ValueError => handler
  | Raise e => lift (Raise e)
  end.

Fixpoint for_each {W A} (l : list A) (body : A -> M W unit) : M W unit :=
  match l with
  | [] => ret tt
  | x :: l' => body x;; for_each l' body
  end.

Fixpoint fold_m {W A B} (f : B -> A -> M W B) (l : list A) (b : B) : M W B :=
  match l with
  | [] => ret b
  | x :: l' => let* b' := f b x in fold_m f l' b'
  end.

Definition load_processed_email_ids {W} : M W (gset string) :=
  fun s => (Ok (load_ids (ledger s)), s).

Definition save_processed_email_id {W} (email_id : string) : M W unit :=
  fun s => (Ok tt, Build_State (world s) (save_id email_id (ledger s)) (trace s)).

Section Pipeline.
Context {W Msg : Type} `{Services W Msg}.

Definition datetime_now : M W datetime := call_total clock_now.
Definition date_today : M W date :=
  let* now := datetime_now in ret (dt_date now).

(** ** [process_content_for_tasks] *)
Definition process_content_for_tasks (extracted_text : string)
    : M W (list Task) :=
  if PyStr.truthy extracted_text && PyStr.truthy (PyStr.strip extracted_text)
  then call (parse_text_for_tasks extracted_text)
  else ret [].

(** ** Resolving the window of a task *)

(** The fallback of lines 153-157 and 161-165: this morning, or tomorrow
    morning from 17:00 on. *)
Definition default_slot : M W (option Window) :=
  let* event_date := date_today in
  let* now := datetime_now in
  let* event_date :=
    (if 17 <=? hour now
     then let* today := date_today in
          lift (rbind (timedelta_days 1) (date_add today))
     else ret event_date) in
  let start_datetime_for_event := combine event_date (time_hm 9 0) in
  let* end_datetime_for_event :=
    lift (rbind (timedelta_hours 1) (datetime_add start_datetime_for_event)) in
  ret (Some {| w_start := TDateTime start_datetime_for_event;
               w_end := TDateTime end_datetime_for_event |}).

(** An all-day event on an explicit date (lines 138-139 and 142-143). *)
Definition all_day (explicit_due_date : date) : M W (option Window) :=
  let* end_for_event :=
    lift (rbind (timedelta_days 1) (date_add explicit_due_date)) in
  ret (Some {| w_start := TDate explicit_due_date;
               w_end := TDate end_for_event |}).

(** A timed event of the suggested duration. *)
Definition timed (start_datetime_for_event : datetime)
    (llm_suggested_duration_str : option string) : result (option Window) :=
  rbind (parse_duration_string llm_suggested_duration_str) (fun duration_td =>
  rbind (datetime_add start_datetime_for_event duration_td)
    (fun end_datetime_for_event =>
  Ok (Some {| w_start := TDateTime start_datetime_for_event;
              w_end := TDateTime end_datetime_for_event |}))).

Definition parse_iso (s : string) : result datetime :=
  match fromisoformat s with
  | Some dt => Ok dt
  | None => Raise ValueError
  end.

(** Lines 117-165 of [create_calendar_events_from_tasks]. A [date] or
    [datetime] is always true, so [if explicit_due_date:] separates [None]
    from the rest; [datetime] is a subclass of [date] and is tested first.
    [None] as a result stands for a start that was never assigned. *)
Definition resolve_window (t : Task) : M W (option Window) :=
  let summary := task t in
  let explicit_due_date := dueDate t in
  let llm_suggested_datetime_str := suggestedTimeOfDay t in
  let llm_suggested_duration_str := suggestedDuration t in
  match explicit_due_date with
  | DueDateTime explicit_due_date =>
      lift (timed explicit_due_date llm_suggested_duration_str)
  | DueDate explicit_due_date =>
      match llm_suggested_datetime_str with
      | Some s =>
          if PyStr.truthy s then
            try_except_ValueError
              (rbind (parse_iso s) (fun llm_dt =>
               timed (combine explicit_due_date (time_of llm_dt))
                     llm_suggested_duration_str))
              (emit (WarnNotIso summary s);; all_day explicit_due_date)
          else all_day explicit_due_date
      | None => all_day explicit_due_date
      end
  | DueNone =>
      match llm_suggested_datetime_str with
      | Some s =>
          if PyStr.truthy s then
            try_except_ValueError
              (rbind (parse_iso s) (fun start_datetime_for_event =>
               timed start_datetime_for_event llm_suggested_duration_str))
              (emit (WarnNotIso summary s);; default_slot)
          else default_slot
      | None => default_slot
      end
  end.

(** ** [create_calendar_events_from_tasks] *)

(** The body of the loop over the tasks. The value [create_event] returns
    is dropped. *)
Definition add_task_to_calendar (timezone : string) (t : Task) : M W unit :=
  let* today := date_today in
  let description :=
    {| desc_priority := priority t;
       desc_source_line := source_line t;
       desc_line_number := line_number t;
       desc_processed_on := today |} in
  let* w := resolve_window t in
  match w with
  | Some w =>
      let ev := {| ev_summary := task t;
                   ev_description := description;
                   ev_start := w_start w;
                   ev_end := w_end w;
                   ev_timezone := timezone |} in
      emit (CreateEvent ev);;
      let* _ := call (create_event ev) in
      ret tt
  | None => ret tt
  end.

Definition create_calendar_events_from_tasks (tasks : list Task)
    (timezone : string) : M W unit :=
  match tasks with
  | [] => ret tt
  | _ =>
      let* service := observe calendar_service in
      if negb service then ret tt
      else for_each tasks (add_task_to_calendar timezone)
  end.

(** ** [main] *)

Definition dquote : string := String (ascii_of_nat 34) EmptyString.

Definition query : string :=
  "(from:" +:+ sender_email +:+ " has:attachment is:unread subject:"
  +:+ dquote +:+ subject_keyword +:+ dquote +:+ ") OR (from:"
  +:+ sender_email +:+ " is:unread subject:" +:+ dquote +:+ subject_keyword
  +:+ dquote +:+ " -has:attachment)".

(** The body of the loop over the downloaded attachments. *)
Definition tasks_of_attachment (all_tasks_from_email : list Task)
    (attachment_path : string) : M W (list Task) :=
  let file_ext := PyStr.lower (splitext_ext attachment_path) in
  let mime_type := guess_type attachment_path in
  let* extracted_text :=
    (if bool_decide (file_ext = ".pdf")
     then call (extract_text_from_pdf attachment_path)
     else if match mime_type with
             | Some m => PyStr.truthy m && String.prefix "image/" m
             | None => false
             end
     then call (extract_text_from_image attachment_path)
     else ret None) in
  let* all_tasks_from_email :=
    (match extracted_text with
     | Some text =>
         if PyStr.truthy text then
           let* tasks_from_attachment := process_content_for_tasks text in
           ret (all_tasks_from_email ++ tasks_from_attachment)
         else ret all_tasks_from_email
     | None => ret all_tasks_from_email
     end) in
  call (remove_attachment attachment_path);;
  ret all_tasks_from_email.

(** Lines 221-265: the tasks extracted from one message, or [None] where
    the loop body ends with [continue]. *)
Definition collect_tasks (msg_id : string) : M W (option (list Task)) :=
  let* message := call (get_message msg_id) in
  match message with
  | None => emit (Skipped msg_id);; ret None
  | Some message =>
      let* downloaded :=
        try_except
          (let* paths := call (download_attachments message) in
           ret (Some paths))
          (fun _ => emit (Skipped msg_id);; ret None) in
      match downloaded with
      | None => ret None
      | Some [] =>
          lift (lookup_attr gmail_client_attrs "get_email_body_text");;
          let* email_body_text := call (get_email_body_text message) in
          match email_body_text with
          | Some text =>
              if PyStr.truthy text && PyStr.truthy (PyStr.strip text)
              then let* tasks_from_body := process_content_for_tasks text in
                   ret (Some tasks_from_body)
              else ret (Some [])
          | None => ret (Some [])
          end
      | Some downloaded_paths =>
          let* all_tasks_from_email :=
            fold_m tasks_of_attachment downloaded_paths [] in
          ret (Some all_tasks_from_email)
      end
  end.

(** Lines 267-275: the events of one message, then the ledger entry. *)
Definition commit_tasks (msg_id : string) (all_tasks_from_email : list Task)
    : M W unit :=
  match all_tasks_from_email with
  | [] => emit (NoTasks msg_id)
  | _ =>
      create_calendar_events_from_tasks all_tasks_from_email calendar_timezone;;
      let* marked := call (mark_message_as_read msg_id) in
      if marked : bool then
        save_processed_email_id msg_id;;
        emit (MarkedProcessed msg_id)
      else emit (NotMarked msg_id)
  end.

(** The body of the loop over the new messages. *)
Definition process_email (msg_id : string) : M W unit :=
  emit (Processing msg_id);;
  let* collected := collect_tasks msg_id in
  match collected with
  | None => ret tt
  | Some all_tasks_from_email => commit_tasks msg_id all_tasks_from_email
  end.

Definition main : M W unit :=
  call initialize;;
  let* gmail_ok := observe gmail_service in
  if negb gmail_ok then ret tt
  else
    let* calendar_ok := observe calendar_service in
    if negb calendar_ok then ret tt
    else
      let* processed_email_ids := load_processed_email_ids in
      let* message_ids := call (search_messages query) in
      let new_message_ids :=
        filter (λ msg_id, msg_id ∉ processed_email_ids) message_ids in
      match new_message_ids with
      | [] => ret tt
      | _ => for_each new_message_ids process_email
      end.

End Pipeline.

(** ** A scripted world

    A world whose services answer from a fixed script; it serves to run the
    pipeline on concrete inputs. *)

Module Scripted.

Definition digits2 (a b : ascii) : option Z :=
  if PyStr.isdigit a && PyStr.isdigit b
  then Some (10 * PyStr.digit_value a + PyStr.digit_value b)
  else None.

Definition is_leap (y : Z) : bool :=
  ((y mod 4 =? 0) && negb (y mod 100 =? 0)) || (y mod 400 =? 0).

Definition days_in_month (y m : Z) : Z :=
  if m =? 2 then (if is_leap y then 29 else 28)
  else if (m =? 4) || (m =? 6) || (m =? 9) || (m =? 11) then 30
  else 31.

Fixpoint days_before_month (y : Z) (m : nat) : Z :=
  match m with
  | O => 0
  | S m' => days_before_month y m' + days_in_month y (Z.of_nat m)
  end.

(** [date(y, m, d).toordinal()], when the date exists. *)
Definition ymd_to_date (y m d : Z) : option date :=
  if (1 <=? y) && (y <=? 9999) && (1 <=? m) && (m <=? 12)
     && (1 <=? d) && (d <=? days_in_month y m)
  then
    let y1 := y - 1 in
    Some {| ordinal := y1 * 365 + y1 / 4 - y1 / 100 + y1 / 400
                       + days_before_month y (Z.to_nat (m - 1)) + d |}
  else None.

Definition parse_date (s : string) : option (date * string) :=
  match s with
  | String y1 (String y2 (String y3 (String y4 (String "-"
      (String m1 (String m2 (String "-" (String d1 (String d2 r))))))))) =>
      match digits2 y1 y2, digits2 y3 y4, digits2 m1 m2, digits2 d1 d2 with
      | Some yh, Some yl, Some m, Some d =>
          match ymd_to_date (100 * yh + yl) m d with
          | Some dt => Some (dt, r)
          | None => None
          end
      | _, _, _, _ => None
      end
  | _ => None
  end.

Definition parse_clock (s : string) : option Z :=
  match s with
  | String h1 (String h2 (String ":" (String m1 (String m2 r)))) =>
      match digits2 h1 h2, digits2 m1 m2 with
      | Some h, Some m =>
          if (h <? 24) && (m <? 60) then
            match r with
            | EmptyString => Some (h * us_per_hour + m * us_per_minute)
            | String ":" (String s1 (String s2 EmptyString)) =>
                match digits2 s1 s2 with
                | Some sec =>
                    if sec <? 60
                    then Some (h * us_per_hour + m * us_per_minute
                               + sec * us_per_second)
                    else None
                | None => None
                end
            | _ => None
            end
          else None
      | _, _ => None
      end
  | _ => None
  end.

(** The stand-in of the scripted world for [datetime.fromisoformat]: it
    reads the forms [YYYY-MM-DD] and [YYYY-MM-DD?HH:MM[:SS]] as the library
    does and refuses every other text, among them texts that the library
    reads (a UTC offset, fractional seconds, an hour alone). The runs below
    hand it texts of these two forms and texts that the library refuses
    too. *)
Definition fromisoformat_basic (s : string) : option datetime :=
  match parse_date s with
  | Some (d, EmptyString) => Some (combine d (time_hm 0 0))
  | Some (d, String _ r) =>
      match parse_clock r with
      | Some us => Some {| dt_date := d; dt_us := us; dt_tz := None |}
      | None => None
      end
  | None => None
  end.

Fixpoint has_slash (s : string) : bool :=
  match s with
  | EmptyString => false
  | String c s' => Ascii.eqb c "/" || has_slash s'
  end.

(** The text after the last [/]. *)
Fixpoint last_component (s : string) : string :=
  match s with
  | EmptyString => EmptyString
  | String c s' => if has_slash s then last_component s' else s
  end.

Fixpoint skip_dots (s : string) : string :=
  match s with
  | String c s' => if Ascii.eqb c "." then skip_dots s' else s
  | EmptyString => EmptyString
  end.

(** The text from the last dot on, empty without a dot. *)
Fixpoint from_last_dot (s : string) : string :=
  match s with
  | EmptyString => EmptyString
  | String c s' =>
      match from_last_dot s' with
      | EmptyString => if Ascii.eqb c "." then s else EmptyString
      | e => e
      end
  end.

(** [os.path.splitext(path)[1]] of [posixpath]: the extension is looked
    for in the last component of the path, and the dots the component
    starts with do not count. *)
Definition ext_of (path : string) : string :=
  from_last_dot (skip_dots (last_component path)).

(** The stand-in of the scripted world for [mimetypes.guess_type(path)[0]]:
    the types of four extensions, in any case of the letters, and [None]
    for every other path, also where the library knows a type. *)
Definition mime_of (path : string) : option string :=
  let e := PyStr.lower (ext_of path) in
  if bool_decide (e = ".png") then Some "image/png"
  else if bool_decide (e = ".jpg") then Some "image/jpeg"
  else if bool_decide (e = ".jpeg") then Some "image/jpeg"
  else if bool_decide (e = ".pdf") then Some "application/pdf"
  else None.

(** The answers of the services; the world itself is the time the clock
    shows. *)
Record Script : Type := {
  sc_candidates : list string;
  (** The attachments of a message, by message id. *)
  sc_attachments : string -> list string;
  (** The text the OCR reads from an attachment, by path. *)
  sc_text : string -> option string;
  (** The tasks the parser finds in a text. *)
  sc_tasks : string -> list Task;
  (** Whether the calendar accepts an event, by summary. *)
  sc_event_ok : string -> bool;
  (** Whether a message can be marked as read. *)
  sc_mark_ok : string -> bool
}.

Definition scripted (sc : Script) : Services datetime string := {|
  fromisoformat := fromisoformat_basic;
  splitext_ext := ext_of;
  guess_type := mime_of;
  sender_email := "noreply@remarkable.com";
  subject_keyword := "reMarkable Note";
  calendar_timezone := "Europe/Dublin";
  clock_now := fun now => (now, now);
  initialize := fun w => (Ok tt, w);
  gmail_service := fun _ => true;
  calendar_service := fun _ => true;
  search_messages := fun _ w => (Ok (sc_candidates sc), w);
  get_message := fun msg_id w => (Ok (Some msg_id), w);
  download_attachments := fun msg w => (Ok (sc_attachments sc msg), w);
  get_email_body_text := fun _ w => (Ok None, w);
  mark_message_as_read := fun msg_id w => (Ok (sc_mark_ok sc msg_id), w);
  extract_text_from_pdf := fun path w => (Ok (sc_text sc path), w);
  extract_text_from_image := fun path w => (Ok (sc_text sc path), w);
  parse_text_for_tasks := fun text w => (Ok (sc_tasks sc text), w);
  create_event := fun ev w => (Ok (sc_event_ok sc (ev_summary ev)), w);
  remove_attachment := fun _ w => (Ok tt, w)
|}.

(** 2025-06-02. *)
Definition day0 : date := {| ordinal := 739404 |}.

Definition at_hour (d : date) (h : Z) : datetime :=
  combine d (time_hm h 0).

Definition plain_task (summary : string) : Task :=
  {| task := summary; priority := "High"; dueDate := DueNone;
     suggestedTimeOfDay := None; suggestedDuration := None;
     source_line := summary; line_number := Some 1 |}.

(** One message with one scanned page that holds two tasks; the calendar
    refuses the second. *)
Definition two_tasks : Script :=
  {| sc_candidates := ["m1"];
     sc_attachments := fun _ => ["page.png"];
     sc_text := fun _ => Some "buy milk; call Ann";
     sc_tasks := fun _ => [plain_task "buy milk"; plain_task "call Ann"];
     sc_event_ok := fun summary => bool_decide (summary = "buy milk");
     sc_mark_ok := fun _ => true |}.

(** The same message when the page holds no task. *)
Definition no_tasks : Script :=
  {| sc_candidates := ["m1"];
     sc_attachments := fun _ => ["page.png"];
     sc_text := fun _ => Some "nothing to do";
     sc_tasks := fun _ => [];
     sc_event_ok := fun _ => true;
     sc_mark_ok := fun _ => true |}.

(** 2025-06-03. *)
Definition day1 : date := {| ordinal := 739405 |}.

(** A task due at a date and time, with a suggested time on another day. *)
Definition meeting : Task :=
  {| task := "meet Bo"; priority := "High";
     dueDate := DueDateTime (at_hour day0 14);
     suggestedTimeOfDay := Some "2025-06-03T09:30";
     suggestedDuration := None;
     source_line := "meet Bo Monday 2pm"; line_number := Some 3 |}.

(** A task due on a date, with a suggested time that is no timestamp. *)
Definition errand : Task :=
  {| task := "post letter"; priority := "Low";
     dueDate := DueDate day0;
     suggestedTimeOfDay := Some "not-a-date";
     suggestedDuration := None;
     source_line := "post letter Monday"; line_number := None |}.

(** The same task with a suggested duration. *)
Definition long_meeting : Task :=
  {| task := "meet Bo"; priority := "High";
     dueDate := DueDateTime (at_hour day0 14);
     suggestedTimeOfDay := Some "2025-06-03T09:30";
     suggestedDuration := Some "30 minutes";
     source_line := "meet Bo Monday 2pm"; line_number := Some 3 |}.

(** One message with one page and one task; every service succeeds. *)
Definition one_task : Script :=
  {| sc_candidates := ["m1"];
     sc_attachments := fun _ => ["page.png"];
     sc_text := fun _ => Some "buy milk";
     sc_tasks := fun _ => [plain_task "buy milk"];
     sc_event_ok := fun _ => true;
     sc_mark_ok := fun _ => true |}.

(** An id with a carriage return inside. *)
Definition broken_id : string := "a" +:+ String CR "b".

Definition start_state (now : datetime) (file : option string)
    : State datetime :=
  Build_State now file [].

(** A run of [main] against the script [sc], started at [now] with the
    ledger file [file]. *)
Definition run (sc : Script) (now : datetime) (file : option string)
    : result unit * State datetime :=
  @main datetime string (scripted sc) (start_state now file).

(** The window the code resolves for [t] in the scripted world at [now]. *)
Definition resolve (sc : Script) (t : Task) (now : datetime)
    : result (option Window) :=
  (@resolve_window datetime string (scripted sc) t (start_state now None)).1.

(** The scripted world with a parser that fails once: the world counts the
    texts handed to the parser, the first of them yields no task and the
    later ones yield the tasks of the script; the clock shows ten in the
    morning of [day0]. *)
Definition flaky (sc : Script) : Services nat string := {|
  fromisoformat := fromisoformat_basic;
  splitext_ext := ext_of;
  guess_type := mime_of;
  sender_email := "noreply@remarkable.com";
  subject_keyword := "reMarkable Note";
  calendar_timezone := "Europe/Dublin";
  clock_now := fun n => (at_hour day0 10, n);
  initialize := fun n => (Ok tt, n);
  gmail_service := fun _ => true;
  calendar_service := fun _ => true;
  search_messages := fun _ n => (Ok (sc_candidates sc), n);
  get_message := fun msg_id n => (Ok (Some msg_id), n);
  download_attachments := fun msg n => (Ok (sc_attachments sc msg), n);
  get_email_body_text := fun _ n => (Ok None, n);
  mark_message_as_read := fun msg_id n => (Ok (sc_mark_ok sc msg_id), n);
  extract_text_from_pdf := fun path n => (Ok (sc_text sc path), n);
  extract_text_from_image := fun path n => (Ok (sc_text sc path), n);
  parse_text_for_tasks := fun text n =>
    (Ok (match n with O => [] | S _ => sc_tasks sc text end), S n);
  create_event := fun ev n => (Ok (sc_event_ok sc (ev_summary ev)), n);
  remove_attachment := fun _ n => (Ok tt, n)
|}.

End Scripted.

(** ** Notions used by the statements *)

(** A text that is empty or ends with a line feed: the shape of every file
    that [save_processed_email_id] has written. *)
Fixpoint terminated (s : string) : bool :=
  match s with
  | EmptyString => true
  | String c EmptyString => Ascii.eqb c LF
  | String _ s' => terminated s'
  end.

Definition ledger_wf (file : option string) : Prop :=
  terminated (default EmptyString file) = true.

(** No line feed and no carriage return. *)
Fixpoint no_line_break (s : string) : bool :=
  match s with
  | EmptyString => true
  | String c s' => negb (Ascii.eqb c LF) && negb (Ascii.eqb c CR)
                   && no_line_break s'
  end.

(** No line feed. *)
Fixpoint no_LF (s : string) : bool :=
  match s with
  | EmptyString => true
  | String c s' => negb (Ascii.eqb c LF) && no_LF s'
  end.

(** An id that the ledger file stores and returns unchanged. *)
Definition ledger_safe (email_id : string) : Prop :=
  email_id ≠ EmptyString
  ∧ PyStr.strip email_id = email_id
  ∧ no_line_break email_id = true.

(** The ledger after committing the ids of [ids], oldest first. *)
Definition save_all (ids : list string) (file : option string) : option string :=
  foldl (fun f i => save_id i f) file ids.

(** The message whose processing the trace is in after [tr]. *)
Fixpoint current_item (cur : option string) (tr : list Action) : option string :=
  match tr with
  | [] => cur
  | Processing i :: tr' => current_item (Some i) tr'
  | _ :: tr' => current_item cur tr'
  end.

(** The calendar calls of [tr] made while processing [msg_id]. *)
Fixpoint events_of_item (msg_id : string) (cur : option string)
    (tr : list Action) : list EventRequest :=
  match tr with
  | [] => []
  | Processing i :: tr' => events_of_item msg_id (Some i) tr'
  | CreateEvent ev :: tr' =>
      if bool_decide (cur = Some msg_id)
      then ev :: events_of_item msg_id cur tr'
      else events_of_item msg_id cur tr'
  | _ :: tr' => events_of_item msg_id cur tr'
  end.

Definition is_processing (a : Action) : bool :=
  match a with Processing _ => true | _ => false end.

(** A stretch of trace without a calendar call for [msg_id], given that it
    starts and ends outside the processing of [msg_id]. *)
Definition clean (msg_id : string) (delta : list Action) : Prop :=
  ∀ cur, cur ≠ Some msg_id →
    events_of_item msg_id cur delta = []
    ∧ current_item cur delta ≠ Some msg_id.

(** [R] relates every state to the state a computation leaves. *)
Definition frames {W A} (R : State W -> State W -> Prop) (m : M W A) : Prop :=
  ∀ s, R s (m s).2.

(** The ledger is left as it was. *)
Definition same_ledger {W} (s s' : State W) : Prop := ledger s' = ledger s.

(** The trace grows by a stretch that is clean for [msg_id]. *)
Definition clean_trace {W} (msg_id : string) (s s' : State W) : Prop :=
  ∃ delta, trace s' = trace s ++ delta ∧ clean msg_id delta.

(** The next [n] readings of the clock. *)
Fixpoint clock_readings {W Msg} `{Services W Msg} (n : nat) (w : W)
    : list datetime :=
  match n with
  | O => []
  | S n' => let '(now, w') := clock_now w in now :: clock_readings n' w'
  end.

(** Whether resolving the window of [t] ends in the default slot. *)
Definition consults_clock {W Msg} `{Services W Msg} (t : Task) : bool :=
  match dueDate t with
  | DueNone =>
      match suggestedTimeOfDay t with
      | Some s => negb (PyStr.truthy s && bool_decide (is_Some (fromisoformat s)))
      | None => true
      end
  | _ => false
  end.

(** The suggested time of [t] is absent, empty or refused by
    [datetime.fromisoformat]. *)
Definition suggestion_unusable {W Msg} `{Services W Msg} (t : Task) : Prop :=
  match suggestedTimeOfDay t with
  | Some s => s = EmptyString ∨ fromisoformat s = None
  | None => True
  end.

(** [msg_id] can yield tasks. *)
Definition may_yield_tasks {W Msg} `{Services W Msg} (msg_id : string) : Prop :=
  ∃ (s s' : State W) tasks,
    collect_tasks msg_id s = (Ok (Some tasks), s') ∧ tasks ≠ [].

(** The ids a stretch of trace reports as committed: line 271 prints that
    a message was marked as read and processed right after
    [save_processed_email_id], and nowhere else. *)
Fixpoint committed_ids (tr : list Action) : list string :=
  match tr with
  | [] => []
  | MarkedProcessed msg_id :: tr' => msg_id :: committed_ids tr'
  | _ :: tr' => committed_ids tr'
  end.

(** The ids a stretch of trace announces, in order. *)
Fixpoint processing_ids (tr : list Action) : list string :=
  match tr with
  | [] => []
  | Processing i :: tr' => i :: processing_ids tr'
  | _ :: tr' => processing_ids tr'
  end.

(** The messages of the calls of [mark_message_as_read] that were answered
    with [True]. *)
Fixpoint marked (calls : list (string * result bool)) : list string :=
  match calls with
  | [] => []
  | (msg_id, Ok true) :: calls' => msg_id :: marked calls'
  | _ :: calls' => marked calls'
  end.

Section RunNotions.
Context {W Msg : Type} `{Services W Msg}.

(** The state in which the loop body goes on after line 220: the message
    has been announced. *)
Definition announced (msg_id : string) (s : State W) : State W :=
  Build_State (world s) (ledger s) (trace s ++ [Processing msg_id]).

(** What the loop over [ids], started in [s], extracts: every message it
    processes, in order, with the outcome of lines 221-265 for it in this
    very run; the loop ends with the first message whose processing
    raises. *)
Fixpoint extractions (ids : list string) (s : State W)
    : list (string * result (option (list Task))) :=
  match ids with
  | [] => []
  | msg_id :: ids' =>
      (msg_id, (collect_tasks msg_id (announced msg_id s)).1)
      :: match process_email msg_id s with
         | (Ok _, s') => extractions ids' s'
         | (Raise _, _) => []
         end
  end.

(** Lines 184-217 of [main]: the new messages of the run that starts in
    [s] and the state in which the loop over them starts; [None] when the
    run ends before its search has returned. *)
Definition new_messages (s : State W) : option (list string * State W) :=
  match initialize (world s) with
  | (Ok _, w0) =>
      if gmail_service w0 && calendar_service w0 then
        match search_messages query w0 with
        | (Ok message_ids, w1) =>
            Some (filter (λ msg_id, msg_id ∉ load_ids (ledger s)) message_ids,
                  Build_State w1 (ledger s) (trace s))
        | (Raise _, _) => None
        end
      else None
  | (Raise _, _) => None
  end.

(** What the run that starts in [s] extracts. *)
Definition run_extractions (s : State W)
    : list (string * result (option (list Task))) :=
  match new_messages s with
  | Some (ids, s1) => extractions ids s1
  | None => []
  end.

(** The call of line 269 in the loop body for [msg_id] started in [s],
    with its answer; there is none when the task list is empty or an
    exception ends the body before. *)
Definition marking (msg_id : string) (s : State W)
    : list (string * result bool) :=
  match collect_tasks msg_id (announced msg_id s) with
  | (Ok (Some (t :: tasks)), s1) =>
      match create_calendar_events_from_tasks (t :: tasks)
              calendar_timezone s1 with
      | (Ok _, s2) => [(msg_id, (mark_message_as_read msg_id (world s2)).1)]
      | (Raise _, _) => []
      end
  | _ => []
  end.

(** The calls of [mark_message_as_read] that the loop over [ids], started
    in [s], makes, in order, each with its answer in this very run. *)
Fixpoint markings (ids : list string) (s : State W)
    : list (string * result bool) :=
  match ids with
  | [] => []
  | msg_id :: ids' =>
      marking msg_id s
      ++ match process_email msg_id s with
         | (Ok _, s') => markings ids' s'
         | (Raise _, _) => []
         end
  end.

(** The calls of [mark_message_as_read] that the run started in [s]
    makes. *)
Definition run_markings (s : State W) : list (string * result bool) :=
  match new_messages s with
  | Some (ids, s1) => markings ids s1
  | None => []
  end.

End RunNotions.

(** ** Further notions used by the statements *)

(** The summaries of the events a stretch of trace asks the calendar for. *)
Fixpoint created_summaries (tr : list Action) : list string :=
  match tr with
  | [] => []
  | CreateEvent ev :: tr' => ev_summary ev :: created_summaries tr'
  | _ :: tr' => created_summaries tr'
  end.

(** A suggested duration that is absent or empty. *)
Definition duration_blank (t : Task) : Prop :=
  PyStr.truthy_opt (suggestedDuration t) = false.

(** Whether resolving [t] reaches the call of [parse_duration_string]: the
    due value is a [datetime], or the suggested time is a text that
    [datetime.fromisoformat] accepts. *)
Definition reaches_parser {W Msg} `{Services W Msg} (t : Task) : bool :=
  match dueDate t with
  | DueDateTime _ => true
  | _ =>
      match suggestedTimeOfDay t with
      | Some s => PyStr.truthy s && bool_decide (is_Some (fromisoformat s))
      | None => false
      end
  end.

(** The trace and the ledger are left as they were. *)
Definition silent {W} (s s' : State W) : Prop :=
  trace s' = trace s ∧ ledger s' = ledger s.

(** The trace grows by messages other than [CreateEvent], [Processing] and
    [MarkedProcessed], and the ledger is as before. *)
Definition no_calls {W} (s s' : State W) : Prop :=
  ∃ delta, trace s' = trace s ++ delta
           ∧ created_summaries delta = []
           ∧ processing_ids delta = []
           ∧ committed_ids delta = []
           ∧ ledger s' = ledger s.

(** The trace grows without a [Processing]. *)
Definition same_item {W} (s s' : State W) : Prop :=
  ∃ delta, trace s' = trace s ++ delta ∧ processing_ids delta = [].

(** ** The Gmail client ([google_gmail_client.py])

    The calls to the Gmail API, to the OAuth library and to the file system
    are operations on the world [W]; [Service] is the resource object that
    [build] returns. A call to the API returns, raises [HttpError], or
    raises something else. The dictionaries of the API are records whose
    optional keys are [option] fields. *)

Module Gmail.

Inductive api_result (A : Type) : Type :=
| ApiOk (a : A)
| ApiHttpError (reason : string)
| ApiRaise (e : exn).
Arguments ApiOk {A} a.
Arguments ApiHttpError {A} reason.
Arguments ApiRaise {A} e.

(** An entry of the [messages] list of a search response. *)
Record MessageRef : Type := {
  ref_id : string;
  ref_threadId : string
}.

(** The response of [messages().list]: the key [messages] is absent when
    nothing matches. *)
Record ListResponse : Type := {
  resp_messages : option (list MessageRef)
}.

(** The [body] of a message part. *)
Record Body : Type := {
  attachmentId : option string;
  body_data : option string
}.

(** A message part: the keys [filename], [body] and [parts]. *)
Inductive Part : Type :=
  mkPart (filename : option string) (body : option Body)
         (parts : option (list Part)).

Definition filename (p : Part) : option string :=
  match p with mkPart f _ _ => f end.
Definition body (p : Part) : option Body :=
  match p with mkPart _ b _ => b end.
Definition parts (p : Part) : option (list Part) :=
  match p with mkPart _ _ ps => ps end.

(** A message as [messages().get] returns it: [None] as payload stands for
    a missing or empty one. *)
Record Message : Type := {
  m_id : string;
  m_payload : option Part
}.

(** The response of [attachments().get]. *)
Record Attachment : Type := {
  att_data : option string
}.

(** The body of a [messages().modify] request. *)
Inductive Modify : Type :=
| RemoveLabelIds (ids : list string)
| AddLabelIds (ids : list string).

Record Label : Type := {
  label_name : string;
  label_id : string
}.

(** The response of [labels().list]. *)
Record LabelsResponse : Type := {
  resp_labels : option (list Label)
}.

(** What [Credentials] shows to the client. *)
Record Creds : Type := {
  valid : bool;
  expired : bool;
  refresh_token : option string;
  to_json : string
}.

Class Api (W Service : Type) : Type := {
  messages_list : Service -> string -> Z -> W -> api_result ListResponse * W;
  messages_get : Service -> string -> W -> api_result Message * W;
  attachments_get :
    Service -> string -> string -> W -> api_result Attachment * W;
  messages_modify : Service -> string -> Modify -> W -> api_result unit * W;
  labels_list : Service -> W -> api_result LabelsResponse * W;
  labels_create : Service -> string -> W -> api_result Label * W;
  (** [os.makedirs(path, exist_ok=True)]. *)
  makedirs : string -> W -> result unit * W;
  (** Writing a file in mode ['wb'] or ['w']. *)
  write_file : string -> string -> W -> result unit * W;
  (** [base64.urlsafe_b64decode]. *)
  urlsafe_b64decode : string -> result string;
  (** [os.getenv] after [load_dotenv()]. *)
  getenv : string -> option string;
  (** [os.path.exists]. *)
  path_exists : string -> W -> bool;
  (** [Credentials.from_authorized_user_file]. *)
  from_authorized_user_file : string -> list string -> W -> result Creds * W;
  (** [creds.refresh(Request())]: the credentials after the refresh. *)
  refresh : Creds -> W -> result Creds * W;
  (** [InstalledAppFlow.from_client_secrets_file(...).run_local_server]. *)
  run_local_server : string -> list string -> W -> result Creds * W;
  (** [build('gmail', 'v1', credentials=creds)]. *)
  build : Creds -> W -> api_result Service * W
}.

(** The attributes of a client that [__init__] has set. *)
Record Client (Service : Type) : Type := {
  client_secrets_file : string;
  token_file : string;
  SCOPES : list string;
  service : option Service
}.
Arguments client_secrets_file {Service} c.
Arguments token_file {Service} c.
Arguments SCOPES {Service} c.
Arguments service {Service} c.

Definition DEFAULT_SCOPES : list string :=
  [ "https://www.googleapis.com/auth/gmail.readonly" ]%string.

Definition scope_modify : string := "https://www.googleapis.com/auth/gmail.modify".
Definition scope_full : string := "https://mail.google.com/".

(** ['sep'.join(l)]. *)
Fixpoint join (sep : string) (l : list string) : string :=
  match l with
  | [] => EmptyString
  | [x] => x
  | x :: l' => x +:+ sep +:+ join sep l'
  end.

(** [s.split(' ')]: the pieces between the spaces, empty ones included. *)
Fixpoint split_spaces (s : string) : list string :=
  match s with
  | EmptyString => [EmptyString]
  | String c s' =>
      if Ascii.eqb c " " then EmptyString :: split_spaces s'
      else match split_spaces s' with
           | [] => [String c EmptyString]
           | piece :: pieces => String c piece :: pieces
           end
  end.

Fixpoint ends_with_slash (s : string) : bool :=
  match s with
  | EmptyString => false
  | String c EmptyString => Ascii.eqb c "/"
  | String _ s' => ends_with_slash s'
  end.

(** [os.path.join(a, b)] of [posixpath]. *)
Definition path_join (a b : string) : string :=
  if String.prefix "/" b then b
  else if negb (PyStr.truthy a) || ends_with_slash a then a +:+ b
  else a +:+ "/" +:+ b.

(** The parts of [part] that the helper collects: the part, then the parts
    below it. *)
Fixpoint part_and_below (part : Part) : list Part :=
  match part with
  | mkPart _ _ sub =>
      part :: match sub with
              | Some ps =>
                  (fix below (ps : list Part) : list Part :=
                     match ps with
                     | [] => []
                     | p :: ps' => part_and_below p ++ below ps'
                     end) ps
              | None => []
              end
  end.

(** The local helper [get_all_parts] of [download_attachments]. *)
Definition get_all_parts (ps : list Part) : list Part :=
  flat_map part_and_below ps.

Section Methods.
Context {W Service : Type} `{Api W Service}.

(** [_authenticate]. *)
Definition _authenticate (token_file client_secrets_file : string)
    (scopes : list string) (w : W) : result (option Service) * W :=
  let finish (creds : Creds) (w : W) : result (option Service) * W :=
    match build creds w with
    | (ApiOk service, w') => (Ok (Some service), w')
    | (ApiHttpError _, w') => (Ok None, w')
    | (ApiRaise e, w') => (Raise e, w')
    end in
  let store (creds : Creds) (w : W) : result (option Service) * W :=
    match write_file token_file (to_json creds) w with
    | (Ok _, w') => finish creds w'
    | (Raise e, w') => (Raise e, w')
    end in
  let renew (stored : option Creds) (w : W) : result (option Service) * W :=
    match stored with
    | Some creds =>
        if expired creds && PyStr.truthy_opt (refresh_token creds) then
          match refresh creds w with
          | (Ok creds', w') => store creds' w'
          | (Raise e, w') => (Raise e, w')
          end
        else
          match run_local_server client_secrets_file scopes w with
          | (Ok creds', w') => store creds' w'
          | (Raise e, w') => (Raise e, w')
          end
    | None =>
        match run_local_server client_secrets_file scopes w with
        | (Ok creds', w') => store creds' w'
        | (Raise e, w') => (Raise e, w')
        end
    end in
  if path_exists token_file w then
    match from_authorized_user_file token_file scopes w with
    | (Ok creds, w') =>
        if valid creds then finish creds w' else renew (Some creds) w'
    | (Raise e, w') => (Raise e, w')
    end
  else renew None w.

(** The class attribute [_instance]: the one object. [attributes] holds
    what [__init__] has assigned once it has run to its end, where
    [_initialized] is its last assignment; what an [__init__] that raised
    has assigned until then is assigned again by the next one and is left
    out. *)
Record Instance : Type := {
  initialized : bool;
  attributes : option (Client Service)
}.

(** [GmailClient()]: [__new__] creates the object on the first call and
    returns the one object afterwards; [__init__] returns at once for an
    initialised object. The result is the class attribute [_instance]
    after the call. *)
Definition construct (instance : option Instance) (w : W)
    : result Instance * option Instance * W :=
  let self :=
    match instance with
    | Some self => self
    | None => {| initialized := false; attributes := None |}
    end in
  if initialized self then (Ok self, Some self, w)
  else
    let secrets := default "client_secrets.json"%string
                     (getenv "GOOGLE_CLIENT_SECRETS_FILE") in
    let token := default "gmail_token.json"%string
                   (getenv "GOOGLE_GMAIL_TOKEN_FILE") in
    let scopes_str := default (join " " DEFAULT_SCOPES)
                        (getenv "GOOGLE_GMAIL_SCOPES") in
    let scopes := split_spaces scopes_str in
    match _authenticate token secrets scopes w with
    | (Ok service, w') =>
        let self' :=
          {| initialized := true;
             attributes := Some {| client_secrets_file := secrets;
                                   token_file := token;
                                   SCOPES := scopes;
                                   service := service |} |} in
        (Ok self', Some self', w')
    | (Raise e, w') =>
        (Raise e, Some {| initialized := false; attributes := None |}, w')
    end.

(** [search_messages]. *)
Definition search_messages (c : Client Service) (query : string)
    (max_results : Z) (w : W) : result (list string) * W :=
  match service c with
  | None => (Ok [], w)
  | Some svc =>
      match messages_list svc query max_results w with
      | (ApiOk response, w') =>
          let messages := default [] (resp_messages response) in
          (Ok (ref_id <$> messages), w')
      | (ApiHttpError _, w') => (Ok [], w')
      | (ApiRaise e, w') => (Raise e, w')
      end
  end.

(** [get_message]. *)
Definition get_message (c : Client Service) (msg_id : string) (w : W)
    : result (option Message) * W :=
  match service c with
  | None => (Ok None, w)
  | Some svc =>
      match messages_get svc msg_id w with
      | (ApiOk message, w') => (Ok (Some message), w')
      | (ApiHttpError _, w') => (Ok None, w')
      | (ApiRaise e, w') => (Raise e, w')
      end
  end.

(** Decoding [data] and writing it under [filename]: the list with the new
    path, or the exception that leaves the [try]. *)
Definition save_attachment (download_dir filename data : string)
    (attachments_downloaded : list string) (w : W)
    : api_result (list string) * W :=
  match urlsafe_b64decode data with
  | Ok file_data =>
      let file_path := path_join download_dir filename in
      match write_file file_path file_data w with
      | (Ok _, w') => (ApiOk (attachments_downloaded ++ [file_path]), w')
      | (Raise e, w') => (ApiRaise e, w')
      end
  | Raise e => (ApiRaise e, w)
  end.

(** The body of the loop over the parts. *)
Definition download_part (svc : Service) (message : Message)
    (download_dir : string) (attachments_downloaded : list string)
    (part : Part) (w : W) : api_result (list string) * W :=
  match filename part with
  | Some name =>
      if PyStr.truthy name then
        match body part with
        | Some b =>
            match attachmentId b with
            | Some attachment_id =>
                if PyStr.truthy attachment_id then
                  match attachments_get svc (m_id message) attachment_id w with
                  | (ApiOk attachment, w') =>
                      match att_data attachment with
                      | Some data =>
                          if PyStr.truthy data
                          then save_attachment download_dir name data
                                 attachments_downloaded w'
                          else (ApiOk attachments_downloaded, w')
                      | None => (ApiOk attachments_downloaded, w')
                      end
                  | (ApiHttpError r, w') => (ApiHttpError r, w')
                  | (ApiRaise e, w') => (ApiRaise e, w')
                  end
                else
                  match body_data b with
                  | Some data =>
                      if PyStr.truthy data
                      then save_attachment download_dir name data
                             attachments_downloaded w
                      else (ApiOk attachments_downloaded, w)
                  | None => (ApiOk attachments_downloaded, w)
                  end
            | None =>
                match body_data b with
                | Some data =>
                    if PyStr.truthy data
                    then save_attachment download_dir name data
                           attachments_downloaded w
                    else (ApiOk attachments_downloaded, w)
                | None => (ApiOk attachments_downloaded, w)
                end
            end
        | None => (ApiOk attachments_downloaded, w)
        end
      else (ApiOk attachments_downloaded, w)
  | None => (ApiOk attachments_downloaded, w)
  end.

(** The loop over the parts inside the [try]: an exception of any kind
    leaves the loop, and the two handlers only print; the list holds what
    was downloaded until then. *)
Fixpoint download_parts (svc : Service) (message : Message)
    (download_dir : string) (ps : list Part)
    (attachments_downloaded : list string) (w : W) : list string * W :=
  match ps with
  | [] => (attachments_downloaded, w)
  | part :: ps' =>
      match download_part svc message download_dir attachments_downloaded
              part w with
      | (ApiOk attachments_downloaded', w') =>
          download_parts svc message download_dir ps'
            attachments_downloaded' w'
      | (_, w') => (attachments_downloaded, w')
      end
  end.

(** [download_attachments]. *)
Definition download_attachments (c : Client Service) (message : Message)
    (download_dir : string) (w : W) : result (list string) * W :=
  match service c with
  | None => (Ok [], w)
  | Some svc =>
      match makedirs download_dir w with
      | (Ok _, w0) =>
          match m_payload message with
          | None => (Ok [], w0)
          | Some payload =>
              let ps := get_all_parts (default [] (parts payload)) in
              let '(attachments_downloaded, w1) :=
                download_parts svc message download_dir ps [] w0 in
              (Ok attachments_downloaded, w1)
          end
      | (Raise e, w0) => (Raise e, w0)
      end
  end.

(** The test of the scopes in [mark_message_as_read] and
    [move_message_to_label]. *)
Definition may_modify (c : Client Service) : bool :=
  bool_decide (scope_modify ∈ SCOPES c) || bool_decide (scope_full ∈ SCOPES c).

(** [mark_message_as_read]. *)
Definition mark_message_as_read (c : Client Service) (msg_id : string)
    (w : W) : result bool * W :=
  match service c with
  | None => (Ok false, w)
  | Some svc =>
      if negb (may_modify c) then (Ok false, w)
      else
        match messages_modify svc msg_id (RemoveLabelIds ["UNREAD"%string]) w with
        | (ApiOk _, w') => (Ok true, w')
        | (ApiHttpError _, w') => (Ok false, w')
        | (ApiRaise e, w') => (Raise e, w')
        end
  end.

(** The loop over the labels with its [break]: the id of the first label
    whose name is [label_name] up to case. *)
Fixpoint find_label (label_name : string) (labels : list Label)
    : option string :=
  match labels with
  | [] => None
  | label :: labels' =>
      if bool_decide (PyStr.lower (Gmail.label_name label)
                      = PyStr.lower label_name)
      then Some (label_id label)
      else find_label label_name labels'
  end.

(** [move_message_to_label]. *)
Definition move_message_to_label (c : Client Service) (msg_id : string)
    (label_name : string) (w : W) : result bool * W :=
  match service c with
  | None => (Ok false, w)
  | Some svc =>
      if negb (may_modify c) then (Ok false, w)
      else
        match labels_list svc w with
        | (ApiOk labels_response, w1) =>
            let labels := default [] (resp_labels labels_response) in
            let add (label_id : string) (w : W) : result bool * W :=
              match messages_modify svc msg_id (AddLabelIds [label_id]) w with
              | (ApiOk _, w') => (Ok true, w')
              | (ApiHttpError _, w') => (Ok false, w')
              | (ApiRaise e, w') => (Raise e, w')
              end in
            match find_label label_name labels with
            | Some label_id =>
                if PyStr.truthy label_id then add label_id w1
                else
                  match labels_create svc label_name w1 with
                  | (ApiOk created_label, w2) =>
                      add (Gmail.label_id created_label) w2
                  | (ApiHttpError _, w2) => (Ok false, w2)
                  | (ApiRaise e, w2) => (Raise e, w2)
                  end
            | None =>
                match labels_create svc label_name w1 with
                | (ApiOk created_label, w2) =>
                    add (Gmail.label_id created_label) w2
                | (ApiHttpError _, w2) => (Ok false, w2)
                | (ApiRaise e, w2) => (Raise e, w2)
                end
            end
        | (ApiHttpError _, w1) => (Ok false, w1)
        | (ApiRaise e, w1) => (Raise e, w1)
        end
  end.

End Methods.

End Gmail.

(** [p] is one of [ps] or lies below one of them, at any depth. *)
Inductive nested_in (p : Gmail.Part) : list Gmail.Part -> Prop :=
| nested_here ps : p ∈ ps -> nested_in p ps
| nested_below q sub ps :
    q ∈ ps -> Gmail.parts q = Some sub -> nested_in p sub -> nested_in p ps.

(** A path the loop adds comes from the file name of a part. *)
Definition from_part (download_dir : string) (ps : list Gmail.Part)
    (path : string) : Prop :=
  ∃ part name,
    part ∈ ps ∧ Gmail.filename part = Some name ∧ name ≠ EmptyString
    ∧ path = Gmail.path_join download_dir name.

(** The pipeline reaches Gmail through the client [c], as [main] does: its
    searches, fetches, downloads into [download_dir] and markings are the
    methods of [c], and [gmail_client.service] is the attribute of [c]. *)
Definition backed_by {W Service : Type} `{Services W Gmail.Message}
    `{Gmail.Api W Service} (c : Gmail.Client Service)
    (download_dir : string) : Prop :=
  (∀ w, gmail_service w = bool_decide (is_Some (Gmail.service c)))
  ∧ (∀ q w, search_messages q w = Gmail.search_messages c q 100 w)
  ∧ (∀ i w, get_message i w = Gmail.get_message c i w)
  ∧ (∀ m w, download_attachments m w
            = Gmail.download_attachments c m download_dir w)
  ∧ (∀ i w, mark_message_as_read i w = Gmail.mark_message_as_read c i w).

(** ** A scripted mailbox

    A Gmail API that answers from a fixed mailbox and notes every call in
    the world, a list of call names; it serves to run the client and the
    pipeline behind it on concrete inputs. *)

Module Mailbox.

Record Box : Type := {
  box_messages : list Gmail.Message;
  (** The data of an attachment, by attachment id; [None]: [HttpError]. *)
  box_attachment : string -> option string;
  (** Whether the search answers with [HttpError]. *)
  box_search_fails : bool;
  box_labels : list Gmail.Label;
  box_env : string -> option string;
  (** The credentials in the token file, if the file exists. *)
  box_token : option Gmail.Creds
}.

Definition fresh_creds : Gmail.Creds :=
  {| Gmail.valid := true; Gmail.expired := false;
     Gmail.refresh_token := Some "r1"; Gmail.to_json := "{fresh}" |}.

Fixpoint lookup_message (msg_id : string) (ms : list Gmail.Message)
    : option Gmail.Message :=
  match ms with
  | [] => None
  | m :: ms' =>
      if bool_decide (Gmail.m_id m = msg_id) then Some m
      else lookup_message msg_id ms'
  end.

Definition api (b : Box) : Gmail.Api (list string) unit := {|
  Gmail.messages_list := fun _ _ _ w =>
    (if box_search_fails b then Gmail.ApiHttpError "503"
     else Gmail.ApiOk
            {| Gmail.resp_messages :=
                 match box_messages b with
                 | [] => None
                 | ms => Some ((fun m => {| Gmail.ref_id := Gmail.m_id m;
                                            Gmail.ref_threadId := Gmail.m_id m |})
                               <$> ms)
                 end |},
     w ++ ["messages.list"]);
  Gmail.messages_get := fun _ msg_id w =>
    (match lookup_message msg_id (box_messages b) with
     | Some m => Gmail.ApiOk m
     | None => Gmail.ApiHttpError "404"
     end, w ++ ["messages.get"]);
  Gmail.attachments_get := fun _ _ attachment_id w =>
    (match box_attachment b attachment_id with
     | Some data => Gmail.ApiOk {| Gmail.att_data := Some data |}
     | None => Gmail.ApiHttpError "404"
     end, w ++ ["attachments.get"]);
  Gmail.messages_modify := fun _ _ _ w =>
    (Gmail.ApiOk tt, w ++ ["messages.modify"]);
  Gmail.labels_list := fun _ w =>
    (Gmail.ApiOk {| Gmail.resp_labels := Some (box_labels b) |},
     w ++ ["labels.list"]);
  Gmail.labels_create := fun _ name w =>
    (Gmail.ApiOk {| Gmail.label_name := name; Gmail.label_id := "Label_new" |},
     w ++ ["labels.create"]);
  Gmail.makedirs := fun _ w => (Ok tt, w);
  Gmail.write_file := fun path _ w => (Ok tt, w ++ ["write " +:+ path]);
  Gmail.urlsafe_b64decode := fun data => Ok data;
  Gmail.getenv := box_env b;
  Gmail.path_exists := fun _ _ => bool_decide (is_Some (box_token b));
  Gmail.from_authorized_user_file := fun _ _ w =>
    (match box_token b with
     | Some creds => Ok creds
     | None => Raise ValueError
     end, w ++ ["read token"]);
  Gmail.refresh := fun creds w =>
    (Ok {| Gmail.valid := true; Gmail.expired := false;
           Gmail.refresh_token := Gmail.refresh_token creds;
           Gmail.to_json := "{refreshed}" |}, w ++ ["refresh"]);
  Gmail.run_local_server := fun _ _ w => (Ok fresh_creds, w ++ ["consent"]);
  Gmail.build := fun _ w => (Gmail.ApiOk tt, w ++ ["build"])
|}.

(** The pipeline behind the client [c] on the mailbox [b]: every text
    yields one task, the calendar accepts every event. *)
Definition services (b : Box) (c : Gmail.Client unit)
    : Services (list string) Gmail.Message := {|
  fromisoformat := Scripted.fromisoformat_basic;
  splitext_ext := Scripted.ext_of;
  guess_type := Scripted.mime_of;
  sender_email := "noreply@remarkable.com";
  subject_keyword := "reMarkable Note";
  calendar_timezone := "Europe/Dublin";
  clock_now := fun w => (Scripted.at_hour Scripted.day0 10, w);
  initialize := fun w => (Ok tt, w);
  gmail_service := fun _ => bool_decide (is_Some (Gmail.service c));
  calendar_service := fun _ => true;
  search_messages := fun q w =>
    @Gmail.search_messages _ _ (api b) c q 100 w;
  get_message := fun i w => @Gmail.get_message _ _ (api b) c i w;
  download_attachments := fun m w =>
    @Gmail.download_attachments _ _ (api b) c m "downloads" w;
  get_email_body_text := fun _ w => (Ok None, w);
  mark_message_as_read := fun i w =>
    @Gmail.mark_message_as_read _ _ (api b) c i w;
  extract_text_from_pdf := fun path w => (Ok (Some path), w ++ ["ocr"]);
  extract_text_from_image := fun path w => (Ok (Some path), w ++ ["ocr"]);
  parse_text_for_tasks := fun text w =>
    (Ok [Scripted.plain_task text], w ++ ["parse"]);
  create_event := fun _ w => (Ok true, w ++ ["events.insert"]);
  remove_attachment := fun _ w => (Ok tt, w)
|}.

(** A scanned page attached to a message, to be fetched by its id. *)
Definition page : Gmail.Part :=
  Gmail.mkPart (Some "page.png")
    (Some {| Gmail.attachmentId := Some "att1"; Gmail.body_data := None |})
    None.

(** A text part without file name, with the page nested below a
    container. *)
Definition nested_payload : Gmail.Part :=
  Gmail.mkPart None None
    (Some [ Gmail.mkPart (Some "") (Some {| Gmail.attachmentId := None;
                                            Gmail.body_data := Some "aGk=" |})
              None;
            Gmail.mkPart None None (Some [page]) ]).

Definition note : Gmail.Message :=
  {| Gmail.m_id := "m1"; Gmail.m_payload := Some nested_payload |}.

(** A part whose file name is an absolute path, with its data inline. *)
Definition absolute_part : Gmail.Part :=
  Gmail.mkPart (Some "/tmp/evil.sh")
    (Some {| Gmail.attachmentId := None; Gmail.body_data := Some "cm0=" |})
    None.

Definition crafted : Gmail.Message :=
  {| Gmail.m_id := "m2";
     Gmail.m_payload := Some (Gmail.mkPart None None (Some [absolute_part])) |}.

Definition box (ms : list Gmail.Message) (attachment : string -> option string)
    : Box :=
  {| box_messages := ms; box_attachment := attachment;
     box_search_fails := false; box_labels := [];
     box_env := fun _ => None; box_token := None |}.

(** The client that [GmailClient()] gives with the default scopes. *)
Definition read_only_client : Gmail.Client unit :=
  {| Gmail.client_secrets_file := "client_secrets.json";
     Gmail.token_file := "gmail_token.json";
     Gmail.SCOPES := Gmail.DEFAULT_SCOPES;
     Gmail.service := Some tt |}.

(** A client whose scopes allow to modify messages. *)
Definition modify_client : Gmail.Client unit :=
  {| Gmail.client_secrets_file := "client_secrets.json";
     Gmail.token_file := "gmail_token.json";
     Gmail.SCOPES := [Gmail.scope_modify];
     Gmail.service := Some tt |}.

End Mailbox.

(** ** Further inputs for the concrete runs *)

Module Cases.

(** A task due on a date, with a suggested time on another day. *)
Definition dated : Task :=
  {| task := "call Ann"; priority := "Medium";
     dueDate := DueDate Scripted.day0;
     suggestedTimeOfDay := Some "2025-06-03T09:30";
     suggestedDuration := None;
     source_line := "call Ann Monday"; line_number := Some 2 |}.

(** A task without due date, with a suggested time. *)
Definition timed_only : Task :=
  {| task := "water plants"; priority := "Low";
     dueDate := DueNone;
     suggestedTimeOfDay := Some "2025-06-03T09:30";
     suggestedDuration := None;
     source_line := "water plants"; line_number := None |}.

(** 2025-06-03 09:30 and 10:30. *)
Definition half_past_nine : datetime :=
  {| dt_date := Scripted.day1;
     dt_us := 9 * us_per_hour + 30 * us_per_minute; dt_tz := None |}.
Definition half_past_ten : datetime :=
  {| dt_date := Scripted.day1;
     dt_us := 10 * us_per_hour + 30 * us_per_minute; dt_tz := None |}.

(** One message with one page and one task that cannot be marked as
    read. *)
Definition unmarkable : Scripted.Script :=
  {| Scripted.sc_candidates := ["m1"];
     Scripted.sc_attachments := fun _ => ["page.png"];
     Scripted.sc_text := fun _ => Some "buy milk";
     Scripted.sc_tasks := fun _ => [Scripted.plain_task "buy milk"];
     Scripted.sc_event_ok := fun _ => true;
     Scripted.sc_mark_ok := fun _ => false |}.

(** Two messages without attachment. *)
Definition no_attachment : Scripted.Script :=
  {| Scripted.sc_candidates := ["m1"; "m2"];
     Scripted.sc_attachments := fun _ => [];
     Scripted.sc_text := fun _ => None;
     Scripted.sc_tasks := fun _ => [];
     Scripted.sc_event_ok := fun _ => true;
     Scripted.sc_mark_ok := fun _ => true |}.

(** A message whose first part is an attachment to be fetched, followed by
    a part with inline data. *)
Definition two_parts : Gmail.Message :=
  {| Gmail.m_id := "m3";
     Gmail.m_payload :=
       Some (Gmail.mkPart None None
               (Some [Mailbox.page; Mailbox.absolute_part])) |}.

(** A mailbox whose attachments cannot be fetched. *)
Definition lost_attachments : Mailbox.Box :=
  Mailbox.box [two_parts] (fun _ => None).

(** A mailbox with the scanned note, whose attachment can be fetched. *)
Definition inbox : Mailbox.Box :=
  Mailbox.box [Mailbox.note] (fun _ => Some "cGFnZQ==").

(** A mailbox whose search answers with [HttpError]. *)
Definition unreachable : Mailbox.Box :=
  {| Mailbox.box_messages := [Mailbox.note];
     Mailbox.box_attachment := fun _ => Some "cGFnZQ==";
     Mailbox.box_search_fails := true; Mailbox.box_labels := [];
     Mailbox.box_env := fun _ => None; Mailbox.box_token := None |}.

(** A mailbox with a label, and a token file with valid credentials. *)
Definition labelled : Mailbox.Box :=
  {| Mailbox.box_messages := [Mailbox.note];
     Mailbox.box_attachment := fun _ => Some "cGFnZQ==";
     Mailbox.box_search_fails := false;
     Mailbox.box_labels :=
       [ {| Gmail.label_name := "INBOX"; Gmail.label_id := "INBOX" |};
         {| Gmail.label_name := "Processed"; Gmail.label_id := "Label_7" |} ];
     Mailbox.box_env := fun _ => None;
     Mailbox.box_token := Some Mailbox.fresh_creds |}.

(** The object that [GmailClient()] gives on the first call, without
    [GOOGLE_GMAIL_SCOPES] in the environment. *)
Definition default_instance : @Gmail.Instance unit :=
  {| Gmail.initialized := true;
     Gmail.attributes := Some Mailbox.read_only_client |}.

Definition empty_state : State (list string) := Build_State [] None [].

End Cases.

(** ** Python strings: stripping *)

Module PyStrFacts.
Import PyStr.

Lemma rstrip_length s : (String.length (rstrip s) <= String.length s)%nat.
Proof.
  induction s as [|c s IH]; simpl; [lia|].
  destruct (rstrip s); simpl in *; [destruct (isspace c); simpl; lia | lia].
Qed.

Lemma lstrip_length s : (String.length (lstrip s) <= String.length s)%nat.
Proof.
  induction s as [|c s IH]; simpl; [lia|].
  destruct (isspace c); simpl; lia.
Qed.

(** What is left of a string after [lstrip] does not start with a space. *)
Lemma lstrip_head s c r : lstrip s = String c r → isspace c = false.
Proof.
  induction s as [|a s IH]; simpl; [discriminate|].
  destruct (isspace a) eqn:Ha; [exact IH|].
  intros [= <- <-]. exact Ha.
Qed.

Lemma lstrip_fixed c r : isspace c = false → lstrip (String c r) = String c r.
Proof. intros Hc. simpl. by rewrite Hc. Qed.

Lemma rstrip_head c r :
  isspace c = false → ∃ r', rstrip (String c r) = String c r'.
Proof.
  intros Hc. simpl. destruct (rstrip r); rewrite ?Hc; eauto.
Qed.

Lemma rstrip_idem s : rstrip (rstrip s) = rstrip s.
Proof.
  induction s as [|c s IH]; simpl; [done|].
  destruct (rstrip s) as [|a r] eqn:Hr.
  - destruct (isspace c) eqn:Hc; simpl; [done|]. by rewrite Hc.
  - change (rstrip (String c (String a r))) with
      (match rstrip (String a r) with
       | EmptyString => if isspace c then EmptyString else String c EmptyString
       | x => String c x
       end).
    by rewrite IH.
Qed.

Lemma strip_idem s : strip (strip s) = strip s.
Proof.
  unfold strip. destruct (lstrip s) as [|c r] eqn:Hl; [done|].
  apply lstrip_head in Hl.
  destruct (rstrip_head c r Hl) as [r' Hr]. rewrite Hr.
  rewrite lstrip_fixed by done. rewrite <- Hr. apply rstrip_idem.
Qed.

Lemma rstrip_app_newline s : rstrip (s +:+ newline) = rstrip s.
Proof.
  induction s as [|c s IH]; [done|].
  change (String c s +:+ newline) with (String c (s +:+ newline)).
  simpl. by rewrite IH.
Qed.

(** A non-empty string that stripping leaves alone starts and ends with
    something else than a space. *)
Lemma strip_fixed_head c r :
  strip (String c r) = String c r → isspace c = false.
Proof.
  intros Hs. destruct (isspace c) eqn:Hc; [|done].
  exfalso. unfold strip in Hs. simpl in Hs. rewrite Hc in Hs.
  pose proof (rstrip_length (lstrip r)) as H1.
  pose proof (lstrip_length r) as H2.
  rewrite Hs in H1. simpl in H1. lia.
Qed.

Lemma strip_app_newline s :
  s ≠ EmptyString → strip s = s → strip (s +:+ newline) = s.
Proof.
  intros Hne Hs. destruct s as [|c r]; [done|].
  pose proof (strip_fixed_head c r Hs) as Hc.
  unfold strip in *.
  change (String c r +:+ newline) with (String c (r +:+ newline)).
  rewrite lstrip_fixed in Hs by done. rewrite lstrip_fixed by done.
  change (String c (r +:+ newline)) with (String c r +:+ newline).
  by rewrite rstrip_app_newline.
Qed.

End PyStrFacts.

(** ** The ledger file *)

Module LedgerFacts.
Import PyStr PyStrFacts.

Lemma app_cons c s t : String c s +:+ t = String c (s +:+ t).
Proof. reflexivity. Qed.

Lemma app_empty t : EmptyString +:+ t = t.
Proof. reflexivity. Qed.

Lemma app_assoc s t u : (s +:+ t) +:+ u = s +:+ t +:+ u.
Proof. induction s as [|c s IH]; [done|]. rewrite !app_cons. by f_equal. Qed.

Lemma terminated_cons c s :
  s ≠ EmptyString → terminated (String c s) = terminated s.
Proof. by destruct s. Qed.

Lemma terminated_app s t :
  t ≠ EmptyString → terminated (s +:+ t) = terminated t.
Proof.
  intros Ht. induction s as [|c s IH]; [done|].
  rewrite app_cons, terminated_cons; [done|].
  destruct s; [done|]. by rewrite app_cons.
Qed.

Lemma terminated_newline s : terminated (s +:+ newline) = true.
Proof. by rewrite terminated_app. Qed.

Lemma save_id_wf email_id file : ledger_wf (save_id email_id file).
Proof.
  unfold ledger_wf, save_id. simpl.
  rewrite terminated_app; [apply terminated_newline|].
  by destruct email_id.
Qed.

(** Every file the code has written is well formed. *)
Lemma save_all_wf ids file : ledger_wf file → ledger_wf (save_all ids file).
Proof.
  revert file. induction ids as [|i ids IH]; intros file Hwf; [done|].
  apply IH, save_id_wf.
Qed.

Lemma universal_newlines_app a b :
  terminated a = true →
  universal_newlines (a +:+ b) = universal_newlines a +:+ universal_newlines b.
Proof.
  induction a as [|c a IH]; intros Ha; [done|].
  destruct a as [|c' a].
  - simpl in Ha. apply Ascii.eqb_eq in Ha as ->. by destruct b.
  - rewrite terminated_cons in Ha by done. specialize (IH Ha).
    rewrite !app_cons in *.
    change (universal_newlines (String c (String c' (a +:+ b)))) with
      (if Ascii.eqb c CR then
         if Ascii.eqb c' LF then universal_newlines (String c' (a +:+ b))
         else String LF (universal_newlines (String c' (a +:+ b)))
       else String c (universal_newlines (String c' (a +:+ b)))).
    change (universal_newlines (String c (String c' a))) with
      (if Ascii.eqb c CR then
         if Ascii.eqb c' LF then universal_newlines (String c' a)
         else String LF (universal_newlines (String c' a))
       else String c (universal_newlines (String c' a))).
    rewrite IH.
    destruct (Ascii.eqb c CR), (Ascii.eqb c' LF); by rewrite ?app_cons.
Qed.

Lemma universal_newlines_nonempty s :
  s ≠ EmptyString → universal_newlines s ≠ EmptyString.
Proof.
  induction s as [|c s IH]; intros Hs; [done|]. simpl.
  destruct (Ascii.eqb c CR); [|done].
  destruct s as [|c' s]; [done|].
  destruct (Ascii.eqb c' LF); [by apply IH | done].
Qed.

Lemma universal_newlines_terminated a :
  terminated a = true → terminated (universal_newlines a) = true.
Proof.
  induction a as [|c a IH]; intros Ha; [done|].
  destruct a as [|c' a].
  - simpl in Ha. apply Ascii.eqb_eq in Ha as ->. reflexivity.
  - rewrite terminated_cons in Ha by done. specialize (IH Ha).
    change (universal_newlines (String c (String c' a))) with
      (if Ascii.eqb c CR then
         if Ascii.eqb c' LF then universal_newlines (String c' a)
         else String LF (universal_newlines (String c' a))
       else String c (universal_newlines (String c' a))).
    pose proof (universal_newlines_nonempty (String c' a)) as Hne.
    destruct (Ascii.eqb c CR), (Ascii.eqb c' LF);
      rewrite ?terminated_cons by (by apply Hne); done.
Qed.

Lemma universal_newlines_id s :
  no_line_break s = true → universal_newlines s = s.
Proof.
  induction s as [|c s IH]; [done|]. simpl.
  intros [[Hlf Hcr]%andb_prop Hs]%andb_prop.
  apply negb_true_iff in Hcr. rewrite Hcr. by rewrite IH.
Qed.

Lemma universal_newlines_line s :
  no_line_break s = true → universal_newlines (s +:+ newline) = s +:+ newline.
Proof.
  induction s as [|c s IH]; [done|]. rewrite app_cons. simpl.
  intros [[Hlf Hcr]%andb_prop Hs]%andb_prop.
  apply negb_true_iff in Hcr. rewrite Hcr. by rewrite IH.
Qed.

Lemma readlines_nonempty s : s ≠ EmptyString → readlines s ≠ [].
Proof.
  destruct s as [|c s]; [done|]. intros _. simpl.
  destruct (Ascii.eqb c LF); [done|]. by destruct (readlines s).
Qed.

Lemma readlines_app a b :
  terminated a = true → readlines (a +:+ b) = readlines a ++ readlines b.
Proof.
  induction a as [|c a IH]; intros Ha; [done|].
  rewrite app_cons. simpl.
  destruct a as [|c' a].
  - simpl in Ha. by rewrite Ha.
  - rewrite terminated_cons in Ha by done. rewrite (IH Ha).
    destruct (Ascii.eqb c LF); [done|].
    pose proof (readlines_nonempty (String c' a)) as Hne.
    destruct (readlines (String c' a)); [by exfalso; apply Hne | done].
Qed.

Lemma readlines_line s :
  no_LF s = true → readlines (s +:+ newline) = [s +:+ newline].
Proof.
  induction s as [|c s IH]; [done|]. rewrite app_cons. simpl.
  intros [Hlf Hs]%andb_prop. apply negb_true_iff in Hlf. rewrite Hlf.
  by rewrite IH.
Qed.

Lemma no_line_break_no_LF s : no_line_break s = true → no_LF s = true.
Proof.
  induction s as [|c s IH]; [done|]. simpl.
  intros [[Hlf Hcr]%andb_prop Hs]%andb_prop. by rewrite Hlf, IH.
Qed.

Lemma file_lines_app a b :
  terminated a = true → file_lines (a +:+ b) = file_lines a ++ file_lines b.
Proof.
  intros Ha. unfold file_lines.
  rewrite universal_newlines_app by done.
  by rewrite readlines_app by by apply universal_newlines_terminated.
Qed.

Lemma file_lines_line s :
  no_line_break s = true → file_lines (s +:+ newline) = [s +:+ newline].
Proof.
  intros Hs. unfold file_lines. rewrite universal_newlines_line by done.
  by apply readlines_line, no_line_break_no_LF.
Qed.

(** Appending a record adds the ids that the record alone reads as. *)
Lemma load_ids_save email_id file :
  ledger_wf file →
  load_ids (save_id email_id file)
  = load_ids file ∪ load_ids (Some (email_id +:+ newline)).
Proof.
  intros Hwf. unfold save_id.
  transitivity (load_ids (Some (default EmptyString file))
                ∪ load_ids (Some (email_id +:+ newline))).
  - unfold load_ids. rewrite file_lines_app by done.
    by rewrite filter_app, fmap_app, list_to_set_app_L.
  - by destruct file.
Qed.

(** A safe id reads back as itself. *)
Lemma load_ids_line email_id :
  ledger_safe email_id → load_ids (Some (email_id +:+ newline)) = {[ email_id ]}.
Proof.
  intros (Hne & Hstrip & Hbreak). unfold load_ids.
  rewrite file_lines_line by done.
  rewrite filter_cons. rewrite strip_app_newline by done.
  destruct (decide _) as [_|Hn].
  - simpl. rewrite strip_app_newline by done. set_solver.
  - exfalso. apply Hn. by destruct email_id.
Qed.

Lemma load_ids_save_safe email_id file :
  ledger_wf file → ledger_safe email_id →
  load_ids (save_id email_id file) = load_ids file ∪ {[ email_id ]}.
Proof.
  intros Hwf Hsafe. by rewrite load_ids_save, load_ids_line.
Qed.

Lemma load_ids_save_all ids file :
  ledger_wf file → Forall ledger_safe ids →
  load_ids (save_all ids file) = load_ids file ∪ list_to_set ids.
Proof.
  revert file. induction ids as [|i ids IH]; intros file Hwf Hsafe.
  - simpl. set_solver.
  - inversion Hsafe as [|? ? Hi Hids]; subst. simpl.
    change (foldl (λ f i0, save_id i0 f) (save_id i file) ids)
      with (save_all ids (save_id i file)).
    rewrite IH; [|apply save_id_wf|done].
    rewrite load_ids_save_safe by done. set_solver.
Qed.

(** What the ledger returns has been stripped and is not empty. *)
Lemma load_ids_stripped file x :
  x ∈ load_ids file → PyStr.strip x = x ∧ x ≠ EmptyString.
Proof.
  destruct file as [content|]; simpl; [|set_solver].
  rewrite elem_of_list_to_set, list_elem_of_fmap.
  intros (line & -> & Hin). apply list_elem_of_filter in Hin as [Ht _].
  split; [apply strip_idem|]. intros E. by rewrite E in Ht.
Qed.

Lemma load_ids_iter email_id file n :
  ledger_wf file →
  load_ids (Nat.iter (S n) (save_id email_id) file)
  = load_ids (save_id email_id file).
Proof.
  intros Hwf. induction n as [|n IH]; [done|].
  change (Nat.iter (S (S n)) (save_id email_id) file)
    with (save_id email_id (Nat.iter (S n) (save_id email_id) file)).
  rewrite load_ids_save by apply save_id_wf.
  rewrite IH, load_ids_save by done. set_solver.
Qed.

End LedgerFacts.

(** ** What a computation leaves untouched

    The lemmas of this section hold for every relation [R] between the
    state before and the state after that is a preorder and that admits a
    change of the world and the printing of a message other than
    [Processing]. *)

Section Frame.
Context {W Msg : Type} `{Services W Msg}.
Variable R : State W → State W → Prop.
Hypothesis R_refl : ∀ s, R s s.
Hypothesis R_trans : ∀ s1 s2 s3, R s1 s2 → R s2 s3 → R s1 s3.
Hypothesis R_world : ∀ s w, R s (Build_State w (ledger s) (trace s)).
Hypothesis R_emit : ∀ s a,
  is_processing a = false →
  R s (Build_State (world s) (ledger s) (trace s ++ [a])).

Lemma frames_ret {A} (a : A) : frames R (ret a).
Proof. intros s. apply R_refl. Qed.

Lemma frames_lift {A} (r : result A) : frames R (lift r).
Proof. intros s. apply R_refl. Qed.

Lemma frames_bind {A B} (m : M W A) (k : A → M W B) :
  frames R m → (∀ a, frames R (k a)) → frames R (bind m k).
Proof.
  intros Hm Hk s. unfold bind. specialize (Hm s).
  destruct (m s) as [[a|e] s']; simpl in *; [|done].
  eapply R_trans; [exact Hm | apply Hk].
Qed.

Lemma frames_call {A} (op : W → result A * W) : frames R (call op).
Proof.
  intros s. unfold call. destruct (op (world s)) as [r w]. apply R_world.
Qed.

Lemma frames_call_total {A} (op : W → A * W) : frames R (call_total op).
Proof.
  intros s. unfold call_total. destruct (op (world s)) as [r w]. apply R_world.
Qed.

Lemma frames_observe {A} (f : W → A) : frames R (observe f).
Proof. intros s. apply R_refl. Qed.

Lemma frames_emit a : is_processing a = false → frames R (emit a).
Proof. intros Ha s. by apply R_emit. Qed.

Lemma frames_load : frames R load_processed_email_ids.
Proof. intros s. apply R_refl. Qed.

Lemma frames_try_except {A} (body : M W A) (handler : exn → M W A) :
  frames R body → (∀ e, frames R (handler e)) →
  frames R (try_except body handler).
Proof.
  intros Hb Hh s. unfold try_except. specialize (Hb s).
  destruct (body s) as [[a|e] s']; simpl in *; [done|].
  eapply R_trans; [exact Hb | apply Hh].
Qed.

Lemma frames_try_except_ValueError {A} (body : result A) (handler : M W A) :
  frames R handler → frames R (try_except_ValueError body handler).
Proof.
  intros Hh. unfold try_except_ValueError.
  destruct body as [a|[]]; auto using frames_ret, frames_lift.
Qed.

Lemma frames_for_each {A} (l : list A) (body : A → M W unit) :
  (∀ x, x ∈ l → frames R (body x)) → frames R (for_each l body).
Proof.
  induction l as [|x l IH]; intros Hb; simpl; [apply frames_ret|].
  apply frames_bind; [apply Hb; left | intros _; apply IH].
  intros y Hy. apply Hb. by right.
Qed.

Lemma frames_fold_m {A B} (f : B → A → M W B) (l : list A) (b : B) :
  (∀ b x, frames R (f b x)) → frames R (fold_m f l b).
Proof.
  intros Hf. revert b. induction l as [|x l IH]; intros b; simpl.
  - apply frames_ret.
  - apply frames_bind; [apply Hf | intros b'; apply IH].
Qed.

(** One step through a computation built from the operations above. *)
Ltac frame_step :=
  lazymatch goal with
  | |- frames _ (bind _ _) => apply frames_bind; [|intros ?]
  | |- frames _ (ret _) => apply frames_ret
  | |- frames _ (lift _) => apply frames_lift
  | |- frames _ (call _) => apply frames_call
  | |- frames _ (call_total _) => apply frames_call_total
  | |- frames _ (observe _) => apply frames_observe
  | |- frames _ (emit _) => apply frames_emit; reflexivity
  | |- frames _ load_processed_email_ids => apply frames_load
  | |- frames _ (try_except _ _) => apply frames_try_except; [|intros ?]
  | |- frames _ (try_except_ValueError _ _) =>
      apply frames_try_except_ValueError
  | |- frames _ (fold_m _ _ _) => apply frames_fold_m; intros ? ?
  | |- frames _ (for_each _ _) => apply frames_for_each; intros ? _
  | |- frames _ (match ?x with _ => _ end) => destruct x
  end.

Lemma frames_date_today : frames R date_today.
Proof. unfold date_today, datetime_now. repeat frame_step. Qed.

Lemma frames_process_content_for_tasks text :
  frames R (process_content_for_tasks text).
Proof. unfold process_content_for_tasks. repeat frame_step. Qed.

Lemma frames_default_slot : frames R default_slot.
Proof.
  unfold default_slot, datetime_now.
  repeat first [apply frames_date_today | frame_step].
Qed.

Lemma frames_all_day d : frames R (all_day d).
Proof. unfold all_day. repeat frame_step. Qed.

Lemma frames_resolve_window t : frames R (resolve_window t).
Proof.
  unfold resolve_window.
  repeat first [apply frames_default_slot | apply frames_all_day | frame_step].
Qed.

Lemma frames_add_task_to_calendar timezone t :
  frames R (add_task_to_calendar timezone t).
Proof.
  unfold add_task_to_calendar.
  repeat first [apply frames_date_today | apply frames_resolve_window
               | frame_step].
Qed.

Lemma frames_create_calendar_events_from_tasks tasks timezone :
  frames R (create_calendar_events_from_tasks tasks timezone).
Proof.
  unfold create_calendar_events_from_tasks.
  repeat first [apply frames_add_task_to_calendar | frame_step].
Qed.

Lemma frames_tasks_of_attachment acc path :
  frames R (tasks_of_attachment acc path).
Proof.
  unfold tasks_of_attachment.
  repeat first [apply frames_process_content_for_tasks | frame_step].
Qed.

Lemma frames_collect_tasks msg_id : frames R (collect_tasks msg_id).
Proof.
  unfold collect_tasks.
  repeat first [apply frames_process_content_for_tasks
               | apply frames_tasks_of_attachment | frame_step].
Qed.

(** The loop body of [main] also announces the message and may commit it;
    [announces] and [saves] say for which ids [R] admits that. *)
Variable announces : string → Prop.
Variable saves : string → Prop.
Hypothesis R_announce : ∀ s i,
  announces i →
  R s (Build_State (world s) (ledger s) (trace s ++ [Processing i])).
Hypothesis R_save : ∀ s i,
  saves i →
  R s (Build_State (world s) (save_id i (ledger s)) (trace s)).

Lemma frames_save msg_id :
  saves msg_id → frames R (save_processed_email_id msg_id).
Proof. intros Hs s. by apply R_save. Qed.

Lemma frames_commit_tasks msg_id tasks :
  (tasks ≠ [] → saves msg_id) → frames R (commit_tasks msg_id tasks).
Proof.
  intros Hs. unfold commit_tasks. destruct tasks as [|t tasks].
  - by apply frames_emit.
  - repeat first [apply frames_create_calendar_events_from_tasks
                 | apply frames_save; by apply Hs
                 | frame_step].
Qed.

Lemma frames_process_email msg_id :
  announces msg_id → (may_yield_tasks msg_id → saves msg_id) →
  frames R (process_email msg_id).
Proof.
  intros Ha Hs s. unfold process_email, bind.
  pose proof (R_announce s msg_id Ha) as H0.
  destruct (emit (Processing msg_id) s) as [[[]|e] s0] eqn:E0;
    unfold emit in E0; simplify_eq; simpl.
  set (s0 := Build_State (world s) (ledger s) (trace s ++ [Processing msg_id]))
    in *.
  pose proof (frames_collect_tasks msg_id s0) as H1.
  destruct (collect_tasks msg_id s0) as [[[tasks|]|e] s1] eqn:E1; simpl in *;
    try (eapply R_trans; [exact H0 | exact H1]).
  eapply R_trans; [exact H0|]. eapply R_trans; [exact H1|].
  apply frames_commit_tasks. intros Hne. apply Hs.
  exists s0, s1, tasks. by split.
Qed.

End Frame.

(** The shape of a run: it ends before the loop and leaves ledger and trace
    as they were, or it is the loop over the new ids of a search. *)
Lemma main_cases {W Msg} `{Services W Msg} (s : State W) :
  (ledger (main s).2 = ledger s ∧ trace (main s).2 = trace s)
  ∨ ∃ w w' ids,
      search_messages query w = (Ok ids, w')
      ∧ main s = for_each (filter (λ i, i ∉ load_ids (ledger s)) ids)
                          process_email
                          (Build_State w' (ledger s) (trace s)).
Proof.
  unfold main, bind, call, observe, load_processed_email_ids.
  destruct (initialize (world s)) as [[[]|e] w0] eqn:E0; simpl; [|by left].
  destruct (negb (gmail_service w0)); simpl; [by left|].
  destruct (negb (calendar_service w0)); simpl; [by left|].
  destruct (search_messages query w0) as [[ids|e] w1] eqn:E1; simpl;
    [|by left].
  right. exists w0, w1, ids. split; [done|].
  by destruct (filter _ ids).
Qed.

(** ** The relations a run is followed with *)

Section Relations.
Context {W : Type}.
Implicit Types s : State W.

Lemma save_all_app ids1 ids2 file :
  save_all (ids1 ++ ids2) file = save_all ids2 (save_all ids1 file).
Proof. apply foldl_app. Qed.

Lemma events_of_item_app m cur a b :
  events_of_item m cur (a ++ b)
  = events_of_item m cur a ++ events_of_item m (current_item cur a) b.
Proof.
  revert cur. induction a as [|x a IH]; intros cur; [done|].
  destruct x; simpl; rewrite ?IH; try done.
  by destruct (bool_decide (cur = Some m)).
Qed.

Lemma current_item_app cur a b :
  current_item cur (a ++ b) = current_item (current_item cur a) b.
Proof.
  revert cur. induction a as [|x a IH]; intros cur; [done|].
  by destruct x; simpl; rewrite ?IH.
Qed.

Lemma clean_nil m : clean m [].
Proof. by intros cur Hcur. Qed.

Lemma clean_app m a b : clean m a → clean m b → clean m (a ++ b).
Proof.
  intros Ha Hb cur Hcur. destruct (Ha cur Hcur) as [Ea Ca].
  destruct (Hb _ Ca) as [Eb Cb].
  by rewrite events_of_item_app, current_item_app, Ea, Eb.
Qed.

Lemma clean_message m a : is_processing a = false → clean m [a].
Proof.
  intros Ha cur Hcur. destruct a; try done; simpl; try by split.
  rewrite bool_decide_eq_false_2 by done. by split.
Qed.

Lemma clean_announce m i : i ≠ m → clean m [Processing i].
Proof. intros Hi cur Hcur. simpl. split; [done | congruence]. Qed.

Lemma clean_trace_same m s s' : trace s' = trace s → clean_trace m s s'.
Proof.
  intros E. exists []. rewrite app_nil_r. split; [done | apply clean_nil].
Qed.

Lemma clean_trace_refl m s : clean_trace m s s.
Proof. by apply clean_trace_same. Qed.

Lemma clean_trace_trans m s1 s2 s3 :
  clean_trace m s1 s2 → clean_trace m s2 s3 → clean_trace m s1 s3.
Proof.
  intros (d1 & E1 & C1) (d2 & E2 & C2). exists (d1 ++ d2).
  split; [by rewrite E2, E1, app_assoc | by apply clean_app].
Qed.

End Relations.

(** ** The run and the ledger *)

Section Run.
Context {W Msg : Type} `{Services W Msg}.
Implicit Types s : State W.

Lemma create_calendar_events_ledger tasks timezone s :
  ledger (create_calendar_events_from_tasks tasks timezone s).2 = ledger s.
Proof.
  apply (frames_create_calendar_events_from_tasks same_ledger);
    unfold same_ledger; intros; simpl; congruence.
Qed.

(** A run makes no calendar call for an id that the ledger holds. *)
Lemma main_clean msg_id s :
  msg_id ∈ load_ids (ledger s) → clean_trace msg_id s (main s).2.
Proof.
  intros Hin. destruct (main_cases s) as [[_ Et]|(w & w' & ids & Es & ->)].
  - by apply clean_trace_same.
  - set (s0 := Build_State w' (ledger s) (trace s)).
    eapply clean_trace_trans; [by apply (clean_trace_same _ s s0)|].
    apply (frames_for_each (clean_trace msg_id));
      [apply clean_trace_refl | apply clean_trace_trans|].
    intros i [Hi _]%list_elem_of_filter.
    apply (frames_process_email _ (clean_trace_refl _) (clean_trace_trans _))
      with (announces := λ i, i ≠ msg_id) (saves := λ _, True).
    + intros s1 w1. by apply clean_trace_same.
    + intros s1 a Ha. exists [a]. split; [done | by apply clean_message].
    + intros s1 j Hj. exists [Processing j].
      split; [done | by apply clean_announce].
    + intros s1 j _. by apply clean_trace_same.
    + by intros ->.
    + done.
Qed.

End Run.

(** * The properties of the specification *)

Section LedgerProperties.
Import PyStr PyStrFacts LedgerFacts.

(** C10, as stated, fails: the empty id and an id with a carriage return
    inside contain no line feed and equal their own strip, yet after
    [save_processed_email_id] the loaded set does not contain them. *)
Lemma ledger_round_trip_fails :
  (no_LF EmptyString = true
   ∧ strip EmptyString = EmptyString
   ∧ EmptyString ∉ load_ids (save_id EmptyString None))
  ∧ (no_LF Scripted.broken_id = true
     ∧ strip Scripted.broken_id = Scripted.broken_id
     ∧ Scripted.broken_id ∉ load_ids (save_id Scripted.broken_id None)).
Proof.
  repeat split; try reflexivity.
  - intros Hin. apply elem_of_list_to_set in Hin. vm_compute in Hin.
    by apply elem_of_nil in Hin.
  - intros Hin. apply elem_of_list_to_set in Hin. vm_compute in Hin.
    repeat (apply elem_of_cons in Hin as [Hin|Hin]; [discriminate|]).
    by apply elem_of_nil in Hin.
Qed.

(** C10, amended: for a ledger file that is absent, empty or ends with a
    line feed, (1) after saving a non-empty id that has no line feed and no
    carriage return and equals its own strip, the loaded set contains the
    id; (2) an id whose strip is empty is never in the loaded set; (3)
    saving the same id [n + 1] times loads the same set as saving it once. *)
Theorem ledger_round_trip (file : option string) (email_id : string) (n : nat) :
  ledger_wf file →
  (ledger_safe email_id → email_id ∈ load_ids (save_id email_id file))
  ∧ (∀ x, strip x = EmptyString → x ∉ load_ids file)
  ∧ load_ids (Nat.iter (S n) (save_id email_id) file)
    = load_ids (save_id email_id file).
Proof.
  intros Hwf. split; [|split].
  - intros Hsafe. rewrite load_ids_save_safe by done. set_solver.
  - intros x Hx Hin. apply load_ids_stripped in Hin as [Hs Hne]. congruence.
  - by apply load_ids_iter.
Qed.

Lemma ledger_round_trip_witness :
  "m1" ∈ load_ids (save_id "m1" None)
  ∧ load_ids (Nat.iter 3 (save_id "m1") None) = load_ids (save_id "m1" None).
Proof.
  pose proof (ledger_round_trip None "m1" 2 eq_refl) as (H1 & _ & H3).
  split; [|exact H3]. apply H1. by repeat split.
Defined.

End LedgerProperties.

Section PipelineProperties.
Context {W Msg : Type} `{Services W Msg}.
Implicit Types s : State W.
Import LedgerFacts.

(** C1. Run-level idempotency: when a run has left [msg_id] in the ledger,
    a next run that starts from that ledger makes no calendar call for
    [msg_id], whatever its candidates are (so also for the unchanged
    candidate set): the ids of the ledger read at its start are filtered
    out before the loop. *)
Theorem second_run_creates_no_event (s1 s2 : State W) (msg_id : string) :
  msg_id ∈ load_ids (ledger (main s1).2) →
  ledger s2 = ledger (main s1).2 →
  trace s2 = [] →
  events_of_item msg_id None (trace (main s2).2) = [].
Proof.
  intros Hin Hl Ht. rewrite <- Hl in Hin.
  destruct (main_clean msg_id s2 Hin) as (delta & -> & Hc).
  rewrite Ht. simpl. by apply Hc.
Qed.

(** C2, amended: for a message with a non-empty task list, (1) when the
    creation of its events raises, the exception leaves the loop body and
    the loop, so that the run ends, and the ledger is as before; (2) when
    the creation of its events returns, whatever the calendar answered to
    each call, the id is appended to the ledger exactly when
    [mark_message_as_read] returns [True]: it is appended when the message
    is marked as read, and the ledger then holds it when the file is well
    formed and the id is one the file stores unchanged; nothing is
    appended when the marking returns [False] or raises. *)
Theorem commit_ignores_event_result (msg_id : string) (tasks : list Task) s :
  tasks ≠ [] →
  (∀ e s1,
     create_calendar_events_from_tasks tasks calendar_timezone s = (Raise e, s1) →
     commit_tasks msg_id tasks s = (Raise e, s1) ∧ ledger s1 = ledger s
     ∧ ∀ s0 rest,
         collect_tasks msg_id (announced msg_id s0) = (Ok (Some tasks), s) →
         for_each (msg_id :: rest) process_email s0 = (Raise e, s1))
  ∧ (∀ s1,
       create_calendar_events_from_tasks tasks calendar_timezone s = (Ok tt, s1) →
       (∀ w2,
          mark_message_as_read msg_id (world s1) = (Ok true, w2) →
          commit_tasks msg_id tasks s
          = (Ok tt, Build_State w2 (save_id msg_id (ledger s))
                      (trace s1 ++ [MarkedProcessed msg_id]))
          ∧ (ledger_wf (ledger s) → ledger_safe msg_id →
             msg_id ∈ load_ids (ledger (commit_tasks msg_id tasks s).2)))
       ∧ (∀ w2,
            mark_message_as_read msg_id (world s1) = (Ok false, w2) →
            commit_tasks msg_id tasks s
            = (Ok tt, Build_State w2 (ledger s)
                        (trace s1 ++ [NotMarked msg_id])))
       ∧ (∀ e w2,
            mark_message_as_read msg_id (world s1) = (Raise e, w2) →
            commit_tasks msg_id tasks s
            = (Raise e, Build_State w2 (ledger s) (trace s1)))).
Proof.
  intros Hne. destruct tasks as [|t tasks]; [done|].
  pose proof (create_calendar_events_ledger (t :: tasks) calendar_timezone s)
    as Hl.
  split.
  - intros e s1 Hc. rewrite Hc in Hl.
    assert (commit_tasks msg_id (t :: tasks) s = (Raise e, s1)) as E.
    { unfold commit_tasks, bind. by rewrite Hc. }
    split; [done|]. split; [done|]. intros s0 rest Hcol.
    cbn [for_each]. unfold bind at 1. unfold process_email, bind, emit.
    fold (announced msg_id s0). by rewrite Hcol, E.
  - intros s1 Hc. rewrite Hc in Hl. simpl in Hl.
    split; [|split].
    + intros w2 Hm.
      assert (commit_tasks msg_id (t :: tasks) s
              = (Ok tt, Build_State w2 (save_id msg_id (ledger s))
                          (trace s1 ++ [MarkedProcessed msg_id]))) as E.
      { unfold commit_tasks, bind, call. rewrite Hc, Hm. simpl.
        by rewrite Hl. }
      split; [done|]. intros Hwf Hsafe. rewrite E. cbn [snd ledger].
      rewrite load_ids_save_safe by done. set_solver.
    + intros w2 Hm. unfold commit_tasks, bind, call. rewrite Hc, Hm. simpl.
      by rewrite Hl.
    + intros e w2 Hm. unfold commit_tasks, bind, call. rewrite Hc, Hm.
      by rewrite Hl.
Qed.

End PipelineProperties.

Section ScriptedRuns.
Import Scripted.

(** Membership in the ledger a concrete run leaves: the file is computed
    first, then its lines. *)
Ltac in_ledger :=
  lazymatch goal with
  | |- _ ∈ load_ids ?f =>
      let f' := eval vm_compute in f in
      replace f with f' by (vm_compute; reflexivity);
      unfold load_ids; apply elem_of_list_to_set; vm_compute
  end.

Lemma second_run_creates_no_event_witness :
  "m1" ∈ load_ids (ledger (run one_task (at_hour day0 10) None).2)
  ∧ length (events_of_item "m1" None
              (trace (run one_task (at_hour day0 10) None).2)) = 1%nat
  ∧ events_of_item "m1" None
      (trace (run one_task (at_hour day0 11)
                (ledger (run one_task (at_hour day0 10) None).2)).2) = [].
Proof.
  assert ("m1" ∈ load_ids (ledger (run one_task (at_hour day0 10) None).2))
    as Hin.
  { in_ledger. left. }
  split; [exact Hin|]. split; [vm_compute; reflexivity|].
  exact (@second_run_creates_no_event datetime string (scripted one_task)
           (start_state (at_hour day0 10) None)
           (start_state (at_hour day0 11)
              (ledger (run one_task (at_hour day0 10) None).2))
           "m1" Hin eq_refl eq_refl).
Defined.

(** C2, as stated, fails: the message [m1] has two tasks, the calendar
    refuses the event of the second, and the id is in the ledger after the
    run. *)
Lemma partial_failure_is_committed :
  (∃ ev, CreateEvent ev ∈ trace (run two_tasks (at_hour day0 10) None).2
         ∧ ev_summary ev = "call Ann"
         ∧ (@create_event _ _ (scripted two_tasks) ev (at_hour day0 10)).1
           = Ok false)
  ∧ "m1" ∈ load_ids (ledger (run two_tasks (at_hour day0 10) None).2).
Proof.
  split.
  - eexists. split; [|split].
    + vm_compute. do 2 right. left.
    + reflexivity.
    + reflexivity.
  - in_ledger. left.
Qed.

Lemma commit_ignores_event_result_witness :
  ledger (@commit_tasks _ _ (scripted two_tasks) "m1"
            [plain_task "buy milk"; plain_task "call Ann"]
            (start_state (at_hour day0 10) None)).2
  = save_id "m1" None
  ∧ "m1" ∈ load_ids (ledger (@commit_tasks _ _ (scripted two_tasks) "m1"
                               [plain_task "buy milk"; plain_task "call Ann"]
                               (start_state (at_hour day0 10) None)).2).
Proof.
  pose proof (@commit_ignores_event_result datetime string (scripted two_tasks)
                "m1" [plain_task "buy milk"; plain_task "call Ann"]
                (start_state (at_hour day0 10) None) ltac:(discriminate))
    as [_ H2].
  lazymatch eval vm_compute in
    (@create_calendar_events_from_tasks _ _ (scripted two_tasks)
       [plain_task "buy milk"; plain_task "call Ann"] "Europe/Dublin"
       (start_state (at_hour day0 10) None)) with
  | (Ok tt, ?s1) =>
      assert (@create_calendar_events_from_tasks _ _ (scripted two_tasks)
                [plain_task "buy milk"; plain_task "call Ann"]
                (@calendar_timezone _ _ (scripted two_tasks))
                (start_state (at_hour day0 10) None)
              = (Ok tt, s1)) as Hc by (vm_compute; reflexivity);
      destruct (H2 s1 Hc) as [Hmarked _]
  end.
  destruct (Hmarked (at_hour day0 10) ltac:(vm_compute; reflexivity))
    as [E Hin].
  split; [rewrite E; reflexivity|]. apply Hin; [reflexivity|].
  by repeat split.
Defined.

End ScriptedRuns.

(** ** Arithmetic of the [datetime] module *)

Module PyTimeFacts.

Lemma timedelta_days_1 : timedelta_days 1 = Ok one_day.
Proof. reflexivity. Qed.

Lemma timedelta_hours_1 : timedelta_hours 1 = Ok one_hour.
Proof. reflexivity. Qed.

(** One hour after nine in the morning of a valid date is ten the same
    day. *)
Lemma nine_plus_one_hour (d : date) :
  date_valid d →
  datetime_add (combine d (time_hm 9 0)) one_hour
  = Ok (combine d (time_hm 10 0)).
Proof.
  intros [Hlo Hhi]. unfold datetime_add, combine, time_hm, one_hour. simpl.
  unfold us_per_day, us_per_hour, us_per_minute, us_per_second, max_ordinal in *.
  assert ((ordinal d * (24 * (60 * (60 * 1000000)))
           + (9 * (60 * (60 * 1000000)) + 0 * (60 * 1000000))
           + 60 * (60 * 1000000)) `div` (24 * (60 * (60 * 1000000)))
          = ordinal d) as Ed.
  { symmetry. apply (Z.div_unique _ _ _ 36000000000); lia. }
  assert ((ordinal d * (24 * (60 * (60 * 1000000)))
           + (9 * (60 * (60 * 1000000)) + 0 * (60 * 1000000))
           + 60 * (60 * 1000000)) `mod` (24 * (60 * (60 * 1000000)))
          = 36000000000) as Em.
  { symmetry. apply (Z.mod_unique _ _ (ordinal d)); lia. }
  rewrite Ed, Em.
  destruct (Z.ltb_spec 0 (ordinal d)); [|lia].
  destruct (Z.leb_spec (ordinal d) 3652059); [|lia].
  simpl. by destruct d.
Qed.

(** The day after a date, when there is one. *)
Lemma date_add_one_day (d e : date) :
  date_add d one_day = Ok e → ordinal e = ordinal d + 1 ∧ date_valid e.
Proof.
  unfold date_add, td_days, one_day. simpl.
  rewrite Z.div_same by done.
  destruct (Z.ltb_spec 0 (ordinal d + 1)); [|discriminate].
  destruct (Z.leb_spec (ordinal d + 1) max_ordinal); [|discriminate].
  simpl. intros [= <-]. simpl. unfold date_valid. simpl. lia.
Qed.

Lemma datetime_add_not_ValueError dt td : datetime_add dt td ≠ Raise ValueError.
Proof. unfold datetime_add. by destruct (_ && _). Qed.

End PyTimeFacts.

(** ** [parse_duration_string] in the module as it is *)

Section DurationProperties.

(** The name [re] is not bound in the module. *)
Lemma re_unbound : lookup_name module_globals "re" = Raise (NameError "re").
Proof. reflexivity. Qed.

(** Past the test for an empty text, the body stops at the lookup of
    [re]. *)
Lemma parse_duration_string_nonempty (s : string) :
  s ≠ EmptyString →
  parse_duration_string (Some s) = Raise (NameError "re").
Proof.
  intros Hs. unfold parse_duration_string, parse_duration_string_in.
  destruct s; [done|]. cbn [PyStr.truthy negb]. by rewrite re_unbound.
Qed.

(** C7 fails on the code: the module never imports [re], so for every
    non-empty text the lookup of the name [re] in line 72 raises
    [NameError]; only an absent or empty text gets the default hour. *)
Theorem parse_duration_string_raises (s : string) :
  s ≠ EmptyString →
  parse_duration_string (Some s) = Raise (NameError "re")
  ∧ parse_duration_string None = Ok one_hour
  ∧ parse_duration_string (Some EmptyString) = Ok one_hour.
Proof.
  intros Hs. split; [by apply parse_duration_string_nonempty|].
  split; reflexivity.
Qed.

Lemma parse_duration_string_raises_witness :
  parse_duration_string (Some "gibberish") = Raise (NameError "re").
Proof.
  exact (proj1 (parse_duration_string_raises "gibberish" ltac:(discriminate))).
Defined.

Lemma parse_duration_string_cases (o : option string) :
  parse_duration_string o = Ok one_hour
  ∨ parse_duration_string o = Raise (NameError "re").
Proof.
  destruct o as [[|c s]|]; [by left | right | by left].
  by apply parse_duration_string_nonempty.
Qed.

End DurationProperties.

(** ** The window of a task *)

Section ResolverProperties.
Context {W Msg : Type} `{Services W Msg}.
Implicit Types s : State W.
Import PyTimeFacts.

Lemma timed_not_ValueError start dur : timed start dur ≠ Raise ValueError.
Proof.
  unfold timed.
  destruct (parse_duration_string_cases dur) as [E|E]; rewrite E; [|done].
  cbn [rbind].
  pose proof (datetime_add_not_ValueError start one_hour) as Hn.
  destruct (datetime_add start one_hour) as [e|e]; [done|].
  cbn [rbind]. congruence.
Qed.

(** The default slot as a function of the three readings of the clock. *)
Lemma default_slot_eval s a b c w1 w2 w3 :
  clock_now (world s) = (a, w1) →
  clock_now w1 = (b, w2) →
  clock_now w2 = (c, w3) →
  (default_slot s).1
  = rbind (if 17 <=? hour b then date_add (dt_date c) one_day
           else Ok (dt_date a))
      (fun d =>
         rbind (datetime_add (combine d (time_hm 9 0)) one_hour) (fun e =>
         Ok (Some {| w_start := TDateTime (combine d (time_hm 9 0));
                     w_end := TDateTime e |}))).
Proof.
  intros E1 E2 E3.
  unfold default_slot, date_today, datetime_now, bind, call_total, ret, lift.
  simpl. rewrite E1. simpl. rewrite E2. simpl.
  change {| td_us := 1 * us_per_hour |} with one_hour.
  destruct (17 <=? hour b); simpl.
  - rewrite E3. simpl.
    change {| td_us := 1 * us_per_day |} with one_day.
    change {| td_us := 1 * us_per_hour |} with one_hour.
    destruct (date_add (dt_date c) one_day) as [d|e]; simpl; [|done].
    by destruct (datetime_add _ one_hour).
  - by destruct (datetime_add _ one_hour).
Qed.

Lemma default_slot_readings s1 s2 :
  clock_readings 3 (world s1) = clock_readings 3 (world s2) →
  (default_slot s1).1 = (default_slot s2).1.
Proof.
  simpl.
  destruct (clock_now (world s1)) as [a1 u1] eqn:A1.
  destruct (clock_now u1) as [b1 v1] eqn:B1.
  destruct (clock_now v1) as [c1 x1] eqn:C1.
  destruct (clock_now (world s2)) as [a2 u2] eqn:A2.
  destruct (clock_now u2) as [b2 v2] eqn:B2.
  destruct (clock_now v2) as [c2 x2] eqn:C2.
  intros [= -> -> ->].
  by rewrite (default_slot_eval _ _ _ _ _ _ _ A1 B1 C1),
             (default_slot_eval _ _ _ _ _ _ _ A2 B2 C2).
Qed.

Lemma default_slot_world s s' :
  world s' = world s → (default_slot s').1 = (default_slot s).1.
Proof. intros E. apply default_slot_readings. by rewrite E. Qed.

Lemma warned_default_slot a s :
  ((emit a;; default_slot) s).1 = (default_slot s).1.
Proof. unfold bind, emit. by apply default_slot_world. Qed.

Lemma all_day_eval d s :
  (all_day d s).1
  = rbind (date_add d one_day) (fun e =>
      Ok (Some {| w_start := TDate d; w_end := TDate e |})).
Proof.
  unfold all_day, bind, lift, ret. rewrite timedelta_days_1. cbn [rbind].
  by destruct (date_add d one_day).
Qed.

Lemma warned_all_day a d s : ((emit a;; all_day d) s).1 = (all_day d s).1.
Proof. unfold bind, emit. simpl. by rewrite !all_day_eval. Qed.

(** The explicit date and time wins where the parser returns: for a task
    whose [dueDate] is a [datetime], whatever its suggested time is, when
    [parse_duration_string] returns the span [d] for the suggested duration
    and the due time plus [d] is the datetime [e], the window starts at the
    due time, ends at [e] and is not an all-day one; the state is
    untouched. *)
Lemma explicit_datetime_wins (t : Task) (dt e : datetime) (d : timedelta) s :
  dueDate t = DueDateTime dt →
  parse_duration_string (suggestedDuration t) = Ok d →
  datetime_add dt d = Ok e →
  resolve_window t s
  = (Ok (Some {| w_start := TDateTime dt; w_end := TDateTime e |}), s)
  ∧ isAllDay {| w_start := TDateTime dt; w_end := TDateTime e |} = false.
Proof.
  intros Hdue Hdur Hadd. split; [|done].
  unfold resolve_window. rewrite Hdue. unfold lift, timed.
  rewrite Hdur. simpl. by rewrite Hadd.
Qed.

(** C3 fails on the code: for a task whose [dueDate] is a [datetime] and
    that has a suggested duration, the first branch is taken and calls
    [parse_duration_string], which raises [NameError]; no window comes
    out. *)
Theorem explicit_datetime_with_duration_raises (t : Task) (dt : datetime)
    (dur : string) s :
  dueDate t = DueDateTime dt →
  suggestedDuration t = Some dur →
  dur ≠ EmptyString →
  resolve_window t s = (Raise (NameError "re"), s).
Proof.
  intros Hdue Hdur Hne. unfold resolve_window. rewrite Hdue, Hdur.
  unfold lift, timed. by rewrite parse_duration_string_nonempty.
Qed.

(** C4. Graceful degradation: for a task whose [dueDate] is a [date] [d]
    and whose suggested time is absent or refused by
    [datetime.fromisoformat], when [d] plus one day is the date [e], the
    window is the all-day one from [d], read as its midnight, to [e], the
    day after. *)
Theorem date_only_degrades_to_all_day (t : Task) (d e : date) s :
  dueDate t = DueDate d →
  suggestion_unusable t →
  date_add d one_day = Ok e →
  (resolve_window t s).1
  = Ok (Some {| w_start := TDate d; w_end := TDate e |})
  ∧ isAllDay {| w_start := TDate d; w_end := TDate e |} = true
  ∧ instant (TDate d) = combine d (time_hm 0 0)
  ∧ ordinal e = ordinal d + 1.
Proof.
  intros Hdue Hsug Hadd. split; [|split; [done|split; [done|]]].
  - unfold resolve_window, suggestion_unusable in *. rewrite Hdue.
    destruct (suggestedTimeOfDay t) as [str|].
    + destruct Hsug as [-> | Hsug];
        [cbn [PyStr.truthy]; by rewrite all_day_eval, Hadd|].
      destruct (PyStr.truthy str).
      * unfold parse_iso. rewrite Hsug. simpl.
        by rewrite warned_all_day, all_day_eval, Hadd.
      * by rewrite all_day_eval, Hadd.
    + by rewrite all_day_eval, Hadd.
  - by apply date_add_one_day in Hadd as [-> _].
Qed.

(** The window of a task without explicit due date and without usable
    suggested time is the default slot. *)
Lemma resolve_window_default (t : Task) s :
  dueDate t = DueNone → suggestion_unusable t →
  (resolve_window t s).1 = (default_slot s).1.
Proof.
  intros Hdue Hsug. unfold resolve_window, suggestion_unusable in *.
  rewrite Hdue. destruct (suggestedTimeOfDay t) as [str|]; [|done].
  destruct Hsug as [-> | Hsug]; [done|].
  destruct (PyStr.truthy str); [|done].
  unfold parse_iso. rewrite Hsug. simpl. apply warned_default_slot.
Qed.

(** C5. Default-slot boundary: for a task without explicit due date whose
    suggested time is absent or refused, while the clock shows the valid
    time [now], the window is nine to ten today when [now] is before 17:00
    and nine to ten tomorrow from 17:00 on (when today plus one day is the
    date [tomorrow]); ten is nine plus one hour, and the window is not an
    all-day one. *)
Theorem default_slot_boundary (t : Task) (now : datetime) s :
  dueDate t = DueNone →
  suggestion_unusable t →
  clock_readings 3 (world s) = [now; now; now] →
  date_valid (dt_date now) →
  (hour now < 17 →
   (resolve_window t s).1 = Ok (Some (morning_slot (dt_date now))))
  ∧ (17 <= hour now → ∀ tomorrow,
       date_add (dt_date now) one_day = Ok tomorrow →
       (resolve_window t s).1 = Ok (Some (morning_slot tomorrow)))
  ∧ (∀ d, date_valid d →
       datetime_add (combine d (time_hm 9 0)) one_hour
       = Ok (combine d (time_hm 10 0))
       ∧ isAllDay (morning_slot d) = false).
Proof.
  intros Hdue Hsug Hclock Hvalid.
  rewrite (resolve_window_default t s Hdue Hsug).
  simpl in Hclock.
  destruct (clock_now (world s)) as [a w1] eqn:A.
  destruct (clock_now w1) as [b w2] eqn:B.
  destruct (clock_now w2) as [c w3] eqn:C.
  injection Hclock as -> -> ->.
  rewrite (default_slot_eval _ _ _ _ _ _ _ A B C).
  split; [|split].
  - intros Hh. destruct (Z.leb_spec 17 (hour now)); [lia|]. simpl.
    by rewrite nine_plus_one_hour.
  - intros Hh tomorrow Ht. destruct (Z.leb_spec 17 (hour now)); [|lia].
    rewrite Ht. simpl. rewrite nine_plus_one_hour; [done|].
    by apply date_add_one_day in Ht as [_ ?].
  - intros d Hd. split; [by apply nine_plus_one_hour | done].
Qed.

(** C6, amended: the result of resolving a task is a function of the task
    and of the next three readings of the clock; for a task that has an
    explicit due date, or a suggested time that [datetime.fromisoformat]
    accepts, it is a function of the task alone. *)
Theorem resolve_window_given_clock (t : Task) (s1 s2 : State W) :
  consults_clock t = false
  ∨ clock_readings 3 (world s1) = clock_readings 3 (world s2) →
  (resolve_window t s1).1 = (resolve_window t s2).1.
Proof.
  intros Hc. unfold resolve_window, consults_clock in *.
  destruct (dueDate t) as [|d|dt]; [| |done].
  - destruct (suggestedTimeOfDay t) as [str|].
    + destruct (PyStr.truthy str); simpl in Hc.
      * unfold parse_iso. destruct (fromisoformat str) as [start|]; simpl.
        -- pose proof (timed_not_ValueError start (suggestedDuration t)).
           by destruct (timed start (suggestedDuration t)) as [?|[]].
        -- rewrite !warned_default_slot. apply default_slot_readings.
           by destruct Hc.
      * apply default_slot_readings. by destruct Hc.
    + apply default_slot_readings. by destruct Hc.
  - destruct (suggestedTimeOfDay t) as [str|]; [|by rewrite !all_day_eval].
    destruct (PyStr.truthy str); [|by rewrite !all_day_eval].
    destruct (rbind _ _) as [?|[]]; simpl; try done.
    by rewrite !warned_all_day, !all_day_eval.
Qed.

End ResolverProperties.

(** ** [parse_duration_string] with [re] in scope *)

Module DurationFacts.
Import PyStr LedgerFacts.

Lemma lower_app s t : lower (s +:+ t) = lower s +:+ lower t.
Proof.
  induction s as [|c s IH]; [done|]. rewrite app_cons. simpl.
  by rewrite IH.
Qed.

Lemma lower_char_digit c : isdigit c = true → lower_char c = c.
Proof. destruct c as [[] [] [] [] [] [] [] []]; (discriminate || reflexivity). Qed.

Lemma lower_char_space c : isspace c = true → lower_char c = c.
Proof. destruct c as [[] [] [] [] [] [] [] []]; (discriminate || reflexivity). Qed.

Lemma space_not_digit c : isspace c = true → isdigit c = false.
Proof. destruct c as [[] [] [] [] [] [] [] []]; (discriminate || reflexivity). Qed.

Lemma lower_digits s : all_chars isdigit s = true → lower s = s.
Proof.
  induction s as [|c s IH]; [done|]. simpl. intros [Hc Hs]%andb_prop.
  by rewrite lower_char_digit, IH.
Qed.

Lemma lower_spaces s : all_chars isspace s = true → lower s = s.
Proof.
  induction s as [|c s IH]; [done|]. simpl. intros [Hc Hs]%andb_prop.
  by rewrite lower_char_space, IH.
Qed.

(** A run of characters satisfying [p], followed by one that does not, is
    what [span] takes. *)
Lemma span_app p s c t :
  all_chars p s = true → p c = false →
  span p (s +:+ String c t) = (s, String c t).
Proof.
  intros Hs Hc. induction s as [|a s IH].
  - simpl. by rewrite Hc.
  - rewrite app_cons. simpl in *. apply andb_prop in Hs as [Ha Hs].
    by rewrite Ha, IH.
Qed.

(** The lowered token starts with a letter and is matched as a unit whose
    text tells minutes from hours. *)
Lemma unit_of_token_match token u :
  spec_unit_of_token token = Some u →
  ∃ c t unit,
    lower token = String c t
    ∧ isdigit c = false ∧ isspace c = false
    ∧ match_unit (String c t) = Some unit
    ∧ ∀ value,
        (if contains "min" unit then timedelta_minutes value
         else if contains "h" unit then timedelta_hours value
         else timedelta_hours 1)
        = spec_duration u value.
Proof.
  unfold spec_unit_of_token.
  destruct (bool_decide (lower token ∈ spec_minute_tokens)) eqn:Em.
  - intros [= <-]. apply bool_decide_eq_true in Em.
    unfold spec_minute_tokens in Em.
    repeat (apply elem_of_cons in Em as [->|Em];
            [eexists _, _, _; repeat split; try intros value; reflexivity|]).
    by apply elem_of_nil in Em.
  - destruct (bool_decide (lower token ∈ spec_hour_tokens)) eqn:Eh; [|done].
    intros [= <-]. apply bool_decide_eq_true in Eh.
    unfold spec_hour_tokens in Eh.
    repeat (apply elem_of_cons in Eh as [->|Eh];
            [eexists _, _, _; repeat split; try intros value; reflexivity|]).
    by apply elem_of_nil in Eh.
Qed.

(** What the pattern captures in a quantity, blanks and a unit token. *)
Lemma re_match_duration_quantity digits blanks c t unit :
  digits ≠ EmptyString →
  all_chars isdigit digits = true →
  all_chars isspace blanks = true →
  isdigit c = false → isspace c = false →
  match_unit (String c t) = Some unit →
  re_match_duration (digits +:+ blanks +:+ String c t) = Some (digits, unit).
Proof.
  intros Hne Hd Hb Hcd Hcs Hu. unfold re_match_duration.
  assert (span isdigit (digits +:+ blanks +:+ String c t)
          = (digits, blanks +:+ String c t)) as ->.
  { destruct blanks as [|b blanks].
    - by apply span_app.
    - rewrite app_cons. apply span_app; [done|].
      apply space_not_digit. simpl in Hb. by apply andb_prop in Hb as []. }
  destruct digits; [done|].
  rewrite (span_app isspace blanks c t Hb Hcs). by rewrite Hu.
Qed.

End DurationFacts.

Section DurationWithRe.
Import PyStr LedgerFacts DurationFacts.

(** C8 fails on the code, and holds once [re] is in scope: for a text made
    of a decimal quantity of at most 4300 digits, blanks, and a unit token
    of the specification in any case, [parse_duration_string] raises
    [NameError], while in the module with [import re] added it returns the
    quantity in the unit of the token. *)
Theorem unit_tokens_need_re (digits blanks token : string) (u : unit_kind) :
  digits ≠ EmptyString →
  all_chars isdigit digits = true →
  (String.length digits <= int_max_str_digits)%nat →
  all_chars isspace blanks = true →
  spec_unit_of_token token = Some u →
  parse_duration_string (Some (digits +:+ blanks +:+ token))
  = Raise (NameError "re")
  ∧ parse_duration_string_in repaired_globals
      (Some (digits +:+ blanks +:+ token))
    = spec_duration u (decimal_go 0 digits).
Proof.
  intros Hne Hd Hlen Hb Hu. split.
  - apply parse_duration_string_nonempty. by destruct digits.
  - apply unit_of_token_match in Hu
      as (c & t & unit & Hl & Hcd & Hcs & Hm & Hsel).
    unfold parse_duration_string_in.
    assert (truthy (digits +:+ blanks +:+ token) = true) as ->
      by by destruct digits.
    cbn [negb].
    rewrite !lower_app, lower_digits, lower_spaces, Hl by done.
    rewrite (re_match_duration_quantity digits blanks c t unit) by done.
    change (lookup_name repaired_globals "re") with (Ok tt). cbn [rbind].
    unfold int_of_digits.
    destruct (Nat.ltb_spec int_max_str_digits (String.length digits)); [lia|].
    cbn [rbind]. apply Hsel.
Qed.

Lemma unit_tokens_need_re_witness :
  parse_duration_string (Some "45 Minutes") = Raise (NameError "re")
  ∧ parse_duration_string_in repaired_globals (Some "45 Minutes")
    = Ok {| td_us := 45 * us_per_minute |}.
Proof.
  apply (unit_tokens_need_re "45" " " "Minutes" Minutes);
    [discriminate | reflexivity | vm_compute; lia | reflexivity | reflexivity].
Defined.

(** With [re] in scope a quantity of zero gives an empty span, and a
    quantity beyond the range of [timedelta] raises. *)
Lemma repaired_zero_and_overflow :
  parse_duration_string_in repaired_globals (Some "0 min")
  = Ok {| td_us := 0 |}
  ∧ parse_duration_string_in repaired_globals (Some "99999999999999 h")
    = Raise OverflowError.
Proof. split; reflexivity. Qed.

End DurationWithRe.

(** ** The resolver on concrete tasks *)

Section ScriptedWindows.
Import Scripted.

Lemma explicit_datetime_with_duration_raises_witness :
  resolve no_tasks long_meeting (at_hour day0 10) = Raise (NameError "re").
Proof.
  unfold resolve.
  by rewrite (@explicit_datetime_with_duration_raises datetime string
                (scripted no_tasks) long_meeting (at_hour day0 14)
                "30 minutes" (start_state (at_hour day0 10) None)
                eq_refl eq_refl ltac:(discriminate)).
Defined.

(** Without a suggested duration the same task gets the hour from its due
    time on. *)
Lemma meeting_window :
  resolve no_tasks meeting (at_hour day0 10)
  = Ok (Some {| w_start := TDateTime (at_hour day0 14);
                w_end := TDateTime (at_hour day0 15) |}).
Proof.
  unfold resolve.
  by rewrite (proj1 (@explicit_datetime_wins datetime string (scripted no_tasks)
                       meeting (at_hour day0 14) (at_hour day0 15) one_hour
                       (start_state (at_hour day0 10) None)
                       eq_refl eq_refl eq_refl)).
Defined.

Lemma date_only_degrades_to_all_day_witness :
  resolve no_tasks errand (at_hour day0 10)
  = Ok (Some {| w_start := TDate day0; w_end := TDate day1 |}).
Proof.
  unfold resolve.
  exact (proj1 (@date_only_degrades_to_all_day datetime string
                  (scripted no_tasks) errand day0 day1
                  (start_state (at_hour day0 10) None)
                  eq_refl (or_intror eq_refl) eq_refl)).
Defined.

Lemma default_slot_boundary_witness :
  resolve no_tasks (plain_task "buy milk") (at_hour day0 16)
  = Ok (Some (morning_slot day0))
  ∧ resolve no_tasks (plain_task "buy milk") (at_hour day0 18)
    = Ok (Some (morning_slot day1)).
Proof.
  assert (date_valid day0) as Hv
    by (unfold date_valid, max_ordinal, day0; simpl; lia).
  split.
  - destruct (@default_slot_boundary datetime string (scripted no_tasks)
                (plain_task "buy milk") (at_hour day0 16)
                (start_state (at_hour day0 16) None) eq_refl I eq_refl Hv)
      as (Hmorning & _ & _).
    apply Hmorning. vm_compute. reflexivity.
  - destruct (@default_slot_boundary datetime string (scripted no_tasks)
                (plain_task "buy milk") (at_hour day0 18)
                (start_state (at_hour day0 18) None) eq_refl I eq_refl Hv)
      as (_ & Hevening & _).
    apply Hevening; [vm_compute; discriminate | reflexivity].
Defined.

(** C6, as stated, fails: the function takes the task and no time, and
    the same task gets this morning's slot when the clock shows 16:00 and
    tomorrow's when it shows 18:00; the time is read from the clock. *)
Lemma resolve_window_reads_clock :
  resolve no_tasks (plain_task "buy milk") (at_hour day0 16)
  ≠ resolve no_tasks (plain_task "buy milk") (at_hour day0 18).
Proof. vm_compute. discriminate. Qed.

Lemma resolve_window_given_clock_witness :
  (@resolve_window _ _ (scripted no_tasks) (plain_task "buy milk")
     (start_state (at_hour day0 16) None)).1
  = (@resolve_window _ _ (scripted no_tasks) (plain_task "buy milk")
       (Build_State (at_hour day0 16) (Some "m0") [NoTasks "m0"])).1.
Proof.
  apply (@resolve_window_given_clock datetime string (scripted no_tasks)).
  right. reflexivity.
Defined.

End ScriptedWindows.

(** * Further properties of the code *)

(** ** The windows the resolver returns *)

Section WindowProperties.
Context {W Msg : Type} `{Services W Msg}.
Implicit Types s : State W.
Import PyTimeFacts.

Lemma date_add_raises d td e : date_add d td = Raise e → e = OverflowError.
Proof. unfold date_add. destruct (_ && _); [done | by intros [= <-]]. Qed.

Lemma datetime_add_raises dt td e :
  datetime_add dt td = Raise e → e = OverflowError.
Proof. unfold datetime_add. destruct (_ && _); [done | by intros [= <-]]. Qed.

(** The default slot and the all-day window raise nothing but
    [OverflowError]. *)
Lemma default_slot_raises s e :
  (default_slot s).1 = Raise e → e = OverflowError.
Proof.
  destruct (clock_now (world s)) as [a w1] eqn:A.
  destruct (clock_now w1) as [b w2] eqn:B.
  destruct (clock_now w2) as [c w3] eqn:C.
  rewrite (default_slot_eval _ _ _ _ _ _ _ A B C).
  destruct (if 17 <=? hour b then _ else _) as [d|e'] eqn:E; cbn [rbind].
  - destruct (datetime_add (combine d (time_hm 9 0)) one_hour) as [x|e'] eqn:E2;
      cbn [rbind]; [done|].
    intros [= <-]. by eapply datetime_add_raises.
  - intros [= <-]. destruct (17 <=? hour b); [|done].
    by eapply date_add_raises.
Qed.

Lemma all_day_raises d s e : (all_day d s).1 = Raise e → e = OverflowError.
Proof.
  rewrite all_day_eval. destruct (date_add d one_day) as [x|e'] eqn:E;
    cbn [rbind]; [done|].
  intros [= <-]. by eapply date_add_raises.
Qed.

Lemma duration_blank_parse (t : Task) :
  duration_blank t → parse_duration_string (suggestedDuration t) = Ok one_hour.
Proof.
  unfold duration_blank. by destruct (suggestedDuration t) as [[|c r]|].
Qed.

Lemma duration_given_parse (t : Task) :
  PyStr.truthy_opt (suggestedDuration t) = true →
  parse_duration_string (suggestedDuration t) = Raise (NameError "re").
Proof.
  destruct (suggestedDuration t) as [[|c r]|]; [done| |done].
  intros _. by apply parse_duration_string_nonempty.
Qed.

(** A timed window, when the parser returns, lasts one hour. *)
Lemma timed_one_hour start dur w :
  timed start dur = Ok (Some w) →
  ∃ e, w = {| w_start := TDateTime start; w_end := TDateTime e |}
       ∧ datetime_add start one_hour = Ok e.
Proof.
  unfold timed.
  destruct (parse_duration_string_cases dur) as [E|E]; rewrite E; [|done].
  cbn [rbind]. destruct (datetime_add start one_hour) as [e|e]; [|done].
  cbn [rbind]. intros [= <-]. by exists e.
Qed.

Lemma timed_cases start dur :
  timed start dur = Raise (NameError "re")
  ∨ timed start dur = Raise OverflowError
  ∨ ∃ w, timed start dur = Ok (Some w).
Proof.
  unfold timed.
  destruct (parse_duration_string_cases dur) as [E|E]; rewrite E; [|by left].
  cbn [rbind]. unfold datetime_add.
  destruct (_ && _); cbn [rbind]; eauto.
Qed.

Lemma default_slot_one_hour s w :
  (default_slot s).1 = Ok (Some w) →
  ∃ start e, w = {| w_start := TDateTime start; w_end := TDateTime e |}
             ∧ datetime_add start one_hour = Ok e.
Proof.
  destruct (clock_now (world s)) as [a w1] eqn:A.
  destruct (clock_now w1) as [b w2] eqn:B.
  destruct (clock_now w2) as [c w3] eqn:C.
  rewrite (default_slot_eval _ _ _ _ _ _ _ A B C).
  destruct (if 17 <=? hour b then _ else _) as [d|e]; [|done].
  cbn [rbind].
  destruct (datetime_add (combine d (time_hm 9 0)) one_hour) as [e|e] eqn:E;
    [|done].
  cbn [rbind]. intros [= <-]. eauto.
Qed.

Lemma all_day_one_day d s w :
  (all_day d s).1 = Ok (Some w) →
  ∃ e, w = {| w_start := TDate d; w_end := TDate e |}
       ∧ date_add d one_day = Ok e.
Proof.
  rewrite all_day_eval. destruct (date_add d one_day) as [e|e]; [|done].
  cbn [rbind]. intros [= <-]. eauto.
Qed.

(** X1. Every window that comes out of the resolver is an all-day window of
    one day or a timed window of one hour: the module as it is never returns
    another span. *)
Theorem resolved_window_span (t : Task) s (w : Window) :
  (resolve_window t s).1 = Ok (Some w) →
  (∃ d e, w = {| w_start := TDate d; w_end := TDate e |}
          ∧ date_add d one_day = Ok e
          ∧ isAllDay w = true)
  ∨ (∃ start e, w = {| w_start := TDateTime start; w_end := TDateTime e |}
                ∧ datetime_add start one_hour = Ok e
                ∧ isAllDay w = false).
Proof.
  unfold resolve_window.
  destruct (dueDate t) as [|d|dt].
  - assert (∀ s', (default_slot s').1 = Ok (Some w) → 
              ∃ start e, w = {| w_start := TDateTime start; w_end := TDateTime e |}
                ∧ datetime_add start one_hour = Ok e ∧ isAllDay w = false) as Hd.
    { intros s' (start & e & -> & He)%default_slot_one_hour. by exists start, e. }
    destruct (suggestedTimeOfDay t) as [str|]; [|right; eauto].
    destruct (PyStr.truthy str); [|right; eauto].
    unfold parse_iso. destruct (fromisoformat str) as [start|]; cbn [rbind].
    + destruct (timed start (suggestedDuration t)) as [r|e] eqn:E.
      * cbn. intros [= ->]. apply timed_one_hour in E as (e & -> & He).
        right. by exists start, e.
      * pose proof (timed_not_ValueError start (suggestedDuration t)).
        destruct e; try done.
    + cbn [try_except_ValueError]. rewrite warned_default_slot. right; eauto.
  - assert (∀ s', (all_day d s').1 = Ok (Some w) →
              ∃ d0 e, w = {| w_start := TDate d0; w_end := TDate e |}
                ∧ date_add d0 one_day = Ok e ∧ isAllDay w = true) as Hd.
    { intros s' (e & -> & He)%all_day_one_day. by exists d, e. }
    destruct (suggestedTimeOfDay t) as [str|]; [|left; eauto].
    destruct (PyStr.truthy str); [|left; eauto].
    unfold parse_iso. destruct (fromisoformat str) as [llm|]; cbn [rbind].
    + destruct (timed _ (suggestedDuration t)) as [r|e] eqn:E.
      * cbn. intros [= ->]. apply timed_one_hour in E as (e & -> & He).
        right. eauto.
      * pose proof (timed_not_ValueError (combine d (time_of llm))
                      (suggestedDuration t)).
        destruct e; try done.
    + cbn [try_except_ValueError]. rewrite warned_all_day. left; eauto.
  - unfold lift. cbn. intros E.
    apply timed_one_hour in E as (e & -> & He). right. eauto.
Qed.

(** X2. An explicit date with a usable suggested time and no suggested
    duration: the event is on the explicit date at the suggested time of
    day, without tzinfo, whatever the day and the offset of the suggestion
    are; it lasts the default hour. *)
Theorem explicit_date_takes_suggested_time (t : Task) (d : date)
    (str : string) (llm e : datetime) s :
  dueDate t = DueDate d →
  suggestedTimeOfDay t = Some str →
  str ≠ EmptyString →
  fromisoformat str = Some llm →
  duration_blank t →
  datetime_add (combine d (time_of llm)) one_hour = Ok e →
  resolve_window t s
  = (Ok (Some {| w_start := TDateTime (combine d (time_of llm));
                 w_end := TDateTime e |}), s)
  ∧ dt_date (combine d (time_of llm)) = d
  ∧ dt_us (combine d (time_of llm)) = dt_us llm
  ∧ dt_tz (combine d (time_of llm)) = None.
Proof.
  intros Hdue Hsug Hne Hiso Hblank Hadd. split; [|done].
  unfold resolve_window. rewrite Hdue, Hsug.
  destruct str; [done|]. cbn [PyStr.truthy].
  unfold parse_iso. rewrite Hiso. cbn [rbind]. unfold timed.
  rewrite duration_blank_parse by done. cbn [rbind]. rewrite Hadd.
  reflexivity.
Qed.

(** X3. No explicit date, a usable suggested time and no suggested
    duration: the event starts at the suggested timestamp as parsed, tzinfo
    included, and lasts the default hour; the clock is not read. *)
Theorem suggested_timestamp_is_start (t : Task) (str : string)
    (start e : datetime) s :
  dueDate t = DueNone →
  suggestedTimeOfDay t = Some str →
  str ≠ EmptyString →
  fromisoformat str = Some start →
  duration_blank t →
  datetime_add start one_hour = Ok e →
  resolve_window t s
  = (Ok (Some {| w_start := TDateTime start; w_end := TDateTime e |}), s)
  ∧ dt_tz e = dt_tz start.
Proof.
  intros Hdue Hsug Hne Hiso Hblank Hadd. split.
  - unfold resolve_window. rewrite Hdue, Hsug.
    destruct str; [done|]. cbn [PyStr.truthy].
    unfold parse_iso. rewrite Hiso. cbn [rbind]. unfold timed.
    rewrite duration_blank_parse by done. cbn [rbind]. rewrite Hadd.
    reflexivity.
  - unfold datetime_add in Hadd. destruct (_ && _); [|done].
    by injection Hadd as <-.
Qed.

Lemma resolver_name_error_iff (t : Task) s :
  (resolve_window t s).1 = Raise (NameError "re")
  ↔ reaches_parser t = true
    ∧ PyStr.truthy_opt (suggestedDuration t) = true.
Proof.
  assert (∀ s', (default_slot s').1 ≠ Raise (NameError "re")) as Hdef.
  { by intros s' ?%default_slot_raises. }
  assert (∀ d s', (all_day d s').1 ≠ Raise (NameError "re")) as Hall.
  { by intros d s' ?%all_day_raises. }
  assert (∀ start, timed start (suggestedDuration t) = Raise (NameError "re")
                   ↔ PyStr.truthy_opt (suggestedDuration t) = true) as Htimed.
  { intros start. unfold timed. split.
    - destruct (PyStr.truthy_opt (suggestedDuration t)) eqn:E; [done|].
      rewrite duration_blank_parse by done. cbn [rbind].
      destruct (datetime_add start one_hour) as [x|e] eqn:E2; cbn [rbind];
        [done|].
      by apply datetime_add_raises in E2 as ->.
    - intros E. by rewrite duration_given_parse. }
  unfold resolve_window, reaches_parser.
  destruct (dueDate t) as [|d|dt].
  - destruct (suggestedTimeOfDay t) as [str|]; [|split; [by intros ?%Hdef | by intros []]].
    destruct (PyStr.truthy str); cbn [andb];
      [|split; [by intros ?%Hdef | by intros []]].
    unfold parse_iso. destruct (fromisoformat str) as [start|]; cbn [rbind].
    + rewrite bool_decide_eq_true_2 by eauto.
      rewrite <- (Htimed start).
      destruct (timed_cases start (suggestedDuration t)) as [E|[E|[w E]]];
        rewrite E; cbn; split; try done; by intros [].
    + rewrite bool_decide_eq_false_2 by (by intros []).
      cbn [try_except_ValueError]. rewrite warned_default_slot.
      split; [by intros ?%Hdef | by intros []].
  - destruct (suggestedTimeOfDay t) as [str|]; [|split; [by intros ?%Hall | by intros []]].
    destruct (PyStr.truthy str); cbn [andb];
      [|split; [by intros ?%Hall | by intros []]].
    unfold parse_iso. destruct (fromisoformat str) as [llm|]; cbn [rbind].
    + rewrite bool_decide_eq_true_2 by eauto.
      rewrite <- (Htimed (combine d (time_of llm))).
      destruct (timed_cases (combine d (time_of llm)) (suggestedDuration t))
        as [E|[E|[w E]]]; rewrite E; cbn; split; try done; by intros [].
    + rewrite bool_decide_eq_false_2 by (by intros []).
      cbn [try_except_ValueError]. rewrite warned_all_day.
      split; [by intros ?%Hall | by intros []].
  - unfold lift. cbn [fst]. rewrite (Htimed dt). split; [done | by intros []].
Qed.

Lemma resolver_name_error_state (t : Task) s :
  reaches_parser t = true →
  PyStr.truthy_opt (suggestedDuration t) = true →
  resolve_window t s = (Raise (NameError "re"), s).
Proof.
  intros Hr Hd.
  assert (∀ start, timed start (suggestedDuration t)
                   = Raise (NameError "re")) as Ht.
  { intros start. unfold timed. by rewrite duration_given_parse. }
  unfold resolve_window. unfold reaches_parser in Hr.
  destruct (dueDate t) as [|d|dt].
  - destruct (suggestedTimeOfDay t) as [str|]; [|done].
    destruct (PyStr.truthy str); [|done]. cbn [andb] in Hr.
    apply bool_decide_eq_true in Hr as [start Hiso].
    unfold parse_iso. rewrite Hiso. cbn [rbind]. by rewrite Ht.
  - destruct (suggestedTimeOfDay t) as [str|]; [|done].
    destruct (PyStr.truthy str); [|done]. cbn [andb] in Hr.
    apply bool_decide_eq_true in Hr as [llm Hiso].
    unfold parse_iso. rewrite Hiso. cbn [rbind]. by rewrite Ht.
  - unfold lift. by rewrite Ht.
Qed.

(** X4. The resolver raises [NameError] exactly for the tasks that reach the
    parser with a non-empty suggested duration: the [except ValueError] of
    the second and of the third branch does not catch it. It is raised
    before the clock is read or a warning is printed: the state is as
    before. *)
Theorem resolver_name_error (t : Task) s :
  ((resolve_window t s).1 = Raise (NameError "re")
   ↔ reaches_parser t = true
     ∧ PyStr.truthy_opt (suggestedDuration t) = true)
  ∧ ((resolve_window t s).1 = Raise (NameError "re") →
     (resolve_window t s).2 = s).
Proof.
  split; [apply resolver_name_error_iff|].
  intros [Hr Hd]%resolver_name_error_iff.
  by rewrite resolver_name_error_state.
Qed.

End WindowProperties.

(** ** The calls to the calendar *)

Section CalendarCalls.
Context {W Msg : Type} `{Services W Msg}.
Implicit Types s : State W.

Lemma created_summaries_app a b :
  created_summaries (a ++ b) = created_summaries a ++ created_summaries b.
Proof.
  induction a as [|x a IH]; [done|]. destruct x; simpl; by rewrite ?IH.
Qed.

Lemma processing_ids_app a b :
  processing_ids (a ++ b) = processing_ids a ++ processing_ids b.
Proof.
  induction a as [|x a IH]; [done|]. destruct x; simpl; by rewrite ?IH.
Qed.

Lemma committed_ids_app a b :
  committed_ids (a ++ b) = committed_ids a ++ committed_ids b.
Proof.
  induction a as [|x a IH]; [done|]. destruct x; simpl; by rewrite ?IH.
Qed.

Lemma silent_refl s : silent s s.
Proof. done. Qed.

Lemma silent_trans s1 s2 s3 : silent s1 s2 → silent s2 s3 → silent s1 s3.
Proof. intros [? ?] [? ?]. split; congruence. Qed.

Lemma no_calls_refl s : no_calls s s.
Proof. exists []. by rewrite app_nil_r. Qed.

Lemma no_calls_trans s1 s2 s3 : no_calls s1 s2 → no_calls s2 s3 → no_calls s1 s3.
Proof.
  intros (d1 & E1 & C1 & P1 & M1 & L1) (d2 & E2 & C2 & P2 & M2 & L2).
  exists (d1 ++ d2).
  rewrite created_summaries_app, processing_ids_app, committed_ids_app.
  rewrite C1, C2, P1, P2, M1, M2.
  repeat split; [by rewrite E2, E1, app_assoc | congruence].
Qed.

Lemma silent_no_calls s s' : silent s s' → no_calls s s'.
Proof. intros [Ht Hl]. exists []. by rewrite app_nil_r. Qed.

Lemma default_slot_silent s : silent s (default_slot s).2.
Proof.
  by apply (frames_default_slot silent silent_refl silent_trans).
Qed.

Lemma all_day_silent d s : silent s (all_day d s).2.
Proof. by apply (frames_all_day silent silent_refl silent_trans). Qed.

Lemma date_today_silent s : silent s (date_today s).2.
Proof. by apply (frames_date_today silent silent_refl silent_trans). Qed.

Lemma warned_no_calls {A} (m : M W A) summary str s :
  (∀ s', silent s' (m s').2) →
  no_calls s ((emit (WarnNotIso summary str);; m) s).2.
Proof.
  intros Hm. unfold bind, emit.
  set (s1 := Build_State (world s) (ledger s)
               (trace s ++ [WarnNotIso summary str])).
  destruct (Hm s1) as [Ht Hl]. exists [WarnNotIso summary str].
  by rewrite Ht, Hl.
Qed.

(** Resolving a window asks the calendar for nothing. *)
Lemma resolve_window_no_calls t s : no_calls s (resolve_window t s).2.
Proof.
  unfold resolve_window.
  destruct (dueDate t) as [|d|dt]; [| |apply no_calls_refl].
  - destruct (suggestedTimeOfDay t) as [str|];
      [|apply silent_no_calls, default_slot_silent].
    destruct (PyStr.truthy str); [|apply silent_no_calls, default_slot_silent].
    destruct (rbind _ _) as [r|[]]; try apply no_calls_refl.
    apply warned_no_calls, default_slot_silent.
  - destruct (suggestedTimeOfDay t) as [str|];
      [|apply silent_no_calls, all_day_silent].
    destruct (PyStr.truthy str); [|apply silent_no_calls, all_day_silent].
    destruct (rbind _ _) as [r|[]]; try apply no_calls_refl.
    apply warned_no_calls, all_day_silent.
Qed.

(** The resolver returns a window or raises: the start is always
    assigned. *)
Lemma resolve_window_assigned t s : (resolve_window t s).1 ≠ Ok None.
Proof.
  assert (∀ start dur, timed start dur ≠ Ok None) as Htimed.
  { intros start dur. unfold timed.
    destruct (parse_duration_string dur); cbn [rbind]; [|done].
    by destruct (datetime_add _ _). }
  assert (∀ s', (default_slot s').1 ≠ Ok None) as Hdef.
  { intros s'.
    destruct (clock_now (world s')) as [a w1] eqn:A.
    destruct (clock_now w1) as [b w2] eqn:B.
    destruct (clock_now w2) as [c w3] eqn:C.
    rewrite (default_slot_eval _ _ _ _ _ _ _ A B C).
    destruct (if 17 <=? hour b then _ else _); cbn [rbind]; [|done].
    by destruct (datetime_add _ _). }
  assert (∀ d s', (all_day d s').1 ≠ Ok None) as Hall.
  { intros d s'. rewrite all_day_eval. by destruct (date_add _ _). }
  unfold resolve_window.
  destruct (dueDate t) as [|d|dt]; [| |apply Htimed].
  - destruct (suggestedTimeOfDay t) as [str|]; [|apply Hdef].
    destruct (PyStr.truthy str); [|apply Hdef].
    unfold parse_iso. destruct (fromisoformat str) as [start|]; cbn [rbind].
    + pose proof (Htimed start (suggestedDuration t)).
      pose proof (timed_not_ValueError start (suggestedDuration t)).
      by destruct (timed start (suggestedDuration t)) as [?|[]].
    + cbn [try_except_ValueError]. rewrite warned_default_slot. apply Hdef.
  - destruct (suggestedTimeOfDay t) as [str|]; [|apply Hall].
    destruct (PyStr.truthy str); [|apply Hall].
    unfold parse_iso. destruct (fromisoformat str) as [llm|]; cbn [rbind].
    + pose proof (Htimed (combine d (time_of llm)) (suggestedDuration t)).
      pose proof (timed_not_ValueError (combine d (time_of llm))
                    (suggestedDuration t)).
      by destruct (timed _ (suggestedDuration t)) as [?|[]].
    + cbn [try_except_ValueError]. rewrite warned_all_day. apply Hall.
Qed.

(** One task: at most one call, for its summary; exactly one when the
    body returns. *)
Lemma add_task_calls timezone t s :
  ∃ delta,
    trace (add_task_to_calendar timezone t s).2 = trace s ++ delta
    ∧ processing_ids delta = []
    ∧ committed_ids delta = []
    ∧ ledger (add_task_to_calendar timezone t s).2 = ledger s
    ∧ (created_summaries delta = [task t]
       ∨ created_summaries delta = []
         ∧ (add_task_to_calendar timezone t s).1 ≠ Ok tt).
Proof.
  unfold add_task_to_calendar, bind.
  pose proof (date_today_silent s) as [Ht0 Hl0].
  destruct (date_today s) as [[today|e] s0]; simpl in Ht0, Hl0.
  2:{ exists []. rewrite app_nil_r. simpl. by eauto 10. }
  pose proof (resolve_window_no_calls t s0) as (d1 & E1 & C1 & P1 & M1 & L1).
  pose proof (resolve_window_assigned t s0) as Hsome.
  destruct (resolve_window t s0) as [[[w|]|e] s1]; simpl in *; [| done |].
  2:{ exists d1. rewrite E1, Ht0, L1, Hl0. by eauto 10. }
  unfold emit, call, ret. simpl.
  destruct (create_event _ (world s1)) as [[b|e] w2]; simpl;
    exists (d1 ++ [CreateEvent
                     {| ev_summary := task t;
                        ev_description :=
                          {| desc_priority := priority t;
                             desc_source_line := source_line t;
                             desc_line_number := line_number t;
                             desc_processed_on := today |};
                        ev_start := w_start w; ev_end := w_end w;
                        ev_timezone := timezone |}]);
    rewrite created_summaries_app, processing_ids_app, committed_ids_app;
    rewrite C1, P1, M1, E1, Ht0, L1, Hl0;
    simpl; rewrite app_assoc; eauto 10.
Qed.

Lemma for_each_calls timezone tasks s :
  ∃ delta k,
    trace (for_each tasks (add_task_to_calendar timezone) s).2
    = trace s ++ delta
    ∧ processing_ids delta = []
    ∧ committed_ids delta = []
    ∧ ledger (for_each tasks (add_task_to_calendar timezone) s).2 = ledger s
    ∧ created_summaries delta = task <$> take k tasks
    ∧ ((for_each tasks (add_task_to_calendar timezone) s).1 = Ok tt →
       k = length tasks).
Proof.
  revert s. induction tasks as [|t tasks IH]; intros s.
  - exists [], 0%nat. by rewrite app_nil_r.
  - simpl. unfold bind.
    destruct (add_task_calls timezone t s) as (d1 & E1 & P1 & M1 & L1 & C1).
    destruct (add_task_to_calendar timezone t s) as [[[]|e] s1] eqn:E;
      simpl in *.
    + destruct C1 as [C1|[_ C1]]; [|done].
      destruct (IH s1) as (d2 & k & E2 & P2 & M2 & L2 & C2 & K2).
      exists (d1 ++ d2), (S k).
      rewrite created_summaries_app, processing_ids_app, committed_ids_app.
      rewrite C1, C2, P1, P2, M1, M2.
      rewrite E2, E1, L2, L1, app_assoc. repeat split; try done.
      intros Hok. by rewrite K2.
    + destruct C1 as [C1|[C1 _]].
      * exists d1, 1%nat. rewrite C1. by repeat split.
      * exists d1, 0%nat. by rewrite C1.
Qed.

(** X5. The calendar is asked for the tasks in their order, one call per task,
    up to the first task whose resolution or whose call raises: the summaries
    of the calls are those of a prefix of the task list, and of the whole list
    when the function returns. No message is announced and the ledger is as
    before. Without a calendar service nothing happens. *)
Theorem calendar_calls_follow_tasks (tasks : list Task) (timezone : string) s :
  (calendar_service (world s) = false →
   create_calendar_events_from_tasks tasks timezone s = (Ok tt, s))
  ∧ (calendar_service (world s) = true →
     ∃ delta k,
       trace (create_calendar_events_from_tasks tasks timezone s).2
       = trace s ++ delta
       ∧ created_summaries delta = task <$> take k tasks
       ∧ processing_ids delta = []
       ∧ ledger (create_calendar_events_from_tasks tasks timezone s).2
         = ledger s
       ∧ ((create_calendar_events_from_tasks tasks timezone s).1 = Ok tt →
          k = length tasks)).
Proof.
  unfold create_calendar_events_from_tasks. split.
  - intros Hs. destruct tasks; [done|]. unfold bind, observe. simpl.
    by rewrite Hs.
  - intros Hs. destruct tasks as [|t tasks].
    + exists [], 0%nat. by rewrite app_nil_r.
    + unfold bind, observe. cbn [fst snd]. rewrite Hs. cbn [negb].
      destruct (for_each_calls timezone (t :: tasks) s)
        as (delta & k & E & P & M & L & C & K).
      by exists delta, k.
Qed.

End CalendarCalls.

(** ** A run as a whole *)

Section RunProperties.
Context {W Msg : Type} `{Services W Msg}.
Implicit Types s : State W.
Import LedgerFacts.

(** *** What a run commits *)

Lemma no_calls_world s w : no_calls s (Build_State w (ledger s) (trace s)).
Proof. exists []. by rewrite app_nil_r. Qed.

Lemma no_calls_skipped msg_id :
  frames (@no_calls W) (emit (Skipped msg_id)).
Proof. intros s. by exists [Skipped msg_id]. Qed.

Ltac no_calls_step :=
  lazymatch goal with
  | |- frames _ (bind _ _) => apply (frames_bind _ no_calls_trans); [|intros ?]
  | |- frames _ (ret _) => apply (frames_ret _ no_calls_refl)
  | |- frames _ (lift _) => apply (frames_lift _ no_calls_refl)
  | |- frames _ (call _) => apply (frames_call _ no_calls_world)
  | |- frames _ (emit (Skipped _)) => apply no_calls_skipped
  | |- frames _ (try_except _ _) =>
      apply (frames_try_except _ no_calls_trans); [|intros ?]
  | |- frames _ (fold_m _ _ _) =>
      apply (frames_fold_m _ no_calls_refl no_calls_trans); intros ? ?
  | |- frames _ (tasks_of_attachment _ _) =>
      apply (frames_tasks_of_attachment _ no_calls_refl no_calls_trans
               no_calls_world)
  | |- frames _ (process_content_for_tasks _) =>
      apply (frames_process_content_for_tasks _ no_calls_refl no_calls_world)
  | |- frames _ (match ?x with _ => _ end) => destruct x
  end.

(** The extraction of lines 221-265 announces nothing, commits nothing and
    asks the calendar for nothing. *)
Lemma collect_tasks_no_calls msg_id s : no_calls s (collect_tasks msg_id s).2.
Proof.
  revert s. change (frames no_calls (collect_tasks msg_id)).
  unfold collect_tasks. repeat no_calls_step.
Qed.

Lemma create_events_no_commit tasks timezone s :
  ∃ delta,
    trace (create_calendar_events_from_tasks tasks timezone s).2
    = trace s ++ delta
    ∧ processing_ids delta = []
    ∧ committed_ids delta = []
    ∧ ledger (create_calendar_events_from_tasks tasks timezone s).2 = ledger s.
Proof.
  unfold create_calendar_events_from_tasks.
  destruct tasks as [|t tasks]; [exists []; by rewrite app_nil_r|].
  unfold bind, observe. cbn [fst snd].
  destruct (negb (calendar_service (world s)));
    [exists []; by rewrite app_nil_r|].
  destruct (for_each_calls timezone (t :: tasks) s)
    as (delta & k & E & P & M & L & _).
  by exists delta.
Qed.

Lemma marked_app a b : marked (a ++ b) = marked a ++ marked b.
Proof.
  induction a as [|[i [[|]|e]] a IH]; [done| | |]; simpl; by rewrite ?IH.
Qed.

(** What lines 267-275 commit: the message, when the call of line 269 is
    reached and answered with [True], and nothing otherwise. *)
Lemma commit_tasks_commits msg_id tasks s :
  ∃ delta,
    trace (commit_tasks msg_id tasks s).2 = trace s ++ delta
    ∧ processing_ids delta = []
    ∧ committed_ids delta
      = marked
          match tasks with
          | [] => []
          | _ =>
              match create_calendar_events_from_tasks tasks
                      calendar_timezone s with
              | (Ok _, s2) =>
                  [(msg_id, (mark_message_as_read msg_id (world s2)).1)]
              | (Raise _, _) => []
              end
          end
    ∧ ledger (commit_tasks msg_id tasks s).2
      = save_all (committed_ids delta) (ledger s)
    ∧ (committed_ids delta = [] ∨ committed_ids delta = [msg_id] ∧ tasks ≠ []).
Proof.
  unfold commit_tasks. destruct tasks as [|t tasks].
  - exists [NoTasks msg_id]. unfold emit. cbn. repeat split; try done.
    by left.
  - unfold bind.
    destruct (create_events_no_commit (t :: tasks) calendar_timezone s)
      as (d1 & E1 & P1 & M1 & L1).
    destruct (create_calendar_events_from_tasks (t :: tasks)
                calendar_timezone s) as [[[]|e] s1]; cbn [fst snd] in *.
    2:{ exists d1. rewrite M1. repeat split; try done. by left. }
    unfold call.
    destruct (mark_message_as_read msg_id (world s1)) as [[[|]|e] w2] eqn:Em;
      unfold save_processed_email_id, emit;
      cbn [fst snd trace ledger world marked].
    + exists (d1 ++ [MarkedProcessed msg_id]).
      rewrite processing_ids_app, committed_ids_app, P1, M1, E1, L1.
      rewrite List.app_assoc. repeat split; try done. by right.
    + exists (d1 ++ [NotMarked msg_id]).
      rewrite processing_ids_app, committed_ids_app, P1, M1, E1, L1.
      rewrite List.app_assoc. repeat split; try done. by left.
    + exists d1. rewrite M1. repeat split; try done. by left.
Qed.

(** What the processing of one message commits. *)
Lemma process_email_commits msg_id s :
  ∃ delta,
    trace (process_email msg_id s).2 = trace s ++ Processing msg_id :: delta
    ∧ processing_ids delta = []
    ∧ committed_ids delta = marked (marking msg_id s)
    ∧ ledger (process_email msg_id s).2
      = save_all (committed_ids delta) (ledger s)
    ∧ (committed_ids delta = []
       ∨ committed_ids delta = [msg_id]
         ∧ ∃ tasks,
             tasks ≠ []
             ∧ (collect_tasks msg_id (announced msg_id s)).1
               = Ok (Some tasks)).
Proof.
  unfold process_email, marking, bind, emit. fold (announced msg_id s).
  pose proof (collect_tasks_no_calls msg_id (announced msg_id s))
    as (d1 & E1 & _ & P1 & M1 & L1).
  cbn [announced trace ledger] in E1, L1.
  destruct (collect_tasks msg_id (announced msg_id s)) as [[[tasks|]|e] s1];
    cbn [fst snd] in *.
  - destruct (commit_tasks_commits msg_id tasks s1)
      as (d2 & E2 & P2 & M2 & L2 & Hc).
    exists (d1 ++ d2).
    rewrite E2, E1, L2, L1, processing_ids_app, committed_ids_app, P1, P2, M1.
    rewrite <- !List.app_assoc. cbn [app]. repeat split; try done.
    + rewrite M2. by destruct tasks.
    + destruct Hc as [->|[-> Hne]]; [by left|right]. split; [done|].
      by exists tasks.
  - exists d1. unfold ret. cbn [snd]. rewrite E1, M1, L1, <- List.app_assoc.
    repeat split; try done. by left.
  - exists d1. rewrite E1, M1, L1, <- List.app_assoc.
    repeat split; try done. by left.
Qed.

Lemma extractions_ids ids s i r : (i, r) ∈ extractions ids s → i ∈ ids.
Proof.
  revert s. induction ids as [|j ids IH]; intros s; cbn [extractions].
  - by intros ?%elem_of_nil.
  - intros [[= -> _]|Hin]%elem_of_cons; [left|right].
    destruct (process_email j s) as [[[]|e] s1]; [by eapply IH|].
    by apply elem_of_nil in Hin.
Qed.

(** What the loop over the new messages commits: the messages whose
    marking as read was answered with [True], in the order of their
    processing; the ledger grows by them, and each of them had a task list
    that was not empty in this run. *)
Lemma loop_commits ids s :
  ∃ delta,
    trace (for_each ids process_email s).2 = trace s ++ delta
    ∧ committed_ids delta = marked (markings ids s)
    ∧ ledger (for_each ids process_email s).2
      = save_all (committed_ids delta) (ledger s)
    ∧ committed_ids delta `sublist_of` processing_ids delta
    ∧ ∀ i, i ∈ committed_ids delta →
        ∃ tasks, tasks ≠ [] ∧ (i, Ok (Some tasks)) ∈ extractions ids s.
Proof.
  revert s. induction ids as [|i ids IH]; intros s.
  - exists []. rewrite app_nil_r. split; [done|]. split; [done|].
    split; [done|]. split; [constructor|]. by intros i ?%elem_of_nil.
  - cbn [for_each extractions markings]. unfold bind.
    destruct (process_email_commits i s) as (d1 & E1 & P1 & M1 & L1 & Hc).
    destruct (process_email i s) as [[[]|e] s1] eqn:Ep; cbn [fst snd] in *.
    + destruct (IH s1) as (d2 & E2 & M2 & L2 & S2 & J2).
      exists ((Processing i :: d1) ++ d2).
      rewrite E2, E1, L2, L1, List.app_assoc. split; [done|].
      rewrite processing_ids_app, committed_ids_app, marked_app, save_all_app.
      cbn [processing_ids committed_ids]. rewrite P1, <- M1, <- M2.
      split; [done|]. split; [done|].
      destruct Hc as [->|[-> (tasks & Hne & Hx)]].
      * split; [by apply sublist_cons|].
        intros j Hj. destruct (J2 j Hj) as (tasks & Hne & Hin).
        exists tasks. split; [done|by right].
      * split; [by apply sublist_skip|].
        intros j [->|Hj]%elem_of_cons.
        -- exists tasks. split; [done|]. rewrite Hx. left.
        -- destruct (J2 j Hj) as (tasks' & Hne' & Hin).
           exists tasks'. split; [done|by right].
    + exists (Processing i :: d1). rewrite E1, L1, app_nil_r. split; [done|].
      cbn [processing_ids committed_ids]. rewrite P1, <- M1.
      split; [done|]. split; [done|].
      destruct Hc as [->|[-> (tasks & Hne & Hx)]].
      * split; [by apply sublist_cons|]. by intros j ?%elem_of_nil.
      * split; [by apply sublist_skip|].
        intros j ->%list_elem_of_singleton.
        exists tasks. split; [done|]. rewrite Hx. left.
Qed.

(** A run is the loop over its new messages, or it ends before and leaves
    trace and ledger as they were. *)
Lemma main_new_messages s ids s1 :
  new_messages s = Some (ids, s1) → main s = for_each ids process_email s1.
Proof.
  unfold new_messages, main, bind, call, observe, load_processed_email_ids.
  destruct (initialize (world s)) as [[[]|e] w0]; simpl; [|done].
  destruct (gmail_service w0); simpl; [|done].
  destruct (calendar_service w0); simpl; [|done].
  destruct (search_messages query w0) as [[message_ids|e] w1]; simpl; [|done].
  intros [= <- <-]. by destruct (filter _ message_ids).
Qed.

Lemma main_no_messages s :
  new_messages s = None →
  trace (main s).2 = trace s ∧ ledger (main s).2 = ledger s.
Proof.
  unfold new_messages, main, bind, call, observe, load_processed_email_ids.
  destruct (initialize (world s)) as [[[]|e] w0]; simpl; [|done].
  destruct (gmail_service w0); simpl; [|done].
  destruct (calendar_service w0); simpl; [|done].
  by destruct (search_messages query w0) as [[message_ids|e] w1].
Qed.

(** The messages a run processes are new: the ledger read at its start
    does not hold them. *)
Lemma run_extractions_new s i r :
  (i, r) ∈ run_extractions s → i ∉ load_ids (ledger s).
Proof.
  unfold run_extractions, new_messages.
  destruct (initialize (world s)) as [[[]|e] w0]; [|by intros ?%elem_of_nil].
  destruct (_ && _); [|by intros ?%elem_of_nil].
  destruct (search_messages query w0) as [[message_ids|e] w1];
    [|by intros ?%elem_of_nil].
  by intros [? _]%extractions_ids%list_elem_of_filter.
Qed.

(** What a run commits. *)
Lemma main_commits_log s :
  ∃ delta,
    trace (main s).2 = trace s ++ delta
    ∧ committed_ids delta = marked (run_markings s)
    ∧ ledger (main s).2 = save_all (committed_ids delta) (ledger s)
    ∧ committed_ids delta `sublist_of` processing_ids delta
    ∧ ∀ i, i ∈ committed_ids delta →
        (i ∉ load_ids (ledger s))
        ∧ ∃ tasks, tasks ≠ [] ∧ (i, Ok (Some tasks)) ∈ run_extractions s.
Proof.
  assert (∀ i tasks, (i, Ok (Some tasks)) ∈ run_extractions s →
                     i ∉ load_ids (ledger s)) as Hnew
    by (intros i tasks; apply run_extractions_new).
  unfold run_extractions, run_markings in *.
  destruct (new_messages s) as [[ids s1]|] eqn:En.
  - rewrite (main_new_messages s ids s1 En).
    destruct (loop_commits ids s1) as (delta & E & M & L & S & J).
    assert (trace s1 = trace s ∧ ledger s1 = ledger s) as [Et El].
    { revert En. unfold new_messages.
      destruct (initialize (world s)) as [[[]|e] w0]; [|done].
      destruct (_ && _); [|done].
      destruct (search_messages query w0) as [[message_ids|e] w1]; [|done].
      by intros [= <- <-]. }
    exists delta. rewrite E, L, Et, El. split; [done|]. split; [done|].
    split; [done|]. split; [done|]. intros i Hi.
    destruct (J i Hi) as (tasks & Hne & Hin).
    split; [by eapply Hnew|]. by exists tasks.
  - destruct (main_no_messages s En) as [Et El].
    exists []. rewrite app_nil_r. split; [done|]. split; [done|].
    split; [done|]. split; [constructor|]. by intros i ?%elem_of_nil.
Qed.

(** A message that is never marked as read is not among the marked. *)
Lemma marked_markings ids s i :
  i ∈ marked (markings ids s) →
  ∃ w w', mark_message_as_read i w = (Ok true, w').
Proof.
  revert s. induction ids as [|j ids IH]; intros s; cbn [markings].
  - by intros ?%elem_of_nil.
  - rewrite marked_app. intros [Hin|Hin]%elem_of_app.
    + unfold marking in Hin.
      destruct (collect_tasks j (announced j s)) as [[[[|t tasks]|]|e] s1];
        try by apply elem_of_nil in Hin.
      destruct (create_calendar_events_from_tasks _ _ s1) as [[[]|e] s2];
        [|by apply elem_of_nil in Hin].
      destruct (mark_message_as_read j (world s2)) as [[[|]|e] w'] eqn:Em;
        cbn in Hin; try by apply elem_of_nil in Hin.
      apply list_elem_of_singleton in Hin as ->. by exists (world s2), w'.
    + destruct (process_email j s) as [[[]|e] s1]; [by eapply IH|].
      by apply elem_of_nil in Hin.
Qed.

(** The run whose search returns [ids] is the loop over those of them that
    the ledger does not hold. *)
Lemma main_loop s w0 w1 ids :
  initialize (world s) = (Ok tt, w0) →
  gmail_service w0 = true →
  calendar_service w0 = true →
  search_messages query w0 = (Ok ids, w1) →
  main s = for_each (filter (λ i, i ∉ load_ids (ledger s)) ids) process_email
             (Build_State w1 (ledger s) (trace s)).
Proof.
  intros Hi Hg Hc Hs. apply main_new_messages. unfold new_messages.
  by rewrite Hi, Hg, Hc, Hs.
Qed.

(** C9. Empty-extraction non-commit: a message for which the run extracts
    no task, every time the run processes it, is not committed by the run:
    the trace reports no commit of it and, when the ledger did not hold it
    at the start of the run, the ledger does not hold it after the run, so
    that it passes the filter of a later run. The ledger part is stated
    for a well-formed ledger file and for a run whose messages have ids
    that the file stores unchanged. *)
Theorem empty_extraction_not_committed (s : State W) (msg_id : string) :
  ledger_wf (ledger s) →
  (∀ i r, (i, r) ∈ run_extractions s → ledger_safe i) →
  (∀ tasks, (msg_id, Ok (Some tasks)) ∈ run_extractions s → tasks = []) →
  msg_id ∉ load_ids (ledger s) →
  (msg_id ∉ load_ids (ledger (main s).2))
  ∧ (∀ ids : list string, msg_id ∈ ids →
       msg_id ∈ filter (λ i, i ∉ load_ids (ledger (main s).2)) ids)
  ∧ ∃ delta, trace (main s).2 = trace s ++ delta
             ∧ msg_id ∉ committed_ids delta.
Proof.
  intros Hwf Hsafe Hno Hnot.
  destruct (main_commits_log s) as (delta & E & _ & L & _ & J).
  assert (msg_id ∉ committed_ids delta) as Hout.
  { intros Hin. destruct (J _ Hin) as (_ & tasks & Hne & Hx).
    by apply Hno in Hx. }
  assert (msg_id ∉ load_ids (ledger (main s).2)) as Hl.
  { rewrite L. rewrite load_ids_save_all; [|done|].
    - intros [?|?%elem_of_list_to_set]%elem_of_union; done.
    - apply Forall_forall. intros i Hi.
      destruct (J _ Hi) as (_ & tasks & _ & Hx). by eapply Hsafe. }
  split; [done|]. split; [|by exists delta].
  intros ids Hin. by apply list_elem_of_filter.
Qed.

(** X6. Every commit of a run is accounted for: the ids the run reports as
    committed were not in the ledger read at its start, each had a task
    list that was not empty when this run processed it, and they are
    committed in the order in which the run processed them, at most once
    for each time a message is processed. *)
Theorem commits_of_a_run s :
  ∃ delta,
    trace (main s).2 = trace s ++ delta
    ∧ committed_ids delta `sublist_of` processing_ids delta
    ∧ ∀ i, i ∈ committed_ids delta →
        (i ∉ load_ids (ledger s))
        ∧ ∃ tasks, tasks ≠ [] ∧ (i, Ok (Some tasks)) ∈ run_extractions s.
Proof.
  destruct (main_commits_log s) as (delta & E & _ & _ & S & J).
  by exists delta.
Qed.

(** X7. A run commits the messages that it could mark as read, and no
    other: the ids it reports as committed are, in order, the messages for
    which its call of [mark_message_as_read] returned [True]. So it
    commits no message for which [mark_message_as_read] never returns
    [True], whatever events it created for it. *)
Theorem commits_are_the_marked s :
  ∃ delta,
    trace (main s).2 = trace s ++ delta
    ∧ committed_ids delta = marked (run_markings s)
    ∧ ∀ i, (∀ w, (mark_message_as_read i w).1 ≠ Ok true) →
           i ∉ committed_ids delta.
Proof.
  destruct (main_commits_log s) as (delta & E & M & _).
  exists delta. split; [done|]. split; [done|]. intros i Hmark.
  rewrite M. unfold run_markings.
  destruct (new_messages s) as [[ids s1]|]; [|by intros ?%elem_of_nil].
  intros (w & w' & Hm)%marked_markings. apply (Hmark w). by rewrite Hm.
Qed.

Lemma no_attachment_raises (msg_id : string) (m : Msg)
    (rest : list string) (w1 w2 : W) s :
  get_message msg_id (world s) = (Ok (Some m), w1) →
  download_attachments m w1 = (Ok [], w2) →
  for_each (msg_id :: rest) process_email s
  = (Raise (AttributeError "get_email_body_text"),
     Build_State w2 (ledger s) (trace s ++ [Processing msg_id])).
Proof.
  intros Hget Hdown. simpl.
  unfold bind at 1. unfold process_email, bind, emit, collect_tasks, bind, call,
    try_except. simpl. rewrite Hget. simpl. rewrite Hdown. simpl.
  reflexivity.
Qed.

(** X8. A message without attachment ends the run: the class [GmailClient] has
    no [get_email_body_text], so reading the body raises [AttributeError]; the
    message is not committed and the messages after it are not processed. *)
Theorem message_without_attachment_ends_run (msg_id : string) (m : Msg)
    (rest : list string) (w1 w2 : W) s :
  get_message msg_id (world s) = (Ok (Some m), w1) →
  download_attachments m w1 = (Ok [], w2) →
  for_each (msg_id :: rest) process_email s
  = (Raise (AttributeError "get_email_body_text"),
     Build_State w2 (ledger s) (trace s ++ [Processing msg_id])).
Proof. apply no_attachment_raises. Qed.

(** X9. A message that cannot be fetched, or whose download raises, is
    skipped: its processing returns, nothing is committed, no calendar call is
    made, and the loop goes on with the next message. *)
Theorem failed_fetch_is_skipped (msg_id : string) (rest : list string) s :
  (∃ w1, get_message msg_id (world s) = (Ok None, w1))
  ∨ (∃ m w1 e w2, get_message msg_id (world s) = (Ok (Some m), w1)
                  ∧ download_attachments m w1 = (Raise e, w2)) →
  ∃ w',
    process_email msg_id s
    = (Ok tt, Build_State w' (ledger s)
                (trace s ++ [Processing msg_id; Skipped msg_id]))
    ∧ for_each (msg_id :: rest) process_email s
      = for_each rest process_email
          (Build_State w' (ledger s)
             (trace s ++ [Processing msg_id; Skipped msg_id])).
Proof.
  intros [(w1 & Hget)|(m & w1 & e & w2 & Hget & Hdown)].
  - exists w1.
    assert (process_email msg_id s
            = (Ok tt, Build_State w1 (ledger s)
                        (trace s ++ [Processing msg_id; Skipped msg_id]))) as E.
    { unfold process_email, bind, emit, collect_tasks, bind, call. simpl.
      rewrite Hget. simpl. by rewrite <- List.app_assoc. }
    split; [done|]. simpl. unfold bind at 1. by rewrite E.
  - exists w2.
    assert (process_email msg_id s
            = (Ok tt, Build_State w2 (ledger s)
                        (trace s ++ [Processing msg_id; Skipped msg_id]))) as E.
    { unfold process_email, bind, emit, collect_tasks, bind, call, try_except.
      simpl. rewrite Hget. simpl. rewrite Hdown. simpl.
      by rewrite <- List.app_assoc. }
    split; [done|]. simpl. unfold bind at 1. by rewrite E.
Qed.

(** X10. When every id that the search of the run returns is in the
    ledger, the run does nothing but the search: it returns, no message is
    announced, no calendar call is made, nothing is committed, and the
    ledger file is as before. *)
Theorem run_without_new_messages s w0 w1 ids :
  initialize (world s) = (Ok tt, w0) →
  gmail_service w0 = true →
  calendar_service w0 = true →
  search_messages query w0 = (Ok ids, w1) →
  (∀ i, i ∈ ids → i ∈ load_ids (ledger s)) →
  main s = (Ok tt, Build_State w1 (ledger s) (trace s)).
Proof.
  intros Hi Hg Hc Hs Hin. rewrite (main_loop s w0 w1 ids) by done.
  assert (filter (λ i, i ∉ load_ids (ledger s)) ids = []) as ->; [|done].
  clear -Hin. induction ids as [|i ids IH]; [done|].
  rewrite filter_cons. destruct (decide _) as [Hn|_].
  - exfalso. apply Hn, Hin. left.
  - apply IH. intros j Hj. apply Hin. by right.
Qed.

Lemma same_item_refl s : same_item s s.
Proof. exists []. by rewrite app_nil_r. Qed.

Lemma same_item_same s s' : trace s' = trace s → same_item s s'.
Proof. intros E. exists []. by rewrite app_nil_r. Qed.

Lemma same_item_trans s1 s2 s3 :
  same_item s1 s2 → same_item s2 s3 → same_item s1 s3.
Proof.
  intros (d1 & E1 & P1) (d2 & E2 & P2). exists (d1 ++ d2).
  rewrite processing_ids_app, P1, P2. by rewrite E2, E1, List.app_assoc.
Qed.

Lemma same_item_message s a :
  is_processing a = false →
  same_item s (Build_State (world s) (ledger s) (trace s ++ [a])).
Proof. intros Ha. exists [a]. by destruct a. Qed.

(** Processing one message announces it once, first. *)
Lemma process_email_announces msg_id s :
  ∃ delta,
    trace (process_email msg_id s).2 = trace s ++ Processing msg_id :: delta
    ∧ processing_ids delta = [].
Proof.
  unfold process_email, bind, emit. simpl.
  set (s0 := Build_State (world s) (ledger s) (trace s ++ [Processing msg_id])).
  assert (∀ s1, same_item s0 s1 →
            ∃ delta, trace s1 = trace s ++ Processing msg_id :: delta
                     ∧ processing_ids delta = []) as Hfin.
  { intros s1 (delta & E & P). exists delta. split; [|done].
    rewrite E. simpl. by rewrite <- List.app_assoc. }
  pose proof (frames_collect_tasks same_item same_item_refl same_item_trans
                (λ s w, same_item_same s _ eq_refl) same_item_message
                msg_id s0) as H1.
  destruct (collect_tasks msg_id s0) as [[[tasks|]|e] s1]; simpl in *;
    try by apply Hfin.
  apply Hfin. eapply same_item_trans; [exact H1|].
  apply (frames_commit_tasks same_item same_item_refl same_item_trans
           (λ s w, same_item_same s _ eq_refl) same_item_message (λ _, True)).
  - intros s2 i _. by apply same_item_same.
  - done.
Qed.

(** The loop over the new messages announces them in the order of the
    list, each once, up to the first one whose processing raises. *)
Lemma for_each_processing (ids : list string) s :
  ∃ delta k,
    trace (for_each ids process_email s).2 = trace s ++ delta
    ∧ processing_ids delta = take k ids
    ∧ ((for_each ids process_email s).1 = Ok tt → k = length ids)
    ∧ (ids ≠ [] → (0 < k)%nat).
Proof.
  revert s. induction ids as [|i ids IH]; intros s.
  - exists [], 0%nat. by rewrite app_nil_r.
  - simpl. unfold bind.
    destruct (process_email_announces i s) as (d1 & E1 & P1).
    destruct (process_email i s) as [[[]|e] s1]; simpl in *.
    + destruct (IH s1) as (d2 & k & E2 & P2 & K2 & _).
      exists (Processing i :: d1 ++ d2), (S k). simpl.
      rewrite processing_ids_app, P1, P2, E2, E1. simpl.
      rewrite <- List.app_assoc. repeat split; try done; [|lia].
      intros Hok. by rewrite K2.
    + exists (Processing i :: d1), 1%nat. simpl. rewrite P1.
      repeat split; try done. lia.
Qed.

(** X11. The run whose search returns [ids] processes those of them that
    the ledger did not hold at its start, in the order of the search
    result and as often as they occur in it, up to the first one whose
    processing raises: it processes the first of them in any case and all
    of them when it returns. The ledger is read once: what the run itself
    commits does not change what it processes. *)
Theorem messages_processed_in_order s w0 w1 ids :
  initialize (world s) = (Ok tt, w0) →
  gmail_service w0 = true →
  calendar_service w0 = true →
  search_messages query w0 = (Ok ids, w1) →
  ∃ delta k,
    trace (main s).2 = trace s ++ delta
    ∧ processing_ids delta
      = take k (filter (λ i, i ∉ load_ids (ledger s)) ids)
    ∧ ((main s).1 = Ok tt →
       k = length (filter (λ i, i ∉ load_ids (ledger s)) ids))
    ∧ (filter (λ i, i ∉ load_ids (ledger s)) ids ≠ [] → (0 < k)%nat).
Proof.
  intros Hi Hg Hc Hs. rewrite (main_loop s w0 w1 ids) by done.
  destruct (for_each_processing
              (filter (λ i, i ∉ load_ids (ledger s)) ids)
              (Build_State w1 (ledger s) (trace s)))
    as (delta & k & Et & Ep & Ek & Hk).
  by exists delta, k.
Qed.

(** ** The tasks of the attachments *)

(** What an attachment adds does not depend on what was gathered before. *)
Lemma tasks_of_attachment_acc (acc : list Task) (path : string) s :
  tasks_of_attachment acc path s
  = (let* tasks := tasks_of_attachment [] path in ret (acc ++ tasks)) s.
Proof.
  unfold tasks_of_attachment, bind, ret.
  match goal with
  | |- context [match ?m s with _ => _ end] =>
      destruct (m s) as [[[text|]|e] s1]
  end; simpl; try done.
  - destruct (PyStr.truthy text); simpl.
    + destruct (process_content_for_tasks text s1) as [[tasks|e] s2]; simpl;
        [|done].
      destruct (call (remove_attachment path) s2) as [[[]|e] s3]; by simpl.
    + destruct (call (remove_attachment path) s1) as [[[]|e] s3]; simpl;
        [by rewrite app_nil_r|done].
  - destruct (call (remove_attachment path) s1) as [[[]|e] s3]; simpl;
      [by rewrite app_nil_r|done].
Qed.

Lemma fold_tasks_acc (paths : list string) (acc : list Task) s :
  fold_m tasks_of_attachment paths acc s
  = (let* tasks := fold_m tasks_of_attachment paths [] in
     ret (acc ++ tasks)) s.
Proof.
  revert acc s. induction paths as [|p paths IH]; intros acc s.
  - unfold bind, ret. simpl. by rewrite app_nil_r.
  - cbn [fold_m]. unfold bind. rewrite (tasks_of_attachment_acc acc).
    unfold bind, ret.
    destruct (tasks_of_attachment [] p s) as [[tasks|e] s1]; [|done].
    rewrite (IH (acc ++ tasks)), (IH ([] ++ tasks)). unfold bind, ret.
    destruct (fold_m tasks_of_attachment paths [] s1) as [[rest|e] s2];
      [|done].
    by rewrite List.app_assoc.
Qed.

(** X12. The tasks of a message are gathered attachment by attachment: for a
    list of paths the loop over the attachments returns what it returns for
    the first ones followed by what it returns for the rest, after what was
    gathered before, and a path that raises ends it; the effects are those of
    the two loops one after the other. *)
Theorem attachment_tasks_concatenate (ps qs : list string)
    (acc : list Task) s :
  fold_m tasks_of_attachment (ps ++ qs) acc s
  = (let* first := fold_m tasks_of_attachment ps [] in
     let* rest := fold_m tasks_of_attachment qs [] in
     ret (acc ++ first ++ rest)) s.
Proof.
  revert acc s. induction ps as [|p ps IH]; intros acc s.
  - cbn [fold_m app]. rewrite fold_tasks_acc. unfold bind, ret.
    by destruct (fold_m tasks_of_attachment qs [] s) as [[rest|e] s1].
  - cbn [fold_m app]. unfold bind. rewrite (tasks_of_attachment_acc acc).
    unfold bind, ret.
    destruct (tasks_of_attachment [] p s) as [[tasks|e] s1]; [|done].
    rewrite (IH (acc ++ tasks)), (fold_tasks_acc ps ([] ++ tasks)).
    unfold bind, ret.
    destruct (fold_m tasks_of_attachment ps [] s1) as [[first|e] s2];
      [|done].
    destruct (fold_m tasks_of_attachment qs [] s2) as [[rest|e] s3];
      [|done].
    cbn [app]. by rewrite <- !List.app_assoc.
Qed.

End RunProperties.

(** ** The Gmail client *)

Section GmailClientProperties.
Context {W Service : Type} `{Gmail.Api W Service}.
Implicit Types (c : Gmail.Client Service) (w : W).

(** Induction on a part with its nested parts. *)
Lemma Part_nested_ind (P : Gmail.Part → Prop) :
  (∀ f b, P (Gmail.mkPart f b None)) →
  (∀ f b ps, Forall P ps → P (Gmail.mkPart f b (Some ps))) →
  ∀ p, P p.
Proof.
  intros Hleaf Hnode. fix IH 1. intros [f b [ps|]]; [|apply Hleaf].
  apply Hnode. induction ps as [|p ps IHps]; constructor; [apply IH | exact IHps].
Qed.

(** The parts the helper collects from a part: the part itself, then what
    it collects from the list below it. *)
Lemma part_and_below_eq p :
  Gmail.part_and_below p
  = p :: Gmail.get_all_parts (default [] (Gmail.parts p)).
Proof.
  by destruct p as [f b [ps|]].
Qed.

(** The recursion of the helper as the source writes it. *)
Lemma get_all_parts_cons p ps :
  Gmail.get_all_parts (p :: ps)
  = p :: Gmail.get_all_parts (default [] (Gmail.parts p))
    ++ Gmail.get_all_parts ps.
Proof.
  unfold Gmail.get_all_parts at 1. simpl. by rewrite part_and_below_eq.
Qed.

Lemma get_all_parts_found p ps :
  nested_in p ps → p ∈ Gmail.get_all_parts ps.
Proof.
  induction 1 as [ps Hin|q sub ps Hq Hsub _ IH].
  - unfold Gmail.get_all_parts. apply list_elem_of_In, in_flat_map.
    exists p. split; [by apply list_elem_of_In|].
    rewrite part_and_below_eq. by left.
  - unfold Gmail.get_all_parts. apply list_elem_of_In, in_flat_map.
    exists q. split; [by apply list_elem_of_In|].
    rewrite part_and_below_eq, Hsub. right. by apply list_elem_of_In.
Qed.

Lemma get_all_parts_nested p ps :
  p ∈ Gmail.get_all_parts ps → nested_in p ps.
Proof.
  assert (∀ q, ∀ p, p ∈ Gmail.part_and_below q →
            p = q ∨ ∃ sub, Gmail.parts q = Some sub ∧ nested_in p sub) as Hone.
  { induction q as [f b|f b sub IH] using Part_nested_ind; intros p0 Hp0.
    - apply list_elem_of_singleton in Hp0. by left.
    - rewrite part_and_below_eq in Hp0. simpl in Hp0.
      apply elem_of_cons in Hp0 as [->|Hp0]; [by left|]. right.
      exists sub. split; [done|].
      unfold Gmail.get_all_parts in Hp0.
      apply list_elem_of_In, in_flat_map in Hp0 as (q & Hq & Hp0).
      apply list_elem_of_In in Hq, Hp0.
      eapply Forall_forall in IH; [|exact Hq].
      destruct (IH _ Hp0) as [->|(sub' & Es & Hn)].
      + by apply nested_here.
      + by eapply nested_below. }
  unfold Gmail.get_all_parts. intros Hin.
  apply list_elem_of_In, in_flat_map in Hin as (q & Hq & Hp).
  apply list_elem_of_In in Hq, Hp.
  destruct (Hone _ _ Hp) as [->|(sub & Es & Hn)].
  - by apply nested_here.
  - by eapply nested_below.
Qed.

(** X13. The helper [get_all_parts] finds exactly the parts of the list and
    the parts nested below them at any depth, and it works through a list
    piece by piece. *)
Theorem nested_parts_are_found (p : Gmail.Part) (ps qs : list Gmail.Part) :
  (p ∈ Gmail.get_all_parts ps ↔ nested_in p ps)
  ∧ Gmail.get_all_parts (ps ++ qs)
    = Gmail.get_all_parts ps ++ Gmail.get_all_parts qs.
Proof.
  split; [split; [apply get_all_parts_nested | apply get_all_parts_found]|].
  unfold Gmail.get_all_parts. apply flat_map_app.
Qed.

Lemma save_attachment_grows download_dir name data acc w acc' w' :
  Gmail.save_attachment download_dir name data acc w = (Gmail.ApiOk acc', w') →
  acc' = acc ++ [Gmail.path_join download_dir name].
Proof.
  unfold Gmail.save_attachment.
  destruct (Gmail.urlsafe_b64decode data); [|done].
  destruct (Gmail.write_file _ _ w) as [[?|?] ?]; [|done].
  by intros [= <- _].
Qed.

Lemma download_part_grows svc message download_dir acc part w acc' w' :
  Gmail.download_part svc message download_dir acc part w
  = (Gmail.ApiOk acc', w') →
  acc' = acc
  ∨ ∃ name, Gmail.filename part = Some name ∧ name ≠ EmptyString
            ∧ acc' = acc ++ [Gmail.path_join download_dir name].
Proof.
  unfold Gmail.download_part.
  destruct (Gmail.filename part) as [name|]; [|intros [= <- _]; by left].
  destruct name as [|ch name]; [intros [= <- _]; by left|].
  cbn [PyStr.truthy].
  assert (∀ data w0,
            (if PyStr.truthy data
             then Gmail.save_attachment download_dir (String ch name) data acc w0
             else (Gmail.ApiOk acc, w0)) = (Gmail.ApiOk acc', w') →
            acc' = acc
            ∨ ∃ name0, Some (String ch name) = Some name0 ∧ name0 ≠ EmptyString
                       ∧ acc' = acc ++ [Gmail.path_join download_dir name0])
    as Hsave.
  { intros data w0. destruct (PyStr.truthy data); [|intros [= <- _]; by left].
    intros ->%save_attachment_grows. right. by eexists. }
  destruct (Gmail.body part) as [b|]; [|intros [= <- _]; by left].
  destruct (Gmail.attachmentId b) as [att|].
  - destruct (PyStr.truthy att).
    + destruct (Gmail.attachments_get _ _ _ w) as [[attachment|r|e] w1];
        [|done..].
      destruct (Gmail.att_data attachment) as [data|];
        [apply Hsave | intros [= <- _]; by left].
    + destruct (Gmail.body_data b) as [data|];
        [apply Hsave | intros [= <- _]; by left].
  - destruct (Gmail.body_data b) as [data|];
      [apply Hsave | intros [= <- _]; by left].
Qed.

Lemma download_parts_paths svc message download_dir ps acc w :
  ∃ new,
    (Gmail.download_parts svc message download_dir ps acc w).1 = acc ++ new
    ∧ Forall (from_part download_dir ps) new
    ∧ (length new ≤ length ps)%nat.
Proof.
  revert acc w. induction ps as [|part ps IH]; intros acc w.
  - exists []. by rewrite app_nil_r.
  - simpl.
    destruct (Gmail.download_part svc message download_dir acc part w)
      as [[acc'|r|e] w'] eqn:E;
      [|exists []; rewrite app_nil_r; simpl; split; [done|split; [done|lia]]..].
    destruct (IH acc' w') as (new & E2 & Hnew & Hlen).
    assert (Forall (from_part download_dir (part :: ps)) new) as Hnew'.
    { eapply Forall_impl; [exact Hnew|].
      intros path (p & name & Hp & Hf & Hne & ->).
      exists p, name. repeat split; try done. by right. }
    apply download_part_grows in E as [->|(name & Hf & Hne & ->)].
    + exists new. split; [done|]. split; [done|]. simpl. lia.
    + exists (Gmail.path_join download_dir name :: new).
      rewrite E2, <- List.app_assoc. split; [done|]. split; [|simpl; lia].
      constructor; [|done]. exists part, name. split; [left|done].
Qed.

(** X14. Once the download directory exists, [download_attachments] returns:
    an error of the API, of the decoding or of the file system ends the loop
    and is not raised. Every path it returns is [os.path.join(download_dir,
    name)] for the non-empty file name of a part of the message, and it
    returns at most one path per part. *)
Theorem download_returns_paths_of_parts c (svc : Service)
    (message : Gmail.Message) (download_dir : string) w w0 :
  Gmail.service c = Some svc →
  Gmail.makedirs download_dir w = (Ok tt, w0) →
  ∃ paths w1,
    Gmail.download_attachments c message download_dir w = (Ok paths, w1)
    ∧ Forall (λ path,
        ∃ payload part name,
          Gmail.m_payload message = Some payload
          ∧ nested_in part (default [] (Gmail.parts payload))
          ∧ Gmail.filename part = Some name ∧ name ≠ EmptyString
          ∧ path = Gmail.path_join download_dir name) paths
    ∧ (∀ payload, Gmail.m_payload message = Some payload →
         (length paths
          ≤ length (Gmail.get_all_parts (default [] (Gmail.parts payload))))%nat).
Proof.
  intros Hsvc Hdir. unfold Gmail.download_attachments. rewrite Hsvc, Hdir.
  destruct (Gmail.m_payload message) as [payload|].
  - set (ps := Gmail.get_all_parts (default [] (Gmail.parts payload))).
    destruct (download_parts_paths svc message download_dir ps [] w0)
      as (new & E & Hnew & Hlen).
    destruct (Gmail.download_parts svc message download_dir ps [] w0)
      as [paths w1]. simpl in E. subst paths.
    exists new, w1. split; [done|]. split.
    + eapply Forall_impl; [exact Hnew|].
      intros path (part & name & Hp & Hf & Hne & ->).
      exists payload, part, name. repeat split; try done.
      by apply get_all_parts_nested.
    + by intros ? [= <-].
  - exists [], w0. repeat split; [constructor | done].
Qed.

(** X15. A file name that is an absolute path is written where it says: for a
    part with such a name and inline data, the file goes to the name itself,
    outside [download_dir]. *)
Theorem absolute_filename_leaves_download_dir c (svc : Service)
    (m_id name data file_data download_dir : string) w w0 w1 :
  Gmail.service c = Some svc →
  String.prefix "/" name = true →
  data ≠ EmptyString →
  Gmail.makedirs download_dir w = (Ok tt, w0) →
  Gmail.urlsafe_b64decode data = Ok file_data →
  Gmail.write_file name file_data w0 = (Ok tt, w1) →
  Gmail.download_attachments c
    {| Gmail.m_id := m_id;
       Gmail.m_payload :=
         Some (Gmail.mkPart None None
                 (Some [Gmail.mkPart (Some name)
                          (Some {| Gmail.attachmentId := None;
                                   Gmail.body_data := Some data |})
                          None])) |}
    download_dir w
  = (Ok [name], w1).
Proof.
  intros Hsvc Habs Hdata Hdir Hdec Hwrite.
  unfold Gmail.download_attachments. rewrite Hsvc, Hdir. simpl.
  unfold Gmail.download_part. simpl.
  destruct name as [|ch name]; [done|]. cbn [PyStr.truthy].
  destruct data as [|d data]; [done|]. cbn [PyStr.truthy].
  unfold Gmail.save_attachment. rewrite Hdec.
  unfold Gmail.path_join. rewrite Habs, Hwrite. reflexivity.
Qed.

Lemma default_scopes_read_only c :
  Gmail.SCOPES c = Gmail.DEFAULT_SCOPES → Gmail.may_modify c = false.
Proof. unfold Gmail.may_modify. by intros ->. Qed.

Lemma read_only_mark c msg_id w :
  Gmail.may_modify c = false →
  Gmail.mark_message_as_read c msg_id w = (Ok false, w).
Proof.
  intros Hm. unfold Gmail.mark_message_as_read. rewrite Hm.
  by destruct (Gmail.service c).
Qed.

(** X16. A client constructed without [GOOGLE_GMAIL_SCOPES] in the environment
    has the read-only default scope, and with it neither
    [mark_message_as_read] nor [move_message_to_label] reaches the API: both
    return [False] and leave the world as it is. *)
Theorem default_construction_is_read_only (w w' : W)
    (inst : Gmail.Instance) (cls : option Gmail.Instance) :
  Gmail.getenv "GOOGLE_GMAIL_SCOPES" = None →
  Gmail.construct None w = (Ok inst, cls, w') →
  ∃ c, Gmail.attributes inst = Some c
       ∧ Gmail.SCOPES c = Gmail.DEFAULT_SCOPES
       ∧ (∀ msg_id w0, Gmail.mark_message_as_read c msg_id w0 = (Ok false, w0))
       ∧ (∀ msg_id label w0,
            Gmail.move_message_to_label c msg_id label w0 = (Ok false, w0)).
Proof.
  intros Henv. unfold Gmail.construct. cbn [Gmail.initialized]. rewrite Henv.
  cbn [default].
  destruct (Gmail._authenticate _ _ _ w) as [[service|e] w0]; [|done].
  intros [= <- _ _]. eexists. split; [reflexivity|]. split; [reflexivity|].
  split.
  - intros. by apply read_only_mark.
  - intros. unfold Gmail.move_message_to_label. cbn. by destruct service.
Qed.

(** X17. [GmailClient()] is a singleton that authenticates once: after a
    construction that returned, every further construction returns the same
    object and leaves the world as it is. *)
Theorem construct_once (cls cls' : option Gmail.Instance)
    (inst : Gmail.Instance) (w w' w'' : W) :
  Gmail.construct cls w = (Ok inst, cls', w') →
  Gmail.construct cls' w'' = (Ok inst, cls', w'').
Proof.
  unfold Gmail.construct at 1.
  destruct (Gmail.initialized _) eqn:Hi.
  - intros [= <- <- _]. unfold Gmail.construct. by rewrite Hi.
  - destruct (Gmail._authenticate _ _ _ w) as [[service|e] w0]; [|done].
    intros [= <- <- _]. reflexivity.
Qed.

(** X18. [_authenticate] with valid stored credentials goes straight to
    [build]: no refresh, no consent, no token written. It returns [None] only
    when [build] raised [HttpError]. *)
Theorem authenticate_paths (token_file client_secrets_file : string)
    (scopes : list string) (w : W) :
  (∀ creds w1,
     Gmail.path_exists token_file w = true →
     Gmail.from_authorized_user_file token_file scopes w = (Ok creds, w1) →
     Gmail.valid creds = true →
     Gmail._authenticate token_file client_secrets_file scopes w
     = match Gmail.build creds w1 with
       | (Gmail.ApiOk service, w2) => (Ok (Some service), w2)
       | (Gmail.ApiHttpError _, w2) => (Ok None, w2)
       | (Gmail.ApiRaise e, w2) => (Raise e, w2)
       end)
  ∧ (∀ w',
       Gmail._authenticate token_file client_secrets_file scopes w
       = (Ok None, w') →
       ∃ creds w0 reason, Gmail.build creds w0 = (Gmail.ApiHttpError reason, w')).
Proof.
  split.
  - intros creds w1 Hex Hload Hvalid. unfold Gmail._authenticate.
    by rewrite Hex, Hload, Hvalid.
  - intros w'. unfold Gmail._authenticate.
    assert (∀ creds w0,
              match Gmail.build creds w0 with
              | (Gmail.ApiOk service, w2) => (Ok (Some service), w2)
              | (Gmail.ApiHttpError _, w2) => (Ok None, w2)
              | (Gmail.ApiRaise e, w2) => (Raise e, w2)
              end = (Ok None, w') →
              ∃ creds w0 reason,
                Gmail.build creds w0 = (Gmail.ApiHttpError reason, w')) as Hfin.
    { intros creds w0.
      destruct (Gmail.build creds w0) as [[svc|r|e] w2] eqn:E; try done.
      intros [= <-]. eauto. }
    assert (∀ creds w0,
              match Gmail.write_file token_file (Gmail.to_json creds) w0 with
              | (Ok _, w1) =>
                  match Gmail.build creds w1 with
                  | (Gmail.ApiOk service, w2) => (Ok (Some service), w2)
                  | (Gmail.ApiHttpError _, w2) => (Ok None, w2)
                  | (Gmail.ApiRaise e, w2) => (Raise e, w2)
                  end
              | (Raise e, w1) => (Raise e, w1)
              end = (Ok None, w') →
              ∃ creds w0 reason,
                Gmail.build creds w0 = (Gmail.ApiHttpError reason, w')) as Hstore.
    { intros creds w0.
      destruct (Gmail.write_file _ _ w0) as [[?|?] w1]; [apply Hfin | done]. }
    assert (∀ w0,
              match Gmail.run_local_server client_secrets_file scopes w0 with
              | (Ok creds', w1) =>
                  match Gmail.write_file token_file (Gmail.to_json creds') w1 with
                  | (Ok _, w2) =>
                      match Gmail.build creds' w2 with
                      | (Gmail.ApiOk service, w3) => (Ok (Some service), w3)
                      | (Gmail.ApiHttpError _, w3) => (Ok None, w3)
                      | (Gmail.ApiRaise e, w3) => (Raise e, w3)
                      end
                  | (Raise e, w2) => (Raise e, w2)
                  end
              | (Raise e, w1) => (Raise e, w1)
              end = (Ok None, w') →
              ∃ creds w0 reason,
                Gmail.build creds w0 = (Gmail.ApiHttpError reason, w')) as Hflow.
    { intros w0.
      destruct (Gmail.run_local_server _ _ w0) as [[creds|?] w1];
        [apply Hstore | done]. }
    destruct (Gmail.path_exists token_file w); [|apply Hflow].
    destruct (Gmail.from_authorized_user_file _ _ w) as [[creds|?] w1]; [|done].
    destruct (Gmail.valid creds); [apply Hfin|].
    destruct (_ && _); [|apply Hflow].
    destruct (Gmail.refresh creds w1) as [[creds'|?] w2]; [apply Hstore | done].
Qed.

Lemma find_label_some label_name labels id :
  Gmail.find_label label_name labels = Some id →
  ∃ label, label ∈ labels
           ∧ PyStr.lower (Gmail.label_name label) = PyStr.lower label_name
           ∧ Gmail.label_id label = id.
Proof.
  induction labels as [|l labels IH]; [done|]. simpl.
  case_bool_decide as Hl.
  - intros [= <-]. exists l. repeat split; [left | done].
  - intros (label & Hin & Hn & Hid)%IH. exists label. repeat split; try done.
    by right.
Qed.

Lemma find_label_none label_name labels :
  Gmail.find_label label_name labels = None →
  ∀ label, label ∈ labels →
    PyStr.lower (Gmail.label_name label) ≠ PyStr.lower label_name.
Proof.
  induction labels as [|l labels IH]; [by intros _ ? ?%elem_of_nil|]. simpl.
  case_bool_decide as Hl; [done|].
  intros Hnone label [->|Hin]%elem_of_cons; [done | by apply IH].
Qed.

(** X19. [move_message_to_label] looks the label up without regard to case and
    creates none when it finds one with a non-empty id: the message then gets
    the id of the first label of that name, and the outcome is that of the one
    [modify] call. *)
Theorem existing_label_is_reused c (svc : Service) (msg_id label_name : string)
    (labels : list Gmail.Label) (id : string) w w1 :
  Gmail.service c = Some svc →
  Gmail.may_modify c = true →
  Gmail.labels_list svc w = (Gmail.ApiOk {| Gmail.resp_labels := Some labels |}, w1) →
  Gmail.find_label label_name labels = Some id →
  id ≠ EmptyString →
  (∃ label, label ∈ labels
            ∧ PyStr.lower (Gmail.label_name label) = PyStr.lower label_name
            ∧ Gmail.label_id label = id)
  ∧ Gmail.move_message_to_label c msg_id label_name w
    = match Gmail.messages_modify svc msg_id (Gmail.AddLabelIds [id]) w1 with
      | (Gmail.ApiOk _, w2) => (Ok true, w2)
      | (Gmail.ApiHttpError _, w2) => (Ok false, w2)
      | (Gmail.ApiRaise e, w2) => (Raise e, w2)
      end.
Proof.
  intros Hsvc Hmod Hlist Hfind Hid. split; [by apply find_label_some|].
  unfold Gmail.move_message_to_label. rewrite Hsvc, Hmod, Hlist. cbn.
  rewrite Hfind. by destruct id.
Qed.

End GmailClientProperties.

(** ** The pipeline behind the Gmail client *)

Section BackedPipeline.
Context {W Service : Type} `{Services W Gmail.Message} `{Gmail.Api W Service}.
Implicit Types (c : Gmail.Client Service) (s : State W).

(** X20. With a client that has neither the modify nor the full scope, as
    the default construction gives it, the pipeline never commits a
    message, whatever events it creates: no run comes to
    [save_processed_email_id], and none reports a commit. *)
Theorem read_only_pipeline_never_commits c (download_dir : string) s :
  backed_by c download_dir →
  Gmail.may_modify c = false →
  ∃ delta, trace (main s).2 = trace s ++ delta ∧ committed_ids delta = [].
Proof.
  intros (_ & _ & _ & _ & Hmark) Hro.
  destruct (main_commits_log s) as (delta & E & M & _).
  exists delta. split; [done|]. rewrite M. unfold run_markings.
  destruct (new_messages s) as [[ids s1]|]; [|done].
  destruct (marked (markings ids s1)) as [|i l] eqn:El; [done|].
  destruct (marked_markings ids s1 i) as (w & w' & Hm); [rewrite El; left|].
  rewrite Hmark, read_only_mark in Hm by done. done.
Qed.

(** X21. An [HttpError] of the search cannot be told from an empty mailbox:
    [search_messages] turns it into the empty list, and the run ends normally
    without announcing or committing anything. *)
Theorem search_error_looks_like_empty_mailbox c (svc : Service)
    (download_dir reason : string) (w0 w1 : W) s :
  backed_by c download_dir →
  Gmail.service c = Some svc →
  initialize (world s) = (Ok tt, w0) →
  calendar_service w0 = true →
  Gmail.messages_list svc query 100 w0 = (Gmail.ApiHttpError reason, w1) →
  main s = (Ok tt, Build_State w1 (ledger s) (trace s)).
Proof.
  intros (Hsvc & Hsearch & _) Hc Hinit Hcal Hlist.
  unfold main, bind, call, observe, load_processed_email_ids. simpl.
  rewrite Hinit. simpl. rewrite Hsvc, Hc.
  rewrite bool_decide_eq_true_2 by eauto. simpl. rewrite Hcal. simpl.
  rewrite Hsearch. unfold Gmail.search_messages. rewrite Hc, Hlist. simpl.
  reflexivity.
Qed.

(** X22. When the first attachment of a message cannot be fetched, the
    download returns the empty list without trying the other parts; the
    pipeline takes the message for one without attachment, and the run ends
    with [AttributeError] as for those. *)
Theorem failed_attachment_fetch_ends_run c (svc : Service)
    (download_dir msg_id : string) (rest : list string)
    (m : Gmail.Message) (payload part : Gmail.Part) (others : list Gmail.Part)
    (b : Gmail.Body) (name att reason : string) (w1 w2 w3 : W) s :
  backed_by c download_dir →
  Gmail.service c = Some svc →
  Gmail.messages_get svc msg_id (world s) = (Gmail.ApiOk m, w1) →
  Gmail.makedirs download_dir w1 = (Ok tt, w2) →
  Gmail.m_payload m = Some payload →
  Gmail.parts payload = Some (part :: others) →
  Gmail.filename part = Some name → name ≠ EmptyString →
  Gmail.body part = Some b →
  Gmail.attachmentId b = Some att → att ≠ EmptyString →
  Gmail.attachments_get svc (Gmail.m_id m) att w2
  = (Gmail.ApiHttpError reason, w3) →
  Gmail.download_attachments c m download_dir w1 = (Ok [], w3)
  ∧ for_each (msg_id :: rest) process_email s
    = (Raise (AttributeError "get_email_body_text"),
       Build_State w3 (ledger s) (trace s ++ [Processing msg_id])).
Proof.
  intros (_ & _ & Hget & Hdown & _) Hc Hmsg Hdir Hpay Hparts Hname Hne Hbody
    Hatt Hane Hfetch.
  assert (Gmail.download_attachments c m download_dir w1 = (Ok [], w3)) as Hd.
  { unfold Gmail.download_attachments. rewrite Hc, Hdir, Hpay, Hparts.
    change (default [] (Some (part :: others))) with (part :: others).
    rewrite get_all_parts_cons. cbn [app Gmail.download_parts].
    unfold Gmail.download_part. rewrite Hname, Hbody, Hatt.
    destruct name; [done|]. destruct att; [done|]. cbn [PyStr.truthy].
    by rewrite Hfetch. }
  split; [done|].
  apply (no_attachment_raises msg_id m rest w1 w3).
  - rewrite Hget. unfold Gmail.get_message. by rewrite Hc, Hmsg.
  - by rewrite Hdown.
Qed.

End BackedPipeline.

(** ** The ledger file, once more *)

Section LedgerReadBack.
Import PyStr PyStrFacts LedgerFacts.

Lemma strip_app_newline_any s : strip (s +:+ newline) = strip s.
Proof.
  unfold strip. induction s as [|c s IH]; [done|].
  rewrite app_cons. simpl. destruct (isspace c); [done|].
  change (String c (s +:+ newline)) with (String c s +:+ newline).
  apply rstrip_app_newline.
Qed.

(** X23. What the ledger returns for a saved id is its strip: after saving an
    id without line break to a well-formed file, the loaded set is the one
    before plus the stripped id, and unchanged when the id is blank. *)
Theorem saved_id_reads_back_stripped (file : option string) (email_id : string) :
  ledger_wf file →
  no_line_break email_id = true →
  load_ids (save_id email_id file)
  = load_ids file
    ∪ (if PyStr.truthy (strip email_id) then {[ strip email_id ]} else ∅).
Proof.
  intros Hwf Hbreak. rewrite load_ids_save by done. f_equal.
  unfold load_ids. rewrite file_lines_line by done.
  rewrite filter_cons. cbv beta. rewrite strip_app_newline_any.
  destruct (truthy (strip email_id)) eqn:E.
  - rewrite decide_True by done. cbn [fmap list_fmap filter list_filter].
    rewrite strip_app_newline_any. set_solver.
  - rewrite decide_False by (by intros []). done.
Qed.

End LedgerReadBack.

(** ** The properties on concrete inputs *)

Section ConcreteRuns.
Import Scripted Cases.

Lemma resolved_window_span_witness :
  resolve no_tasks errand (at_hour day0 10)
  = Ok (Some {| w_start := TDate day0; w_end := TDate day1 |})
  ∧ ((∃ d e, {| w_start := TDate day0; w_end := TDate day1 |}
             = {| w_start := TDate d; w_end := TDate e |}
             ∧ date_add d one_day = Ok e
             ∧ isAllDay {| w_start := TDate day0; w_end := TDate day1 |} = true)
     ∨ (∃ start e, {| w_start := TDate day0; w_end := TDate day1 |}
                   = {| w_start := TDateTime start; w_end := TDateTime e |}
                   ∧ datetime_add start one_hour = Ok e
                   ∧ isAllDay {| w_start := TDate day0; w_end := TDate day1 |}
                     = false)).
Proof.
  assert (resolve no_tasks errand (at_hour day0 10)
          = Ok (Some {| w_start := TDate day0; w_end := TDate day1 |})) as Hr
    by (vm_compute; reflexivity).
  split; [exact Hr|].
  exact (@resolved_window_span datetime string (scripted no_tasks) errand
           (start_state (at_hour day0 10) None) _ Hr).
Defined.

Lemma explicit_date_takes_suggested_time_witness :
  resolve no_tasks dated (at_hour day0 10)
  = Ok (Some {| w_start := TDateTime (combine day0 (time_of half_past_nine));
                w_end := TDateTime (combine day0 (time_of half_past_ten)) |})
  ∧ dt_date (combine day0 (time_of half_past_nine)) = day0.
Proof.
  destruct (@explicit_date_takes_suggested_time datetime string
              (scripted no_tasks) dated day0 "2025-06-03T09:30"
              half_past_nine (combine day0 (time_of half_past_ten))
              (start_state (at_hour day0 10) None)
              eq_refl eq_refl ltac:(discriminate)
              ltac:(vm_compute; reflexivity) eq_refl
              ltac:(vm_compute; reflexivity))
    as (Hr & Hd & _).
  split; [|exact Hd]. unfold resolve. by rewrite Hr.
Defined.

Lemma suggested_timestamp_is_start_witness :
  resolve no_tasks timed_only (at_hour day0 18)
  = Ok (Some {| w_start := TDateTime half_past_nine;
                w_end := TDateTime half_past_ten |}).
Proof.
  destruct (@suggested_timestamp_is_start datetime string
              (scripted no_tasks) timed_only "2025-06-03T09:30"
              half_past_nine half_past_ten
              (start_state (at_hour day0 18) None)
              eq_refl eq_refl ltac:(discriminate)
              ltac:(vm_compute; reflexivity) eq_refl
              ltac:(vm_compute; reflexivity))
    as (Hr & _).
  unfold resolve. by rewrite Hr.
Defined.

Lemma empty_extraction_not_committed_witness :
  @run_extractions _ _ (flaky one_task) (Build_State O None [])
  = [("m1", Ok (Some []))]
  ∧ (@collect_tasks _ _ (flaky one_task) "m1" (Build_State 1%nat None [])).1
    = Ok (Some [plain_task "buy milk"])
  ∧ "m1" ∉ load_ids (ledger (@main _ _ (flaky one_task)
                               (Build_State O None [])).2).
Proof.
  assert (@run_extractions _ _ (flaky one_task) (Build_State O None [])
          = [("m1", Ok (Some []))]) as Hrun by (vm_compute; reflexivity).
  split; [exact Hrun|]. split; [vm_compute; reflexivity|].
  apply (@empty_extraction_not_committed nat string (flaky one_task)
           (Build_State O None []) "m1").
  - reflexivity.
  - rewrite Hrun. intros i r [= -> _]%list_elem_of_singleton.
    by repeat split.
  - rewrite Hrun. by intros tasks [= <-]%list_elem_of_singleton.
  - cbn. apply not_elem_of_empty.
Defined.

Lemma commits_are_the_marked_witness :
  @run_markings _ _ (scripted unmarkable) (start_state (at_hour day0 10) None)
  = [("m1", Ok false)]
  ∧ created_summaries (trace (run unmarkable (at_hour day0 10) None).2)
    = ["buy milk"]
  ∧ committed_ids (trace (run unmarkable (at_hour day0 10) None).2) = []
  ∧ @run_markings _ _ (scripted one_task) (start_state (at_hour day0 10) None)
    = [("m1", Ok true)]
  ∧ committed_ids (trace (run one_task (at_hour day0 10) None).2) = ["m1"].
Proof.
  assert (@run_markings _ _ (scripted unmarkable)
            (start_state (at_hour day0 10) None)
          = [("m1", Ok false)]) as H1 by (vm_compute; reflexivity).
  assert (@run_markings _ _ (scripted one_task)
            (start_state (at_hour day0 10) None)
          = [("m1", Ok true)]) as H2 by (vm_compute; reflexivity).
  split; [exact H1|]. split; [vm_compute; reflexivity|]. split; [|split].
  - destruct (@commits_are_the_marked datetime string (scripted unmarkable)
                (start_state (at_hour day0 10) None)) as (delta & E & M & _).
    unfold run. rewrite E. cbn [start_state trace app]. by rewrite M, H1.
  - exact H2.
  - destruct (@commits_are_the_marked datetime string (scripted one_task)
                (start_state (at_hour day0 10) None)) as (delta & E & M & _).
    unfold run. rewrite E. cbn [start_state trace app]. by rewrite M, H2.
Defined.

Lemma message_without_attachment_ends_run_witness :
  @for_each datetime string ["m1"; "m2"]
    (@process_email datetime string (scripted no_attachment))
    (start_state (at_hour day0 10) None)
  = (Raise (AttributeError "get_email_body_text"),
     Build_State (at_hour day0 10) None [Processing "m1"]).
Proof.
  exact (@message_without_attachment_ends_run datetime string
           (scripted no_attachment) "m1" "m1" ["m2"]
           (at_hour day0 10) (at_hour day0 10)
           (start_state (at_hour day0 10) None) eq_refl eq_refl).
Defined.

Lemma failed_fetch_is_skipped_witness :
  ∃ w',
    @process_email _ _ (Mailbox.services inbox Mailbox.modify_client)
      "m9" empty_state
    = (Ok tt, Build_State w' None [Processing "m9"; Skipped "m9"])
    ∧ @for_each _ string ["m9"; "m1"]
        (@process_email _ _ (Mailbox.services inbox Mailbox.modify_client))
        empty_state
      = @for_each _ string ["m1"]
          (@process_email _ _ (Mailbox.services inbox Mailbox.modify_client))
          (Build_State w' None [Processing "m9"; Skipped "m9"]).
Proof.
  apply (@failed_fetch_is_skipped (list string) Gmail.Message
           (Mailbox.services inbox Mailbox.modify_client)
           "m9" ["m1"] empty_state).
  left. exists ["messages.get"]. reflexivity.
Defined.

Lemma run_without_new_messages_witness :
  run one_task (at_hour day0 11) (Some ("m1" +:+ newline))
  = (Ok tt, start_state (at_hour day0 11) (Some ("m1" +:+ newline))).
Proof.
  apply (@run_without_new_messages datetime string (scripted one_task)
           (start_state (at_hour day0 11) (Some ("m1" +:+ newline)))
           (at_hour day0 11) (at_hour day0 11) ["m1"]);
    try reflexivity.
  intros i ->%list_elem_of_singleton.
  unfold load_ids. apply elem_of_list_to_set. vm_compute. left.
Defined.

Lemma messages_processed_in_order_witness :
  ∃ delta k,
    trace (run two_tasks (at_hour day0 10) None).2 = [] ++ delta
    ∧ processing_ids delta
      = take k (filter (λ i, i ∉ load_ids None) ["m1"])
    ∧ ((run two_tasks (at_hour day0 10) None).1 = Ok tt →
       k = length (filter (λ i, i ∉ load_ids None) ["m1"]))
    ∧ (filter (λ i, i ∉ load_ids None) ["m1"] ≠ [] → (0 < k)%nat).
Proof.
  exact (@messages_processed_in_order datetime string (scripted two_tasks)
           (start_state (at_hour day0 10) None)
           (at_hour day0 10) (at_hour day0 10) ["m1"]
           eq_refl eq_refl eq_refl eq_refl).
Defined.

Lemma download_returns_paths_of_parts_witness :
  ∃ paths w1,
    @Gmail.download_attachments _ _ (Mailbox.api inbox)
      Mailbox.read_only_client Mailbox.note "downloads" []
    = (Ok paths, w1)
    ∧ Forall (λ path,
        ∃ payload part name,
          Gmail.m_payload Mailbox.note = Some payload
          ∧ nested_in part (default [] (Gmail.parts payload))
          ∧ Gmail.filename part = Some name ∧ name ≠ EmptyString
          ∧ path = Gmail.path_join "downloads" name) paths
    ∧ (∀ payload, Gmail.m_payload Mailbox.note = Some payload →
         (length paths
          ≤ length (Gmail.get_all_parts (default [] (Gmail.parts payload))))%nat).
Proof.
  exact (@download_returns_paths_of_parts (list string) unit
           (Mailbox.api inbox) Mailbox.read_only_client tt Mailbox.note
           "downloads" [] [] eq_refl eq_refl).
Defined.

Lemma absolute_filename_leaves_download_dir_witness :
  @Gmail.download_attachments _ _ (Mailbox.api inbox)
    Mailbox.read_only_client Mailbox.crafted "downloads" []
  = (Ok ["/tmp/evil.sh"], ["write /tmp/evil.sh"]).
Proof.
  exact (@absolute_filename_leaves_download_dir (list string) unit
           (Mailbox.api inbox) Mailbox.read_only_client tt "m2"
           "/tmp/evil.sh" "cm0=" "cm0=" "downloads" [] []
           ["write /tmp/evil.sh"]
           eq_refl eq_refl ltac:(discriminate) eq_refl eq_refl eq_refl).
Defined.

Lemma default_construction_is_read_only_witness :
  @Gmail.construct _ _ (Mailbox.api inbox) None []
  = (Ok default_instance, Some default_instance,
     ["consent"; "write gmail_token.json"; "build"])
  ∧ ∃ c, Gmail.attributes default_instance = Some c
         ∧ Gmail.SCOPES c = Gmail.DEFAULT_SCOPES
         ∧ (∀ msg_id w0,
              @Gmail.mark_message_as_read _ _ (Mailbox.api inbox) c msg_id w0
              = (Ok false, w0))
         ∧ (∀ msg_id label w0,
              @Gmail.move_message_to_label _ _ (Mailbox.api inbox) c msg_id
                label w0
              = (Ok false, w0)).
Proof.
  assert (@Gmail.construct _ _ (Mailbox.api inbox) None []
          = (Ok default_instance, Some default_instance,
             ["consent"; "write gmail_token.json"; "build"])) as Hc
    by (vm_compute; reflexivity).
  split; [exact Hc|].
  exact (@default_construction_is_read_only (list string) unit
           (Mailbox.api inbox) [] _ default_instance _ eq_refl Hc).
Defined.

Lemma construct_once_witness :
  @Gmail.construct _ _ (Mailbox.api inbox) (Some default_instance)
    ["messages.list"]
  = (Ok default_instance, Some default_instance, ["messages.list"]).
Proof.
  apply (@construct_once (list string) unit (Mailbox.api inbox) None
           (Some default_instance) default_instance []
           ["consent"; "write gmail_token.json"; "build"] ["messages.list"]).
  vm_compute. reflexivity.
Defined.

Lemma authenticate_paths_witness :
  @Gmail._authenticate _ _ (Mailbox.api labelled) "gmail_token.json"
    "client_secrets.json" Gmail.DEFAULT_SCOPES []
  = (Ok (Some tt), ["read token"; "build"]).
Proof.
  destruct (@authenticate_paths (list string) unit (Mailbox.api labelled)
              "gmail_token.json" "client_secrets.json" Gmail.DEFAULT_SCOPES [])
    as [Hvalid _].
  rewrite (Hvalid Mailbox.fresh_creds ["read token"] eq_refl eq_refl eq_refl).
  reflexivity.
Defined.

Lemma existing_label_is_reused_witness :
  @Gmail.move_message_to_label _ _ (Mailbox.api labelled)
    Mailbox.modify_client "m1" "processed" []
  = (Ok true, ["labels.list"; "messages.modify"]).
Proof.
  destruct (@existing_label_is_reused (list string) unit
              (Mailbox.api labelled) Mailbox.modify_client tt "m1" "processed"
              (Mailbox.box_labels labelled) "Label_7" [] ["labels.list"]
              eq_refl ltac:(vm_compute; reflexivity) eq_refl
              ltac:(vm_compute; reflexivity) ltac:(discriminate))
    as [_ Hmove].
  rewrite Hmove. reflexivity.
Defined.

Lemma mailbox_backed (b : Mailbox.Box) (c : Gmail.Client unit) :
  @backed_by _ _ (Mailbox.services b c) (Mailbox.api b) c "downloads".
Proof. by repeat split. Qed.

Lemma read_only_pipeline_never_commits_witness :
  created_summaries
    (trace (@main _ _ (Mailbox.services inbox Mailbox.read_only_client)
              empty_state).2)
  = ["downloads/page.png"]
  ∧ committed_ids
      (trace (@main _ _ (Mailbox.services inbox Mailbox.read_only_client)
                empty_state).2)
    = [].
Proof.
  split; [vm_compute; reflexivity|].
  destruct (@read_only_pipeline_never_commits (list string) unit
              (Mailbox.services inbox Mailbox.read_only_client)
              (Mailbox.api inbox) Mailbox.read_only_client "downloads"
              empty_state (mailbox_backed _ _)
              ltac:(vm_compute; reflexivity)) as (delta & E & M).
  rewrite E. by cbn [empty_state trace app].
Defined.

Lemma search_error_looks_like_empty_mailbox_witness :
  @main _ _ (Mailbox.services unreachable Mailbox.modify_client) empty_state
  = (Ok tt, Build_State ["messages.list"] None []).
Proof.
  exact (@search_error_looks_like_empty_mailbox (list string) unit
           (Mailbox.services unreachable Mailbox.modify_client)
           (Mailbox.api unreachable) Mailbox.modify_client tt "downloads"
           "503" [] ["messages.list"] empty_state (mailbox_backed _ _)
           eq_refl eq_refl eq_refl eq_refl).
Defined.

Lemma failed_attachment_fetch_ends_run_witness :
  @Gmail.download_attachments _ _ (Mailbox.api lost_attachments)
    Mailbox.modify_client two_parts "downloads" ["messages.get"]
  = (Ok [], ["messages.get"; "attachments.get"])
  ∧ @for_each _ string ["m3"; "m4"]
      (@process_email _ _
         (Mailbox.services lost_attachments Mailbox.modify_client))
      empty_state
    = (Raise (AttributeError "get_email_body_text"),
       Build_State ["messages.get"; "attachments.get"] None
         [Processing "m3"]).
Proof.
  exact (@failed_attachment_fetch_ends_run (list string) unit
           (Mailbox.services lost_attachments Mailbox.modify_client)
           (Mailbox.api lost_attachments) Mailbox.modify_client tt
           "downloads" "m3" ["m4"] two_parts
           (Gmail.mkPart None None
              (Some [Mailbox.page; Mailbox.absolute_part]))
           Mailbox.page [Mailbox.absolute_part]
           {| Gmail.attachmentId := Some "att1"; Gmail.body_data := None |}
           "page.png" "att1" "404"
           ["messages.get"] ["messages.get"]
           ["messages.get"; "attachments.get"] empty_state
           (mailbox_backed _ _) eq_refl eq_refl eq_refl eq_refl eq_refl
           eq_refl ltac:(discriminate) eq_refl eq_refl ltac:(discriminate)
           eq_refl).
Defined.

Lemma saved_id_reads_back_stripped_witness :
  load_ids (save_id " m1 " (Some ("m0" +:+ newline)))
  = load_ids (Some ("m0" +:+ newline)) ∪ {[ "m1" ]}.
Proof.
  exact (saved_id_reads_back_stripped (Some ("m0" +:+ newline)) " m1 "
           eq_refl eq_refl).
Defined.

End ConcreteRuns.
